(** * Form Hole: the guestbook endpoint of hot-page/form-hole

    A shallow embedding of the two copies of the HTTP handler that the
    repository carries, [functions/index.js] (module [Functions]) and the
    second copy, the one with the [N/A] fallbacks (module [Part000]),
    together with the properties of the validation, storage and rendering
    pipeline.

    JavaScript strings are sequences of UTF-16 code units; JavaScript values
    are an inductive type; the [try]/[catch] of the handler is an error monad;
    the Firestore collection is an explicit state threaded through the
    handler; the clock and the availability of the store are inputs of each
    request. *)

From Stdlib Require Import String Ascii List NArith ZArith Bool Lia DecimalString Permutation.
Import ListNotations.

Set Warnings "-register-all".

(* ================================================================== *)
(** ** JavaScript strings and values *)
(* ================================================================== *)

(** Code that can throw: a value, or an exception for the nearest [catch]. *)
Module Try.

Definition attempt (A : Type) := option A.
Definition ret {A} (a : A) : attempt A := Some a.
Definition throw {A} : attempt A := None.
Definition bind {A B} (m : attempt A) (k : A -> attempt B) : attempt B :=
  match m with
  | Some a => k a
  | None => None
  end.

Fixpoint mapM {A B} (f : A -> attempt B) (l : list A) : attempt (list B) :=
  match l with
  | [] => ret []
  | a :: l' =>
      bind (f a) (fun b => bind (mapM f l') (fun bs => ret (b :: bs)))
  end.

End Try.
Export Try.

Notation "x <- m ;; k" := (bind m (fun x => k))
  (at level 61, m at next level, right associativity).

Module JS.

(** A string is the list of its UTF-16 code units; [s.length] is [length s]. *)
Definition jstring := list N.

(** An ASCII source literal. *)
Definition lit (s : string) : jstring :=
  map N_of_ascii (list_ascii_of_string s).

(** A source template: as [lit], with the double quote of the JavaScript
    source written as a backquote (no template of the source holds one). *)
Definition tpl (s : string) : jstring :=
  map (fun a => if Ascii.eqb a "`"%char then 34%N else N_of_ascii a)
      (list_ascii_of_string s).

Fixpoint jstr_eqb (a b : jstring) : bool :=
  match a, b with
  | [], [] => true
  | x :: a', y :: b' => N.eqb x y && jstr_eqb a' b'
  | _, _ => false
  end.

(** [String.prototype.startsWith], the step of the substring search. *)
Fixpoint starts_with (pat s : jstring) : bool :=
  match pat, s with
  | [], _ => true
  | _ :: _, [] => false
  | p :: pat', c :: s' => N.eqb p c && starts_with pat' s'
  end.

(** [s.includes(pat)]. *)
Fixpoint includes (pat s : jstring) : bool :=
  starts_with pat s ||
  match s with
  | [] => false
  | _ :: s' => includes pat s'
  end.

(** ECMAScript WhiteSpace and LineTerminator code points, the ones
    [String.prototype.trim] strips. *)
Definition is_ws (c : N) : bool :=
  ((9 <=? c) && (c <=? 13) || (c =? 32) || (c =? 160) || (c =? 5760)
   || (8192 <=? c) && (c <=? 8202)
   || (c =? 8232) || (c =? 8233) || (c =? 8239) || (c =? 8287)
   || (c =? 12288) || (c =? 65279))%N.

Fixpoint trimStart (s : jstring) : jstring :=
  match s with
  | c :: s' => if is_ws c then trimStart s' else s
  | [] => []
  end.

Definition trimEnd (s : jstring) : jstring := rev (trimStart (rev s)).

Definition trim (s : jstring) : jstring := trimEnd (trimStart s).

(** [s.replace(/c/g, rep)] for a one-character pattern [c] and a replacement
    text without [$]: every occurrence of [c], left to right. *)
Definition replace_all (c : N) (rep : jstring) (s : jstring) : jstring :=
  flat_map (fun x => if N.eqb x c then rep else [x]) s.

(** [Array.prototype.join] over strings. *)
Fixpoint join (sep : jstring) (l : list jstring) : jstring :=
  match l with
  | [] => []
  | [x] => x
  | x :: l' => x ++ sep ++ join sep l'
  end.

(** The numbers of the model: the integers that a Firestore integer, the
    JavaScript number read from it and the decimal text of that number
    agree on, those of absolute value at most 2^53 - 1.  Fractions, [NaN],
    the infinities and larger integers, which a JavaScript number rounds
    or prints with an exponent, are outside the model. *)
Definition safe (z : Z) : bool := (Z.abs z <=? 9007199254740991)%Z.

Record number := { num : Z; num_safe : safe num = true }.

(** The values the handler meets: fields of a parsed form body (strings,
    arrays, nested objects) and fields of a stored document: [null],
    booleans, numbers, strings, Timestamps ([VTime], carrying the instant
    in milliseconds that its [toDate()] yields), arrays and maps.  The
    other Firestore types (bytes, references, geographical points,
    vectors) are outside the model. *)
Inductive value : Type :=
| VUndefined
| VNull
| VBool (b : bool)
| VNum (n : number)
| VStr (s : jstring)
| VTime (ms : Z)
| VArr (l : list value)
| VObj (fields : list (jstring * value)).

Definition object := list (jstring * value).

(** Property read [o.k] / [o[k]]: [undefined] when the object has no [k]. *)
Fixpoint get (o : object) (k : jstring) : value :=
  match o with
  | [] => VUndefined
  | (k', v) :: o' => if jstr_eqb k' k then v else get o' k
  end.

(** [Object.keys(o)]. *)
Definition keys (o : object) : list jstring := map fst o.

(** ToBoolean. *)
Definition truthy (v : value) : bool :=
  match v with
  | VUndefined | VNull => false
  | VBool b => b
  | VNum n => negb (Z.eqb (num n) 0)
  | VStr s => negb (jstr_eqb s [])
  | VTime _ | VArr _ | VObj _ => true
  end.

(** [a || b]. *)
Definition js_or (a b : value) : value := if truthy a then a else b.

(** [typeof v === "string"]. *)
Definition is_string (v : value) : bool :=
  match v with VStr _ => true | _ => false end.

Definition decimal (z : Z) : jstring :=
  lit (NilEmpty.string_of_int (Z.to_int z)).

(** [k in o], for an own field of a map. *)
Definition has_key (o : object) (k : jstring) : bool :=
  existsb (jstr_eqb k) (keys o).

(** ToString, as a template literal applies it to an interpolated value.
    An array joins the strings of its elements with a comma, [null] and
    [undefined] elements giving the empty string.  A map is converted by
    its [toString]: the inherited one gives [[object Object]]; a field of
    the map named [toString] hides it, and since a stored field is never a
    function the conversion then ends in a TypeError (the inherited
    [valueOf] gives back the map, which is no primitive). *)
Fixpoint toString (v : value) : attempt jstring :=
  match v with
  | VUndefined => ret (lit "undefined")
  | VNull => ret (lit "null")
  | VBool true => ret (lit "true")
  | VBool false => ret (lit "false")
  | VNum n => ret (decimal (num n))
  | VStr s => ret s
  | VTime _ => ret (lit "[object Object]")
  | VArr l =>
      parts <-
        (fix elems (l : list value) : attempt (list jstring) :=
           match l with
           | [] => ret []
           | VUndefined :: l' => rest <- elems l' ;; ret ([] :: rest)
           | VNull :: l' => rest <- elems l' ;; ret ([] :: rest)
           | x :: l' => t <- toString x ;; rest <- elems l' ;; ret (t :: rest)
           end) l ;;
      ret (join (lit ",") parts)
  | VObj fields =>
      if has_key fields (lit "toString") then throw
      else ret (lit "[object Object]")
  end.

(** The text of a value that has one. *)
Definition text_of (v : value) : jstring :=
  match toString v with
  | Some t => t
  | None => []
  end.

(** The values ToString converts: those that hold no map with a field
    named [toString], at any depth of arrays. *)
Fixpoint printable (v : value) : bool :=
  match v with
  | VArr l =>
      (fix all (l : list value) : bool :=
         match l with
         | [] => true
         | x :: l' => printable x && all l'
         end) l
  | VObj fields => negb (has_key fields (lit "toString"))
  | _ => true
  end.

End JS.
Export JS.

(* ================================================================== *)
(** ** The request, the reply and the submission store *)
(* ================================================================== *)

Module Http.

(** What the handler reads of a request.  Node lower-cases header names, so
    [req.get("content-type")] and [req.headers["content-type"]] are the same
    lookup; a header value is a string.  The body is the object the
    platform's URL-encoded parser produced. *)
Record request := {
  method : jstring;
  headers : list (jstring * jstring);
  body : object
}.

Definition header (req : request) (k : jstring) : value :=
  match find (fun kv => jstr_eqb (fst kv) k) (headers req) with
  | Some kv => VStr (snd kv)
  | None => VUndefined
  end.

Definition req_get := header.

(** [res.status(code).send(text)]. *)
Record response := { status : nat; sent : jstring }.

(** Calls of the logger: the level and the message text of each call.  The
    further arguments of a call (the content type, the received fields, the
    name, the caught error) are not recorded. *)
Inductive level := LOG | WARN | ERROR.
Definition entry := (level * jstring)%type.

(** What the outside world decides for one request: the reading of the
    server clock ([new Date()]) and whether the store call of the request
    completes or is rejected. *)
Record env := { now : Z; store_up : bool }.

End Http.
Export Http.

Module Store.

(** A document of the [submissions] collection. *)
Record doc := { id : jstring; data : object }.

(** The collection, in insertion order. *)
Definition store := list doc.

(** The parts of the platform that are outside the repository: the two date
    renderings of the JavaScript engine, the order Firestore gives to
    [orderBy("timestamp", "desc")] and the identifier it gives to a new
    document.  A Timestamp of the store always converts to a valid Date, so
    the renderings are total. *)
Record Platform := {
  toISOString : Z -> jstring;
  toLocaleString : Z -> jstring;
  orderByTimestampDesc : store -> list doc;
  autoId : store -> jstring
}.

Section Calls.
Variable P : Platform.
Variable e : env.

(** [await db.collection("submissions").add(submission)]. *)
Definition add (db : store) (submission : object) : attempt store :=
  if store_up e
  then ret (db ++ [{| id := autoId P db; data := submission |}])
  else throw.

(** [await db.collection("submissions").orderBy("timestamp", "desc")
    .limit(n).get()]: the documents of the snapshot. *)
Definition query (db : store) (n : nat) : attempt (list doc) :=
  if store_up e
  then ret (firstn n (orderByTimestampDesc P db))
  else throw.

End Calls.

(** [v.toDate()]: only a Timestamp has the method, the call on anything
    else is a TypeError. *)
Definition toDate (v : value) : attempt Z :=
  match v with
  | VTime ms => ret ms
  | _ => throw
  end.

End Store.
Export Store.

(** The outcome of one request: the reply, the store after it and the log. *)
Record result := { reply : response; store_after : store; logged : list entry }.

Definition answer (code : nat) (text : jstring) (db : store) (l : list entry) : result :=
  {| reply := {| status := code; sent := text |}; store_after := db; logged := l |}.

(* ================================================================== *)
(** ** onRequest with cors *)
(* ================================================================== *)

Module Https.

Definition one_of (c : N) (l : list N) : bool := existsb (N.eqb c) l.

(** [req.method.toUpperCase() === "OPTIONS"], the test of the cors
    middleware: the code units that upper-case to the letters of the word
    (the dotless i and the long s among them). *)
Definition is_preflight (m : jstring) : bool :=
  match m with
  | [o; p; t; i; o'; n; s] =>
      one_of o [79; 111]%N && one_of p [80; 112]%N && one_of t [84; 116]%N
      && one_of i [73; 105; 305]%N && one_of o' [79; 111]%N
      && one_of n [78; 110]%N && one_of s [83; 115; 383]%N
  | _ => false
  end.

(** [onRequest({cors: true}, handler)]: the platform runs the cors
    middleware before the handler.  The middleware answers a preflight
    request itself, with status 204 and an empty body, and hands every
    other request on to the handler (the headers it adds to the reply are
    not part of the model). *)
Definition onRequest (handler : env -> request -> store -> result)
           (e : env) (req : request) (db : store) : result :=
  if is_preflight (method req) then answer 204 [] db []
  else handler e req db.

End Https.
Export Https.

(* ================================================================== *)
(** ** POST: validation and the write, shared by the two copies *)
(* ================================================================== *)

Module Post.

Definition urlencoded : jstring := lit "application/x-www-form-urlencoded".

(** [v.includes(pat)] on a header value. *)
Definition str_includes (v : value) (pat : jstring) : bool :=
  match v with
  | VStr s => includes pat s
  | _ => false
  end.

(** [!v || typeof v !== "string" || v.trim() === ""]; the third disjunct is
    evaluated on strings only. *)
Definition missing_or_empty (v : value) : bool :=
  negb (truthy v) || negb (is_string v) ||
  match v with
  | VStr s => jstr_eqb (trim s) []
  | _ => false
  end.

(** The text of a field that passed [missing_or_empty]. *)
Definition text (v : value) : jstring :=
  match v with
  | VStr s => s
  | _ => []
  end.

Definition allowedFields : list jstring := [lit "name"; lit "message"].

(** [receivedFields.length !== allowedFields.length ||
     !receivedFields.every((field) => allowedFields.includes(field))];
    [Object.keys] always gives an array, so [!Array.isArray(receivedFields)]
    is false. *)
Definition unexpected_fields (receivedFields : list jstring) : bool :=
  negb (Nat.eqb (length receivedFields) (length allowedFields)) ||
  negb (forallb (fun field => existsb (jstr_eqb field) allowedFields) receivedFields).

Definition msg_content_type : jstring :=
  lit "Invalid request format. Expected URL-encoded data.".
Definition msg_name_required : jstring :=
  lit "Validation Error: 'name' field is required and cannot be empty.".
Definition msg_message_required : jstring :=
  lit "Validation Error: 'message' field is required and cannot be empty.".
Definition msg_name_length : jstring :=
  lit "Validation Error: 'name' field must be 100 characters or less.".
Definition msg_message_length : jstring :=
  lit "Validation Error: 'message' field must be 2000 characters or less.".
Definition msg_fields : jstring :=
  lit "Validation Error: Only 'name' and 'message' fields are allowed.".
Definition msg_post_failed : jstring :=
  lit "Server Error: Could not process your submission.".

Section Handler.
Variable P : Platform.
(** The success text, the one difference between the two copies. *)
Variable thanks : jstring.

(** The [POST] branch of [exports.app]. *)
Definition handlePost (e : env) (req : request) (db : store) : result :=
  let contentType :=
    js_or (req_get req (lit "content-type")) (header req (lit "content-type")) in
  if negb (truthy contentType) || negb (str_includes contentType urlencoded) then
    answer 400 msg_content_type db [(WARN, lit "Invalid Content-Type:")]
  else
  let name := get (body req) (lit "name") in
  let message := get (body req) (lit "message") in
  let receivedFields := keys (body req) in
  if missing_or_empty name then
    answer 400 msg_name_required db
           [(WARN, lit "Validation failed: Name is missing or empty.")]
  else if missing_or_empty message then
    answer 400 msg_message_required db
           [(WARN, lit "Validation failed: Message is missing or empty.")]
  else if 100 <? length (text name) then
    answer 400 msg_name_length db
           [(WARN, lit "Validation failed: Name exceeds maximum length.")]
  else if 2000 <? length (text message) then
    answer 400 msg_message_length db
           [(WARN, lit "Validation failed: Message exceeds maximum length.")]
  else if unexpected_fields receivedFields then
    answer 400 msg_fields db
           [(WARN, lit "Validation failed: Unexpected fields received.")]
  else
    let submission : object :=
      [ (lit "name", VStr (trim (text name)));
        (lit "message", VStr (trim (text message)));
        (lit "timestamp", VTime (now e)) ] in
    match add P e db submission with
    | Some db' =>
        answer 200 thanks db' [(LOG, lit "Submission saved successfully:")]
    | None =>
        answer 500 msg_post_failed db
               [(ERROR, lit "Error processing POST request:")]
    end.

End Handler.

End Post.
Export Post.

Definition msg_get_failed : jstring :=
  lit "Server Error: Could not retrieve submissions.".
Definition msg_method : jstring :=
  lit "Method Not Allowed. Only GET and POST are supported.".
Definition no_submissions : jstring := tpl "<p>No submissions yet.</p>".

(** [`Retrieved ${submissions.length} submissions.`] *)
Definition retrieved (n : nat) : jstring :=
  lit "Retrieved " ++ decimal (Z.of_nat n) ++ lit " submissions.".

(* ================================================================== *)
(** ** functions/index.js *)
(* ================================================================== *)

Module Functions.

Definition LIMIT : nat := 500.

Definition thanks : jstring :=
  lit "Thanks for your message! It will be recorded for all eternity.".

(** The chain of replacements of [escapeHtml], on the text of a string. *)
Definition escapeText (s : jstring) : jstring :=
  replace_all 39 (lit "&#039")
    (replace_all 34 (lit "&quot")
      (replace_all 62 (lit "&gt")
        (replace_all 60 (lit "&lt")
          (replace_all 38 (lit "&amp") s)))).

Definition escapeHtml (unsafe : value) : value :=
  match unsafe with
  | VStr s => VStr (escapeText s)
  | _ => unsafe
  end.

(** The pieces of the submission template, between its interpolations. *)
Definition F_block_0 : jstring := tpl "
            <div class=`submission`>
              <p class=`name`>".
Definition F_block_1 : jstring := tpl "</p>
              <time data-timestamp=`".
Definition F_block_2 : jstring := tpl "`>
                ".
Definition F_block_3 : jstring := tpl "
              </time>
              <p class=`message`>".
Definition F_block_4 : jstring := tpl "</p>
            </div>".

(** The submission template as a function of its four interpolations:
    the name, the [data-timestamp] attribute, the timestamp text and the
    message. *)
Definition block (name attr time message : jstring) : jstring :=
  F_block_0 ++ name ++ F_block_1 ++ attr ++ F_block_2 ++ time
  ++ F_block_3 ++ message ++ F_block_4.

(** The page, before and after [${submissionsHtml}]. *)
Definition F_page_0 : jstring := tpl "
<!DOCTYPE html>
<html lang=`en`>
  <head>
    <meta charset=`UTF-8`>
    <meta name=`viewport` content=`width=device-width, initial-scale=1.0`>
    <title>HotFX Form Hole</title>
    <style>
      body {
        font-family: 'Helvetica Neue', Helvetica, Arial, sans-serif;
        line-height: 1.6;
        padding: 20px;
        background-color: #f4f4f4;
        color: #333;
      }

      h1 {
        color: black;
        padding-bottom: 10px;
      }

      h1 img {
        margin-right: 8px;
        position: relative;
        top: 20px;
      }

      .submission {
        background-color: #fff;
        padding: 15px;
        margin-bottom: 15px;
        box-shadow: 0 2px 4px rgba(0,0,0,0.1);
        max-width: 800px;
      }

      .name {
        font-weight: bold;
        margin-bottom: 5px;
      }

      .message {
        margin-bottom: 10px;
        white-space: pre-wrap;
      }

      .timestamp {
        color: #666;
        font-size: 0.8em;
      }

      code {
        font-family: Courier New, Courier, monospace;
        font-size: 1.1em;
      }
      
      a {
        color: DodgerBlue;
        text-decoration: none;
      }

      a:hover {
        text-decoration: underline;
      }

      a:visited {
        color: SlateBlue;
      }
    </style>
    <script>
      document.addEventListener('DOMContentLoaded', function() {
        document.querySelectorAll('time[data-timestamp]').forEach(function(el) {
          const date = new Date(el.getAttribute('data-timestamp'))
          if (!isNaN(date)) el.textContent = date.toLocaleString()
        })
      })
    </script>
  </head>
  <body>
    <h1>
      <img width=`200` src=`https://static.hot.page/hotfx-logo.svg`>
      Form Hole
    </h1>
    <p>
      This is a demo for the <code>&lt;hotfx-form&gt;</code> custom element.
      <a href=`https://fx.hot.page/form`>Read more</a> or
      <a href=`https://github.com/hot-page/form-hole`>view the source.</a>
    </p>
    ".
Definition F_page_1 : jstring := tpl "
  </body>
</html>".

Section Handler.
Variable P : Platform.

(** The arrow function mapped over the documents' data. *)
Definition renderSubmission (sub : object) : attempt jstring :=
  name <- toString (escapeHtml (get sub (lit "name"))) ;;
  iso <- toDate (get sub (lit "timestamp")) ;;
  attr <- toString (escapeHtml (VStr (toISOString P iso))) ;;
  local <- toDate (get sub (lit "timestamp")) ;;
  time <- toString (escapeHtml (VStr (toLocaleString P local))) ;;
  message <- toString (escapeHtml (get sub (lit "message"))) ;;
  ret (block name attr time message).

Definition page (submissionsHtml : jstring) : jstring :=
  F_page_0 ++ submissionsHtml ++ F_page_1.

(** The [GET] branch of [exports.app]. *)
Definition handleGet (e : env) (db : store) : result :=
  let failed l :=
    answer 500 msg_get_failed db (l ++ [(ERROR, lit "Error processing GET request:")]) in
  match query P e db LIMIT with
  | None => failed []
  | Some docs =>
      let submissions := map data docs in
      let l := [(LOG, retrieved (length submissions))] in
      if 0 <? length docs then
        match mapM renderSubmission (map data docs) with
        | Some blocks => answer 200 (page (join [] blocks)) db l
        | None => failed l
        end
      else answer 200 (page no_submissions) db l
  end.

(** The function handed to [onRequest]. *)
Definition callback (e : env) (req : request) (db : store) : result :=
  if jstr_eqb (method req) (lit "POST") then handlePost P thanks e req db
  else if jstr_eqb (method req) (lit "GET") then handleGet e db
  else answer 405 msg_method db [(WARN, lit "Unsupported method:")].

(** [exports.app]. *)
Definition app : env -> request -> store -> result := onRequest callback.

End Handler.

End Functions.

(* ================================================================== *)
(** ** The second copy of the handler *)
(* ================================================================== *)

Module Part000.

Definition LIMIT : nat := 50.

Definition thanks : jstring := lit "Thanks for writing your message!".

Definition escapeText (s : jstring) : jstring :=
  replace_all 39 (lit "&#039;")
    (replace_all 34 (lit "&quot;")
      (replace_all 62 (lit "&gt;")
        (replace_all 60 (lit "&lt;")
          (replace_all 38 (lit "&amp;") s)))).

Definition escapeHtml (unsafe : value) : value :=
  match unsafe with
  | VStr s => VStr (escapeText s)
  | _ => unsafe
  end.

Definition P_block_0 : jstring := tpl "
      <div class=`submission`>
        <p class=`name`>".
Definition P_block_1 : jstring := tpl "</p>
        <p class=`timestamp` data-timestamp=`".
Definition P_block_2 : jstring := tpl "`>".
Definition P_block_3 : jstring := tpl "</p>
        <p class=`message`>".
Definition P_block_4 : jstring := tpl "</p>
      </div>
        ".

(** The submission template as a function of its four interpolations:
    the name, the [data-timestamp] attribute, the timestamp text and the
    message. *)
Definition block (name attr time message : jstring) : jstring :=
  P_block_0 ++ name ++ P_block_1 ++ attr ++ P_block_2 ++ time
  ++ P_block_3 ++ message ++ P_block_4.

Definition P_page_0 : jstring := tpl "
<!DOCTYPE html>
<html lang=`en`>
  <head>
    <meta charset=`UTF-8`>
    <meta name=`viewport` content=`width=device-width, initial-scale=1.0`>
    <title>Submissions</title>
    <style>
      body { font-family: sans-serif; line-height: 1.6; padding: 20px; background-color: #f4f4f4; color: #333; }
      h1 { color: #555; border-bottom: 2px solid #eee; padding-bottom: 10px; }
      .submission { background-color: #fff; padding: 15px; margin-bottom: 15px; box-shadow: 0 2px 4px rgba(0,0,0,0.1); }
      .name { font-weight: bold; margin-bottom: 5px; }
      .message { margin-bottom: 10px; }
      .timestamp { color: #666; font-size: 0.8em; margin: 0; }
    </style>
    <script>
      document.addEventListener('DOMContentLoaded', function() {
        // Format all timestamps based on user's browser timezone
        document.querySelectorAll('.timestamp[data-timestamp]').forEach(function(el) {
          const timestamp = parseInt(el.getAttribute('data-timestamp'));
          if (timestamp) {
            const date = new Date(timestamp);
            el.textContent = date.toLocaleString();
          }
        });
      });
    </script>
  </head>
  <body>
    <h1>HotFX Form Hole</h1>
    ".
Definition P_page_1 : jstring := tpl "
  </body>
</html>".

Section Handler.
Variable P : Platform.

(** The callback of [snapshot.forEach]: the object pushed for a document. *)
Definition collect (d : doc) : attempt object :=
  let data := data d in
  formattedTimestamp <-
    (if truthy (get data (lit "timestamp"))
     then ms <- toDate (get data (lit "timestamp")) ;; ret (toLocaleString P ms)
     else ret (lit "N/A")) ;;
  ret [ (lit "id", VStr (id d));
        (lit "name", js_or (get data (lit "name")) (VStr (lit "N/A")));
        (lit "message", js_or (get data (lit "message")) (VStr (lit "N/A")));
        (lit "timestamp", VStr formattedTimestamp) ].

(** The arrow function mapped over the collected objects. *)
Definition renderSubmission (sub : object) : attempt jstring :=
  name <- toString (escapeHtml (get sub (lit "name"))) ;;
  attr <- toString (js_or (get sub (lit "rawTimestamp")) (VStr [])) ;;
  time <- toString (escapeHtml (get sub (lit "timestamp"))) ;;
  message <- toString (escapeHtml (get sub (lit "message"))) ;;
  ret (block name attr time message).

Definition page (submissionsHtml : jstring) : jstring :=
  P_page_0 ++ submissionsHtml ++ P_page_1.

(** The [GET] branch of [exports.app]. *)
Definition handleGet (e : env) (db : store) : result :=
  let failed l :=
    answer 500 msg_get_failed db (l ++ [(ERROR, lit "Error processing GET request:")]) in
  match docs <- query P e db LIMIT ;; mapM collect docs with
  | None => failed []
  | Some submissions =>
      let l := [(LOG, retrieved (length submissions))] in
      if 0 <? length submissions then
        match mapM renderSubmission submissions with
        | Some blocks => answer 200 (page (join [] blocks)) db l
        | None => failed l
        end
      else answer 200 (page no_submissions) db l
  end.

(** The function handed to [onRequest]. *)
Definition callback (e : env) (req : request) (db : store) : result :=
  if jstr_eqb (method req) (lit "POST") then handlePost P thanks e req db
  else if jstr_eqb (method req) (lit "GET") then handleGet e db
  else answer 405 msg_method db [(WARN, lit "Unsupported method:")].

(** [exports.app]. *)
Definition app : env -> request -> store -> result := onRequest callback.

End Handler.

End Part000.

(* ================================================================== *)
(** ** A reference platform *)
(* ================================================================== *)

(** One concrete platform, for running the handler on examples: the date
    renderings of a server whose time zone is UTC, a store that orders by
    the Firestore rank of the [timestamp] value and leaves out the documents
    without the field, and sequential document identifiers. *)
Module Reference.

Definition pad (w : nat) (z : Z) : jstring :=
  let d := decimal z in repeat 48%N (w - length d) ++ d.

(** Year, month and day of a day number counted from 1970-01-01. *)
Definition civil (days : Z) : Z * Z * Z :=
  let z := (days + 719468)%Z in
  let era := (z / 146097)%Z in
  let doe := (z - era * 146097)%Z in
  let yoe := ((doe - doe / 1460 + doe / 36524 - doe / 146096) / 365)%Z in
  let doy := (doe - (365 * yoe + yoe / 4 - yoe / 100))%Z in
  let mp := ((5 * doy + 2) / 153)%Z in
  let d := (doy - (153 * mp + 2) / 5 + 1)%Z in
  let m := (if mp <? 10 then mp + 3 else mp - 9)%Z in
  let y := (yoe + era * 400 + (if m <=? 2 then 1 else 0))%Z in
  (y, m, d).

(** [Date.prototype.toISOString]. *)
Definition iso (ms : Z) : jstring :=
  let '(y, m, d) := civil (ms / 86400000) in
  let r := (ms mod 86400000)%Z in
  (if (0 <=? y)%Z && (y <=? 9999)%Z then pad 4 y
   else (if (y <? 0)%Z then lit "-" else lit "+") ++ pad 6 (Z.abs y))
  ++ lit "-" ++ pad 2 m ++ lit "-" ++ pad 2 d
  ++ lit "T" ++ pad 2 (r / 3600000) ++ lit ":" ++ pad 2 (r / 60000 mod 60)
  ++ lit ":" ++ pad 2 (r / 1000 mod 60) ++ lit "." ++ pad 3 (r mod 1000)
  ++ lit "Z".

(** [toLocaleString("en-US")] in UTC: [M/D/YYYY, h:mm:ss AM]. *)
Definition enUS (ms : Z) : jstring :=
  let '(y, m, d) := civil (ms / 86400000) in
  let r := (ms mod 86400000)%Z in
  let h := (r / 3600000)%Z in
  decimal m ++ lit "/" ++ decimal d ++ lit "/" ++ decimal y ++ lit ", "
  ++ decimal (if (h mod 12 =? 0)%Z then 12%Z else (h mod 12)%Z)
  ++ lit ":" ++ pad 2 (r / 60000 mod 60) ++ lit ":" ++ pad 2 (r / 1000 mod 60)
  ++ (if (h <? 12)%Z then lit " AM" else lit " PM").

(** The rank of a value in the order of the store, and its place in the
    rank where the store compares further. *)
Definition sort_key (v : value) : Z * Z :=
  match v with
  | VUndefined | VNull => (0, 0)
  | VBool b => (1, if b then 1 else 0)
  | VNum n => (2, num n)
  | VTime ms => (3, ms)
  | VStr _ => (4, 0)
  | VArr _ => (5, 0)
  | VObj _ => (6, 0)
  end%Z.

Definition key_ltb (a b : Z * Z) : bool :=
  ((fst a <? fst b) || (fst a =? fst b) && (snd a <? snd b))%Z.

Definition timestamp_key (d : doc) : Z * Z := sort_key (get (data d) (lit "timestamp")).

Fixpoint insert_desc (d : doc) (l : list doc) : list doc :=
  match l with
  | [] => [d]
  | x :: l' =>
      if key_ltb (timestamp_key x) (timestamp_key d) then d :: l
      else x :: insert_desc d l'
  end.

Definition has_timestamp (d : doc) : bool :=
  existsb (jstr_eqb (lit "timestamp")) (keys (data d)).

Definition order_desc (db : store) : list doc :=
  fold_right insert_desc [] (filter has_timestamp db).

Definition platform : Platform :=
  {| toISOString := iso;
     toLocaleString := enUS;
     orderByTimestampDesc := order_desc;
     autoId := fun db => lit "doc" ++ decimal (Z.of_nat (length db)) |}.

End Reference.

(* ================================================================== *)
(** ** The vocabulary of the properties *)
(* ================================================================== *)

(** The code units that open or close markup or an attribute value. *)
Definition markup (c : N) : bool :=
  ((c =? 60) || (c =? 62) || (c =? 34) || (c =? 39))%N.

(** What the chain of five passes comes to, one code unit at a time. *)
Definition entity (amp lt gt quot apos : jstring) (c : N) : jstring :=
  if (c =? 38)%N then amp
  else if (c =? 60)%N then lt
  else if (c =? 62)%N then gt
  else if (c =? 34)%N then quot
  else if (c =? 39)%N then apos
  else [c].

(** The validation steps of a POST as the specification lists them: an
    ordered sequence of independent checks of the request, each with its own
    error text. *)
Inductive check :=
| ContentType | NamePresent | MessagePresent | NameLength | MessageLength | FieldSet.

Definition validation_order : list check :=
  [ContentType; NamePresent; MessagePresent; NameLength; MessageLength; FieldSet].

Definition fails (c : check) (req : request) : bool :=
  match c with
  | ContentType =>
      negb (truthy (header req (lit "content-type"))) ||
      negb (str_includes (header req (lit "content-type")) urlencoded)
  | NamePresent => missing_or_empty (get (body req) (lit "name"))
  | MessagePresent => missing_or_empty (get (body req) (lit "message"))
  | NameLength => 100 <? length (text (get (body req) (lit "name")))
  | MessageLength => 2000 <? length (text (get (body req) (lit "message")))
  | FieldSet => unexpected_fields (keys (body req))
  end.

Definition error_text (c : check) : jstring :=
  match c with
  | ContentType => msg_content_type
  | NamePresent => msg_name_required
  | MessagePresent => msg_message_required
  | NameLength => msg_name_length
  | MessageLength => msg_message_length
  | FieldSet => msg_fields
  end.

Definition warning (c : check) : entry :=
  (WARN,
   match c with
   | ContentType => lit "Invalid Content-Type:"
   | NamePresent => lit "Validation failed: Name is missing or empty."
   | MessagePresent => lit "Validation failed: Message is missing or empty."
   | NameLength => lit "Validation failed: Name exceeds maximum length."
   | MessageLength => lit "Validation failed: Message exceeds maximum length."
   | FieldSet => lit "Validation failed: Unexpected fields received."
   end).

(** The first check of the order that the request fails, if any. *)
Definition first_failure (req : request) : option check :=
  find (fun c => fails c req) validation_order.

(** The record a valid POST writes. *)
Definition submission_of (P : Platform) (e : env) (db : store) (name message : jstring) : doc :=
  {| id := autoId P db;
     data := [ (lit "name", VStr (trim name));
               (lit "message", VStr (trim message));
               (lit "timestamp", VTime (now e)) ] |}.

(** A request that fails two checks at once: a name of 101 characters
    together with a third field. *)
Definition long_name_extra_field : request :=
  {| method := lit "POST";
     headers := [(lit "content-type", lit "application/x-www-form-urlencoded; charset=UTF-8")];
     body := [ (lit "name", VStr (repeat 97%N 101));
               (lit "message", VStr (lit "hello"));
               (lit "extra", VStr (lit "1")) ] |}.

(** A name of 100 characters after trimming, 101 as received. *)
Definition padded_name : request :=
  {| method := lit "POST";
     headers := [(lit "content-type", lit "application/x-www-form-urlencoded")];
     body := [ (lit "name", VStr (32%N :: repeat 97%N 100));
               (lit "message", VStr (lit "hello")) ] |}.

(** A well-formed submission, with blanks around both fields. *)
Definition guest_post : request :=
  {| method := lit "POST";
     headers := [(lit "content-type", lit "application/x-www-form-urlencoded")];
     body := [ (lit "message", VStr (lit " hello there  "));
               (lit "name", VStr (lit "  Ada ")) ] |}.

Definition up_at (t : Z) : env := {| now := t; store_up := true |}.
Definition down_at (t : Z) : env := {| now := t; store_up := false |}.

(** The documents a GET reads when the store answers. *)
Definition snapshot (P : Platform) (limit : nat) (db : store) : list doc :=
  firstn limit (orderByTimestampDesc P db).

(** [submissionsHtml]: the blocks one after the other, or the placeholder
    of the empty listing. *)
Definition listing (blocks : list jstring) : jstring :=
  match blocks with
  | [] => no_submissions
  | _ => join [] blocks
  end.

(** A stored timestamp the second copy can render: a falsy value (an absent
    field, [null], ...) or a Firestore Timestamp. *)
Definition absent_or_timestamp (v : value) : bool :=
  match v with
  | VTime _ => true
  | _ => negb (truthy v)
  end.

(** The texts the second copy shows for a document. *)
Definition shown_field (v : value) : jstring :=
  text_of (Part000.escapeHtml (js_or v (VStr (lit "N/A")))).

Definition shown_time (P : Platform) (v : value) : jstring :=
  match v with
  | VTime ms => toLocaleString P ms
  | _ => lit "N/A"
  end.

Definition shown_block (P : Platform) (d : doc) : jstring :=
  Part000.block (shown_field (get (data d) (lit "name")))
                []
                (Part000.escapeText (shown_time P (get (data d) (lit "timestamp"))))
                (shown_field (get (data d) (lit "message"))).

Definition get_request : request :=
  {| method := lit "GET"; headers := []; body := [] |}.

(** A store of one well-formed record, as a POST leaves it. *)
Definition one_guest : store :=
  [ {| id := lit "doc0";
       data := [ (lit "name", VStr (lit "Ada"));
                 (lit "message", VStr (lit "hello there"));
                 (lit "timestamp", VTime 1700000000123) ] |} ].

(** A record without name and message whose timestamp is [null]. *)
Definition bare_record : store :=
  [ {| id := lit "doc0"; data := [ (lit "timestamp", VNull) ] |} ].

(** A record whose timestamp is a text, not a Timestamp. *)
Definition text_timestamp : store :=
  [ {| id := lit "doc0";
       data := [ (lit "name", VStr (lit "Ada"));
                 (lit "message", VStr (lit "hello there"));
                 (lit "timestamp", VStr (lit "yesterday")) ] |} ].

(** [n] records with the timestamps [1 .. n]. *)
Fixpoint guests (n : nat) : store :=
  match n with
  | O => []
  | S k =>
      guests k ++
      [ {| id := lit "doc" ++ decimal (Z.of_nat k);
           data := [ (lit "name", VStr (lit "Ada"));
                     (lit "message", VStr (lit "hello"));
                     (lit "timestamp", VTime (Z.of_nat n)) ] |} ]
  end.

(** The opening tag of a submission block, and the number of places of a
    text where a pattern starts. *)
Definition submission_marker : jstring := tpl "<div class=`submission`>".

Fixpoint occurrences (pat s : jstring) : nat :=
  (if starts_with pat s then 1 else 0) +
  match s with
  | [] => 0
  | _ :: s' => occurrences pat s'
  end.

(** [pat] and [s] differ at a place both have. *)
Fixpoint clash (pat s : jstring) : bool :=
  match pat, s with
  | p :: pat', c :: s' => negb (N.eqb p c) || clash pat' s'
  | _, _ => false
  end.

(** Whether [pat] starts at a place of [c] is settled inside [c], at every
    place of [c]: what follows [c] cannot change it. *)
Fixpoint decided (pat c : jstring) : bool :=
  match c with
  | [] => true
  | _ :: c' => (starts_with pat c || clash pat c) && decided pat c'
  end.

(** No [<] in a text. *)
Definition lt_free (s : jstring) : Prop := Forall (fun c => c <> 60%N) s.

(** A stored value whose text cannot hold markup of its own once it went
    through [escapeHtml]: anything but an array, which [escapeHtml] hands
    back as it is and the template joins. *)
Definition plain (v : value) : bool :=
  match v with
  | VArr _ => false
  | _ => true
  end.

Definition plain_doc (d : doc) : bool :=
  plain (get (data d) (lit "name")) && plain (get (data d) (lit "message")).

(** The five code units [escapeHtml] replaces. *)
Definition special (c : N) : bool :=
  ((c =? 38) || (c =? 60) || (c =? 62) || (c =? 34) || (c =? 39))%N.

(** A record as the POST branch builds it: the three fields in the order
    of the object literal, both texts trimmed and within their bounds. *)
Definition well_formed (d : doc) : Prop :=
  exists name message t,
    data d = [ (lit "name", VStr name);
               (lit "message", VStr message);
               (lit "timestamp", VTime t) ] /\
    1 <= length name <= 100 /\
    1 <= length message <= 2000 /\
    trim name = name /\ trim message = message.

(** The store after a sequence of requests, each with its environment. *)
Definition run (app : env -> request -> store -> result)
           (steps : list (env * request)) (db : store) : store :=
  fold_left (fun db step => store_after (app (fst step) (snd step) db)) steps db.

(** The instant of a Timestamp. *)
Definition time_of (v : value) : Z :=
  match v with
  | VTime ms => ms
  | _ => 0%Z
  end.

(** The block [functions/index.js] renders for a document whose timestamp
    is a Timestamp. *)
Definition Functions_shown_block (P : Platform) (d : doc) : jstring :=
  Functions.block
    (text_of (Functions.escapeHtml (get (data d) (lit "name"))))
    (Functions.escapeText (toISOString P (time_of (get (data d) (lit "timestamp")))))
    (Functions.escapeText (toLocaleString P (time_of (get (data d) (lit "timestamp")))))
    (text_of (Functions.escapeHtml (get (data d) (lit "message")))).

Definition is_timestamp (v : value) : bool :=
  match v with
  | VTime _ => true
  | _ => false
  end.

(** A form submission of the two fields. *)
Definition post_of (name message : jstring) : request :=
  {| method := lit "POST";
     headers := [(lit "content-type", lit "application/x-www-form-urlencoded")];
     body := [ (lit "name", VStr name); (lit "message", VStr message) ] |}.

(** Every reply of the POST branch, for a given success text. *)
Definition post_replies (thanks : jstring) : list response :=
  [ {| status := 400; sent := msg_content_type |};
    {| status := 400; sent := msg_name_required |};
    {| status := 400; sent := msg_message_required |};
    {| status := 400; sent := msg_name_length |};
    {| status := 400; sent := msg_message_length |};
    {| status := 400; sent := msg_fields |};
    {| status := 200; sent := thanks |};
    {| status := 500; sent := msg_post_failed |} ].

(** The level of the log goes with the status of the reply: one [LOG]
    entry for a 200, nothing for a 204, one [WARN] entry for a 400 or a
    405, and for a 500 an [ERROR] entry last, after [LOG] entries only. *)
Definition log_discipline (r : result) : Prop :=
  (status (reply r) = 200 -> exists m, logged r = [(LOG, m)]) /\
  (status (reply r) = 204 -> logged r = []) /\
  (status (reply r) = 400 \/ status (reply r) = 405 ->
   exists m, logged r = [(WARN, m)]) /\
  (status (reply r) = 500 ->
   exists l m, logged r = l ++ [(ERROR, m)] /\ Forall (fun en => fst en = LOG) l).

(** The number of [<] in a text. *)
Definition count_lt (s : jstring) : nat := count_occ N.eq_dec s 60%N.

(** A record whose texts hold markup. *)
Definition tagged_guest : store :=
  [ {| id := lit "doc0";
       data := [ (lit "name", VStr (lit "<b>Ada</b>"));
                 (lit "message", VStr (lit "1 < 2 <script>"));
                 (lit "timestamp", VTime 5) ] |} ].

(** Induction over values, through the elements of arrays. *)
Definition value_induction (Q : value -> Prop)
           (Hu : Q VUndefined) (Hn : Q VNull) (Hb : forall b, Q (VBool b))
           (Hnum : forall n, Q (VNum n)) (Hs : forall s, Q (VStr s))
           (Ht : forall ms, Q (VTime ms))
           (Ha : forall l, Forall Q l -> Q (VArr l))
           (Ho : forall fields, Q (VObj fields)) : forall v, Q v :=
  fix go (v : value) : Q v :=
    match v with
    | VUndefined => Hu
    | VNull => Hn
    | VBool b => Hb b
    | VNum n => Hnum n
    | VStr s => Hs s
    | VTime ms => Ht ms
    | VArr l =>
        Ha l ((fix all (l : list value) : Forall Q l :=
                 match l with
                 | [] => Forall_nil Q
                 | x :: l' => Forall_cons x (go x) (all l')
                 end) l)
    | VObj fields => Ho fields
    end.

(** The documents each copy renders: a timestamp it accepts, and a name
    and a message that convert to text. *)
Definition Functions_renders (d : doc) : bool :=
  is_timestamp (get (data d) (lit "timestamp"))
  && printable (get (data d) (lit "name"))
  && printable (get (data d) (lit "message")).

Definition Part000_renders (d : doc) : bool :=
  absent_or_timestamp (get (data d) (lit "timestamp"))
  && printable (get (data d) (lit "name"))
  && printable (get (data d) (lit "message")).

(** The text of a block and of the page of the second copy, written out:
    the template literals with the attribute left empty. *)
Definition Part000_block_text (name time message : jstring) : jstring :=
  tpl "
      <div class=`submission`>
        <p class=`name`>" ++ name ++ tpl "</p>
        <p class=`timestamp` data-timestamp=``>" ++ time ++ tpl "</p>
        <p class=`message`>" ++ message ++ tpl "</p>
      </div>
        ".

Definition Part000_page_text (submissionsHtml : jstring) : jstring :=
  tpl "
<!DOCTYPE html>
<html lang=`en`>
  <head>
    <meta charset=`UTF-8`>
    <meta name=`viewport` content=`width=device-width, initial-scale=1.0`>
    <title>Submissions</title>
    <style>
      body { font-family: sans-serif; line-height: 1.6; padding: 20px; background-color: #f4f4f4; color: #333; }
      h1 { color: #555; border-bottom: 2px solid #eee; padding-bottom: 10px; }
      .submission { background-color: #fff; padding: 15px; margin-bottom: 15px; box-shadow: 0 2px 4px rgba(0,0,0,0.1); }
      .name { font-weight: bold; margin-bottom: 5px; }
      .message { margin-bottom: 10px; }
      .timestamp { color: #666; font-size: 0.8em; margin: 0; }
    </style>
    <script>
      document.addEventListener('DOMContentLoaded', function() {
        // Format all timestamps based on user's browser timezone
        document.querySelectorAll('.timestamp[data-timestamp]').forEach(function(el) {
          const timestamp = parseInt(el.getAttribute('data-timestamp'));
          if (timestamp) {
            const date = new Date(timestamp);
            el.textContent = date.toLocaleString();
          }
        });
      });
    </script>
  </head>
  <body>
    <h1>HotFX Form Hole</h1>
    " ++ submissionsHtml ++ tpl "
  </body>
</html>".

(** A record without name and message whose timestamp is a text. *)
Definition nameless_text_timestamp : store :=
  [ {| id := lit "doc0"; data := [ (lit "timestamp", VStr (lit "yesterday")) ] |} ].

(** A record without name whose message is a map with a field named
    [toString]. *)
Definition nameless_map_message : store :=
  [ {| id := lit "doc0";
       data := [ (lit "message", VObj [(lit "toString", VStr (lit "x"))]);
                 (lit "timestamp", VNull) ] |} ].

(** A record with a Timestamp whose name is such a map. *)
Definition map_name : store :=
  [ {| id := lit "doc0";
       data := [ (lit "name", VObj [(lit "toString", VStr (lit "x"))]);
                 (lit "message", VStr (lit "hello"));
                 (lit "timestamp", VTime 0) ] |} ].

(* ================================================================== *)
(** ** Strings *)
(* ================================================================== *)

Example trim_example :
  trim (lit "  ab c  ") = lit "ab c" /\ trim (lit "   ") = [] /\
  includes (lit "b c") (lit "ab cd") = true /\
  toString (VArr [ VNum {| num := (-12)%Z; num_safe := eq_refl |}; VNull;
                   VStr (lit "x");
                   VArr [VNum {| num := 0%Z; num_safe := eq_refl |}] ]) =
    Some (lit "-12,,x,0") /\
  toString (VArr [VObj [(lit "toString", VStr (lit "x"))]]) = None.
Proof. repeat split; reflexivity. Qed.

Example reference_dates :
  Reference.iso 1700000000123 = lit "2023-11-14T22:13:20.123Z" /\
  Reference.iso (-1) = lit "1969-12-31T23:59:59.999Z" /\
  Reference.enUS 1700000000123 = lit "11/14/2023, 10:13:20 PM" /\
  Reference.enUS 0 = lit "1/1/1970, 12:00:00 AM".
Proof. repeat split; reflexivity. Qed.

Lemma jstr_eqb_refl (a : jstring) : jstr_eqb a a = true.
Proof.
  induction a as [|x a IH]; simpl; [reflexivity|].
  now rewrite N.eqb_refl, IH.
Qed.

Lemma jstr_eqb_eq (a b : jstring) : jstr_eqb a b = true <-> a = b.
Proof.
  split; [|intros ->; apply jstr_eqb_refl].
  revert b; induction a as [|x a IH]; intros [|y b]; simpl; try discriminate; auto.
  rewrite andb_true_iff, N.eqb_eq. intros [-> H]. now rewrite (IH _ H).
Qed.

(** ** Conversion to text *)

Lemma toString_none_iff (v : value) : toString v = None <-> printable v = false.
Proof.
  induction v as [| |b|n|s|ms|l IH|fields] using value_induction;
    try (simpl; split; discriminate); try (destruct b; simpl; split; discriminate).
  - cbn [toString printable].
    set (elems := fix elems (l : list value) : attempt (list jstring) :=
           match l with
           | [] => ret []
           | VUndefined :: l' => rest <- elems l' ;; ret ([] :: rest)
           | VNull :: l' => rest <- elems l' ;; ret ([] :: rest)
           | x :: l' => t <- toString x ;; rest <- elems l' ;; ret (t :: rest)
           end).
    set (all := fix all (l : list value) : bool :=
           match l with
           | [] => true
           | x :: l' => printable x && all l'
           end).
    assert (H : elems l = None <-> all l = false).
    { induction IH as [|x l Hx _ IHl]; [simpl; split; discriminate|].
      assert (Hgen : (t <- toString x ;; rest <- elems l ;; ret (t :: rest)) = None <->
                     printable x && all l = false).
      { rewrite andb_false_iff, <- Hx, <- IHl.
        destruct (toString x); simpl; [|tauto].
        destruct (elems l); simpl; split; try discriminate; try tauto.
        intros [H|H]; discriminate H. }
      destruct x; try exact Hgen;
        (cbn [elems all printable andb]; rewrite <- IHl;
         destruct (elems l); simpl; split; discriminate || tauto). }
    destruct (elems l) eqn:E; simpl.
    + split; [discriminate|]. intros Hall. apply H in Hall. discriminate Hall.
    + split; [intros _; now apply H|reflexivity].
  - simpl. destruct (has_key fields (lit "toString")); simpl; split;
      try discriminate; reflexivity.
Qed.

Lemma toString_printable (v : value) :
  printable v = true -> toString v = Some (text_of v).
Proof.
  intros H. unfold text_of. destruct (toString v) eqn:E; [reflexivity|].
  apply toString_none_iff in E. congruence.
Qed.

Lemma toString_text (v : value) (t : jstring) : toString v = Some t -> text_of v = t.
Proof. unfold text_of. now intros ->. Qed.

Lemma toString_some_printable (v : value) (t : jstring) :
  toString v = Some t -> printable v = true.
Proof.
  intros H. destruct (printable v) eqn:E; [reflexivity|].
  apply toString_none_iff in E. congruence.
Qed.

Lemma falsy_printable (v : value) : truthy v = false -> printable v = true.
Proof. destruct v; simpl; try reflexivity; discriminate. Qed.

Lemma printable_js_or (v : value) (s : jstring) :
  printable (js_or v (VStr s)) = printable v.
Proof.
  unfold js_or. destruct (truthy v) eqn:E; [reflexivity|].
  now rewrite (falsy_printable v E).
Qed.

Lemma Functions_escapeHtml_printable (v : value) :
  printable (Functions.escapeHtml v) = printable v.
Proof. now destruct v. Qed.

Lemma Part000_escapeHtml_printable (v : value) :
  printable (Part000.escapeHtml v) = printable v.
Proof. now destruct v. Qed.

Lemma replace_all_app (c : N) (rep a b : jstring) :
  replace_all c rep (a ++ b) = replace_all c rep a ++ replace_all c rep b.
Proof. unfold replace_all. apply flat_map_app. Qed.

Lemma replace_all_cons (c : N) (rep : jstring) (x : N) (s : jstring) :
  replace_all c rep (x :: s) = (if N.eqb x c then rep else [x]) ++ replace_all c rep s.
Proof. reflexivity. Qed.

Lemma Part000_escapeText_cons (c : N) (s : jstring) :
  Part000.escapeText (c :: s) =
  entity (lit "&amp;") (lit "&lt;") (lit "&gt;") (lit "&quot;") (lit "&#039;") c
  ++ Part000.escapeText s.
Proof.
  unfold Part000.escapeText, entity.
  rewrite (replace_all_cons 38).
  destruct (N.eqb_spec c 38) as [->|H38];
    [now rewrite !replace_all_app|].
  rewrite replace_all_app, (replace_all_cons 60 _ c).
  destruct (N.eqb_spec c 60) as [->|H60];
    [now rewrite !replace_all_app|].
  rewrite !replace_all_app, (replace_all_cons 62 _ c).
  destruct (N.eqb_spec c 62) as [->|H62];
    [now rewrite !replace_all_app|].
  rewrite !replace_all_app, (replace_all_cons 34 _ c).
  destruct (N.eqb_spec c 34) as [->|H34];
    [now rewrite !replace_all_app|].
  rewrite !replace_all_app, (replace_all_cons 39 _ c).
  destruct (N.eqb_spec c 39) as [->|H39]; reflexivity.
Qed.

Lemma Functions_escapeText_cons (c : N) (s : jstring) :
  Functions.escapeText (c :: s) =
  entity (lit "&amp") (lit "&lt") (lit "&gt") (lit "&quot") (lit "&#039") c
  ++ Functions.escapeText s.
Proof.
  unfold Functions.escapeText, entity.
  rewrite (replace_all_cons 38).
  destruct (N.eqb_spec c 38) as [->|H38];
    [now rewrite !replace_all_app|].
  rewrite replace_all_app, (replace_all_cons 60 _ c).
  destruct (N.eqb_spec c 60) as [->|H60];
    [now rewrite !replace_all_app|].
  rewrite !replace_all_app, (replace_all_cons 62 _ c).
  destruct (N.eqb_spec c 62) as [->|H62];
    [now rewrite !replace_all_app|].
  rewrite !replace_all_app, (replace_all_cons 34 _ c).
  destruct (N.eqb_spec c 34) as [->|H34];
    [now rewrite !replace_all_app|].
  rewrite !replace_all_app, (replace_all_cons 39 _ c).
  destruct (N.eqb_spec c 39) as [->|H39]; reflexivity.
Qed.

Lemma entity_no_markup (amp lt gt quot apos : jstring) (c : N) :
  Forall (fun x => markup x = false) amp ->
  Forall (fun x => markup x = false) lt ->
  Forall (fun x => markup x = false) gt ->
  Forall (fun x => markup x = false) quot ->
  Forall (fun x => markup x = false) apos ->
  Forall (fun x => markup x = false) (entity amp lt gt quot apos c).
Proof.
  intros Ha Hl Hg Hq Hp. unfold entity.
  destruct (N.eqb_spec c 38); [exact Ha|].
  destruct (N.eqb_spec c 60) as [|H60]; [exact Hl|].
  destruct (N.eqb_spec c 62) as [|H62]; [exact Hg|].
  destruct (N.eqb_spec c 34) as [|H34]; [exact Hq|].
  destruct (N.eqb_spec c 39) as [|H39]; [exact Hp|].
  constructor; [|constructor]. unfold markup.
  apply N.eqb_neq in H60, H62, H34, H39. now rewrite H60, H62, H34, H39.
Qed.

Ltac no_markup_literal := repeat constructor.

Lemma Functions_escapeText_safe (s : jstring) :
  Forall (fun c => markup c = false) (Functions.escapeText s).
Proof.
  induction s as [|c s IH]; [constructor|].
  rewrite Functions_escapeText_cons. apply Forall_app. split; [|exact IH].
  apply entity_no_markup; no_markup_literal.
Qed.

Lemma Part000_escapeText_safe (s : jstring) :
  Forall (fun c => markup c = false) (Part000.escapeText s).
Proof.
  induction s as [|c s IH]; [constructor|].
  rewrite Part000_escapeText_cons. apply Forall_app. split; [|exact IH].
  apply entity_no_markup; no_markup_literal.
Qed.

(** Each copy of [escapeHtml] is one pass that spells every special code
    unit as its entity: no later replacement touches what an earlier one
    inserted. *)
Lemma Part000_escapeText_one_pass (s : jstring) :
  Part000.escapeText s =
  flat_map (entity (lit "&amp;") (lit "&lt;") (lit "&gt;") (lit "&quot;") (lit "&#039;")) s.
Proof.
  induction s as [|c s IH]; [reflexivity|].
  rewrite Part000_escapeText_cons, IH. reflexivity.
Qed.

Lemma Functions_escapeText_one_pass (s : jstring) :
  Functions.escapeText s =
  flat_map (entity (lit "&amp") (lit "&lt") (lit "&gt") (lit "&quot") (lit "&#039")) s.
Proof.
  induction s as [|c s IH]; [reflexivity|].
  rewrite Functions_escapeText_cons, IH. reflexivity.
Qed.

(** C3: [escapeHtml] is claimed to spell the five special characters as
    [&amp;], [&lt;], [&gt;], [&quot;] and [&#039;].  The second copy does; in
    [functions/index.js] every entity lacks its closing semicolon, so the
    specification's own example [<b>x</b>] does not come out as
    [&lt;b&gt;x&lt;/b&gt;], and an apostrophe before a digit runs into the
    digits that follow it. *)
Theorem C3_escapeHtml_entities_at_example :
  Functions.escapeHtml (VStr (lit "<b>x</b>")) = VStr (lit "&ltb&gtx&lt/b&gt") /\
  Functions.escapeHtml (VStr (lit "'90s & on")) = VStr (lit "&#03990s &amp on") /\
  Part000.escapeHtml (VStr (lit "<b>x</b>")) = VStr (lit "&lt;b&gt;x&lt;/b&gt;") /\
  Part000.escapeHtml (VStr (lit "'90s & on")) = VStr (lit "&#039;90s &amp; on").
Proof. repeat split; reflexivity. Qed.

(** C9: for every input string, the text [escapeHtml] returns holds no raw
    [<], [>], double quote or apostrophe, in both copies of the handler
    (the one whose entities end in a semicolon and the one whose entities
    do not). *)
Theorem C9_escapeHtml_no_raw_markup (s : jstring) :
  (exists t, toString (Functions.escapeHtml (VStr s)) = Some t /\
             Forall (fun c => markup c = false) t) /\
  (exists t, toString (Part000.escapeHtml (VStr s)) = Some t /\
             Forall (fun c => markup c = false) t).
Proof.
  split; simpl.
  - exists (Functions.escapeText s). split; [reflexivity|].
    apply Functions_escapeText_safe.
  - exists (Part000.escapeText s). split; [reflexivity|].
    apply Part000_escapeText_safe.
Qed.

(* ================================================================== *)
(** ** POST *)
(* ================================================================== *)

Lemma js_or_same (v : value) : js_or v v = v.
Proof. unfold js_or. now destruct (truthy v). Qed.

(** The nested [if ... return] of the handler is the ordered sequence of
    checks: the reply is decided by the first check that fails, and the
    write is reached only when none does. *)
Lemma handlePost_first_failure (P : Platform) (thanks : jstring)
      (e : env) (req : request) (db : store) :
  handlePost P thanks e req db =
  match first_failure req with
  | Some c => answer 400 (error_text c) db [warning c]
  | None =>
      match add P e db
              [ (lit "name", VStr (trim (text (get (body req) (lit "name")))));
                (lit "message", VStr (trim (text (get (body req) (lit "message")))));
                (lit "timestamp", VTime (now e)) ] with
      | Some db' => answer 200 thanks db' [(LOG, lit "Submission saved successfully:")]
      | None => answer 500 msg_post_failed db [(ERROR, lit "Error processing POST request:")]
      end
  end.
Proof.
  unfold handlePost, first_failure, validation_order, req_get.
  rewrite js_or_same. cbn [find fails].
  destruct (negb (truthy (header req (lit "content-type")))
            || negb (str_includes (header req (lit "content-type")) urlencoded));
    [reflexivity|].
  destruct (missing_or_empty (get (body req) (lit "name"))); [reflexivity|].
  destruct (missing_or_empty (get (body req) (lit "message"))); [reflexivity|].
  destruct (100 <? length (text (get (body req) (lit "name")))); [reflexivity|].
  destruct (2000 <? length (text (get (body req) (lit "message")))); [reflexivity|].
  destruct (unexpected_fields (keys (body req))); reflexivity.
Qed.

Lemma Functions_app_post (P : Platform) (e : env) (req : request) (db : store) :
  method req = lit "POST" ->
  Functions.app P e req db = handlePost P Functions.thanks e req db.
Proof. intros H. unfold Functions.app, Functions.callback, onRequest. now rewrite H. Qed.

Lemma Part000_app_post (P : Platform) (e : env) (req : request) (db : store) :
  method req = lit "POST" ->
  Part000.app P e req db = handlePost P Part000.thanks e req db.
Proof. intros H. unfold Part000.app, Part000.callback, onRequest. now rewrite H. Qed.




Lemma first_failure_fails (req : request) (c : check) :
  fails c req = true -> exists c', first_failure req = Some c'.
Proof.
  intros Hc. unfold first_failure.
  destruct (find (fun c => fails c req) validation_order) as [c'|] eqn:Hf.
  - now exists c'.
  - assert (Hin : In c validation_order) by (destruct c; simpl; tauto).
    apply (find_none _ _ Hf) in Hin. simpl in Hin. congruence.
Qed.

(** C4: a POST that fails any of the validation checks (content type,
    missing, empty or non-string field, oversized field, wrong field set) is
    answered 400 and the store after the request is the store before it.
    Both copies of the handler. *)
Theorem C4_invalid_post_no_write (P : Platform) (e : env) (req : request) (db : store)
        (c : check) :
  method req = lit "POST" ->
  fails c req = true ->
  (status (reply (Functions.app P e req db)) = 400 /\
   store_after (Functions.app P e req db) = db) /\
  (status (reply (Part000.app P e req db)) = 400 /\
   store_after (Part000.app P e req db) = db).
Proof.
  intros Hm Hc.
  rewrite Functions_app_post, Part000_app_post by exact Hm.
  rewrite !handlePost_first_failure.
  destruct (first_failure_fails req c Hc) as [c' ->].
  repeat split; reflexivity.
Qed.

Lemma C4_invalid_post_no_write_witness :
  method long_name_extra_field = lit "POST" /\
  fails FieldSet long_name_extra_field = true /\
  status (reply (Part000.app Reference.platform (up_at 0) long_name_extra_field [])) = 400 /\
  store_after (Part000.app Reference.platform (up_at 0) long_name_extra_field []) = [].
Proof.
  split; [reflexivity|]. split; [reflexivity|].
  apply (C4_invalid_post_no_write Reference.platform (up_at 0)
           long_name_extra_field [] FieldSet); reflexivity.
Defined.

Lemma includes_nonempty (pat : jstring) (s : jstring) :
  pat <> [] -> includes pat s = true -> s <> [].
Proof.
  intros Hp H ->. destruct pat; [now apply Hp|]. discriminate.
Qed.

Lemma trim_nil_length (s : jstring) : 1 <= length (trim s) -> jstr_eqb (trim s) [] = false.
Proof. destruct (trim s); simpl; [lia|reflexivity]. Qed.

Lemma trim_nonempty (s : jstring) : 1 <= length (trim s) -> jstr_eqb s [] = false.
Proof. destruct s; [simpl; lia|reflexivity]. Qed.

Lemma present_field (s : jstring) :
  1 <= length (trim s) -> missing_or_empty (VStr s) = false.
Proof.
  intros H. unfold missing_or_empty. simpl.
  now rewrite (trim_nonempty s H), (trim_nil_length s H).
Qed.

Lemma exact_fields (ks : list jstring) :
  Permutation ks allowedFields -> unexpected_fields ks = false.
Proof.
  intros Hp. unfold unexpected_fields.
  rewrite (Permutation_length Hp), Nat.eqb_refl. simpl.
  apply negb_false_iff, forallb_forall. intros k Hk.
  apply (Permutation_in _ Hp) in Hk.
  destruct Hk as [<-|[<-|[]]]; reflexivity.
Qed.

(** A request that meets the conditions of the write passes every check. *)
Lemma valid_no_failure (req : request) (ct name message : jstring) :
  header req (lit "content-type") = VStr ct ->
  includes urlencoded ct = true ->
  Permutation (keys (body req)) [lit "name"; lit "message"] ->
  get (body req) (lit "name") = VStr name ->
  get (body req) (lit "message") = VStr message ->
  1 <= length (trim name) -> length name <= 100 ->
  1 <= length (trim message) -> length message <= 2000 ->
  first_failure req = None.
Proof.
  intros Hh Hinc Hkeys Hn Hm Hn1 Hn2 Hm1 Hm2.
  unfold first_failure, validation_order. cbn [find fails].
  rewrite Hh, Hn, Hm. cbn [str_includes text truthy].
  rewrite Hinc.
  assert (Hct : jstr_eqb ct [] = false).
  { destruct ct; [|reflexivity]. exfalso.
    now apply (includes_nonempty urlencoded []). }
  rewrite Hct. cbn [negb orb].
  rewrite (present_field name Hn1), (present_field message Hm1).
  destruct (Nat.ltb_spec 100 (length name)) as [Hlt|_]; [lia|].
  destruct (Nat.ltb_spec 2000 (length message)) as [Hlt|_]; [lia|].
  now rewrite (exact_fields _ Hkeys).
Qed.

(** C1, as the handler has it: a POST whose content type contains
    [application/x-www-form-urlencoded] and whose body has exactly the
    fields [name] and [message], both strings that are not empty after
    trimming and that are, as received (before trimming), at most 100 and
    at most 2000 characters long, is answered 200 when the insert into the
    store completes, and the store gains exactly one record: the trimmed
    name, the trimmed message and the reading of the server clock.  Both
    copies of the handler. *)
Theorem C1_valid_post_stores_one_record
        (P : Platform) (e : env) (req : request) (db : store)
        (ct name message : jstring) :
  method req = lit "POST" ->
  header req (lit "content-type") = VStr ct ->
  includes urlencoded ct = true ->
  Permutation (keys (body req)) [lit "name"; lit "message"] ->
  get (body req) (lit "name") = VStr name ->
  get (body req) (lit "message") = VStr message ->
  1 <= length (trim name) -> length name <= 100 ->
  1 <= length (trim message) -> length message <= 2000 ->
  store_up e = true ->
  Functions.app P e req db =
    answer 200 Functions.thanks (db ++ [submission_of P e db name message])
           [(LOG, lit "Submission saved successfully:")] /\
  Part000.app P e req db =
    answer 200 Part000.thanks (db ++ [submission_of P e db name message])
           [(LOG, lit "Submission saved successfully:")].
Proof.
  intros Hpost Hh Hinc Hkeys Hn Hm Hn1 Hn2 Hm1 Hm2 Hup.
  rewrite Functions_app_post, Part000_app_post by exact Hpost.
  rewrite !handlePost_first_failure.
  rewrite (valid_no_failure req ct name message Hh Hinc Hkeys Hn Hm Hn1 Hn2 Hm1 Hm2).
  unfold add. rewrite Hup, Hn, Hm. split; reflexivity.
Qed.

Lemma C1_valid_post_stores_one_record_witness :
  Functions.app Reference.platform (up_at 1700000000123) guest_post [] =
  answer 200 Functions.thanks
         [ {| id := lit "doc0";
              data := [ (lit "name", VStr (lit "Ada"));
                        (lit "message", VStr (lit "hello there"));
                        (lit "timestamp", VTime 1700000000123) ] |} ]
         [(LOG, lit "Submission saved successfully:")].
Proof.
  apply (C1_valid_post_stores_one_record Reference.platform (up_at 1700000000123)
           guest_post [] (lit "application/x-www-form-urlencoded")
           (lit "  Ada ") (lit " hello there  ")).
  - reflexivity.
  - reflexivity.
  - reflexivity.
  - apply perm_swap.
  - reflexivity.
  - reflexivity.
  - simpl; lia.
  - simpl; lia.
  - simpl; lia.
  - simpl; lia.
  - reflexivity.
Defined.

(** C1 as it is worded bounds the trimmed lengths.  A name of one blank
    and a hundred letters has 100 characters after trimming, the request
    meets every other condition of the claim and the store is available,
    yet the reply is the 400 of the name length check and nothing is
    written: the handler measures the name as received. *)
Lemma C1_trimmed_length_counterexample :
  (method padded_name = lit "POST" /\
   str_includes (header padded_name (lit "content-type")) urlencoded = true /\
   keys (body padded_name) = [lit "name"; lit "message"] /\
   (exists name message,
       get (body padded_name) (lit "name") = VStr name /\
       get (body padded_name) (lit "message") = VStr message /\
       1 <= length (trim name) <= 100 /\
       1 <= length (trim message) <= 2000)) /\
  Functions.app Reference.platform (up_at 0) padded_name [] =
    answer 400 msg_name_length [] [warning NameLength] /\
  Part000.app Reference.platform (up_at 0) padded_name [] =
    answer 400 msg_name_length [] [warning NameLength].
Proof.
  split; [|split; reflexivity].
  repeat split; try reflexivity.
  exists (32%N :: repeat 97%N 100), (lit "hello").
  repeat split; try reflexivity; vm_compute; lia.
Qed.

(* ================================================================== *)
(** ** GET *)
(* ================================================================== *)

Lemma mapM_length {A B} (f : A -> attempt B) (l : list A) (bs : list B) :
  mapM f l = Some bs -> length bs = length l.
Proof.
  revert bs. induction l as [|a l IH]; simpl; intros bs H.
  - now inversion H.
  - destruct (f a) as [b|]; [|discriminate]. simpl in H.
    destruct (mapM f l) as [bs'|]; [|discriminate]. simpl in H.
    inversion H; subst. simpl. now rewrite (IH bs' eq_refl).
Qed.

Lemma mapM_Forall2 {A B} (f : A -> attempt B) (l : list A) (bs : list B) :
  mapM f l = Some bs -> Forall2 (fun a b => f a = Some b) l bs.
Proof.
  revert bs. induction l as [|a l IH]; simpl; intros bs H.
  - inversion H. constructor.
  - destruct (f a) as [b|] eqn:Hb; [|discriminate]. simpl in H.
    destruct (mapM f l) as [bs'|]; [|discriminate]. simpl in H.
    inversion H; subst. constructor; [exact Hb|]. now apply IH.
Qed.

Lemma mapM_total {A B} (f : A -> attempt B) (g : A -> B) (l : list A) :
  (forall a, In a l -> f a = Some (g a)) -> mapM f l = Some (map g l).
Proof.
  induction l as [|a l IH]; simpl; intros H; [reflexivity|].
  rewrite (H a (or_introl eq_refl)). simpl.
  rewrite IH by (intros; apply H; now right). reflexivity.
Qed.

Lemma snapshot_length (P : Platform) (limit : nat) (db : store) :
  length (snapshot P limit db) <= limit.
Proof. unfold snapshot. apply firstn_le_length. Qed.

Lemma Functions_app_get (P : Platform) (e : env) (req : request) (db : store) :
  method req = lit "GET" ->
  Functions.app P e req db = Functions.handleGet P e db.
Proof. intros H. unfold Functions.app, Functions.callback, onRequest. now rewrite H. Qed.

Lemma Part000_app_get (P : Platform) (e : env) (req : request) (db : store) :
  method req = lit "GET" ->
  Part000.app P e req db = Part000.handleGet P e db.
Proof. intros H. unfold Part000.app, Part000.callback, onRequest. now rewrite H. Qed.

(** What a GET of [functions/index.js] comes to. *)
Lemma Functions_handleGet_cases (P : Platform) (e : env) (db : store) :
  Functions.handleGet P e db =
  if store_up e then
    let docs := snapshot P Functions.LIMIT db in
    let l := [(LOG, retrieved (length docs))] in
    match mapM (Functions.renderSubmission P) (map data docs) with
    | Some blocks => answer 200 (Functions.page (listing blocks)) db l
    | None => answer 500 msg_get_failed db
                     (l ++ [(ERROR, lit "Error processing GET request:")])
    end
  else answer 500 msg_get_failed db [(ERROR, lit "Error processing GET request:")].
Proof.
  unfold Functions.handleGet, query, snapshot.
  destruct (store_up e); [|reflexivity]. cbn [ret].
  rewrite length_map.
  destruct (firstn Functions.LIMIT (orderByTimestampDesc P db)) as [|d docs];
    [reflexivity|].
  cbn [length Nat.ltb Nat.leb].
  destruct (mapM _ _) as [blocks|] eqn:Hb; [|reflexivity].
  apply mapM_length in Hb. destruct blocks; [discriminate|reflexivity].
Qed.

(** What a GET of the second copy comes to. *)
Lemma Part000_handleGet_cases (P : Platform) (e : env) (db : store) :
  Part000.handleGet P e db =
  if store_up e then
    match mapM (Part000.collect P) (snapshot P Part000.LIMIT db) with
    | Some submissions =>
        let l := [(LOG, retrieved (length submissions))] in
        match mapM Part000.renderSubmission submissions with
        | Some blocks => answer 200 (Part000.page (listing blocks)) db l
        | None => answer 500 msg_get_failed db
                         (l ++ [(ERROR, lit "Error processing GET request:")])
        end
    | None => answer 500 msg_get_failed db [(ERROR, lit "Error processing GET request:")]
    end
  else answer 500 msg_get_failed db [(ERROR, lit "Error processing GET request:")].
Proof.
  unfold Part000.handleGet, query, snapshot.
  destruct (store_up e); [|reflexivity]. cbn [ret bind].
  destruct (mapM (Part000.collect P) _) as [subs|]; [|reflexivity].
  destruct subs as [|sub subs]; [reflexivity|].
  cbn [length Nat.ltb Nat.leb].
  destruct (mapM _ _) as [blocks|] eqn:Hb; [|reflexivity].
  apply mapM_length in Hb. destruct blocks; [discriminate|reflexivity].
Qed.

Lemma Functions_handleGet_store (P : Platform) (e : env) (db : store) :
  store_after (Functions.handleGet P e db) = db.
Proof.
  rewrite Functions_handleGet_cases.
  destruct (store_up e); [|reflexivity]. cbv zeta.
  now destruct (mapM _ _).
Qed.

Lemma Part000_handleGet_store (P : Platform) (e : env) (db : store) :
  store_after (Part000.handleGet P e db) = db.
Proof.
  rewrite Part000_handleGet_cases.
  destruct (store_up e); [|reflexivity].
  destruct (mapM (Part000.collect P) _); [|reflexivity]. cbv zeta.
  now destruct (mapM _ _).
Qed.





(** C5: a GET never renders more submission blocks than the limit of its
    query, however many documents the store holds: when it does not fail,
    its page is the listing of one block per document of the snapshot, and
    these are at most 500 in [functions/index.js] and at most 50 in the
    second copy. *)
Theorem C5_get_cap (P : Platform) (e : env) (req : request) (db : store) :
  method req = lit "GET" ->
  (status (reply (Functions.app P e req db)) = 500 \/
   exists blocks,
     Forall2 (fun d b => Functions.renderSubmission P (data d) = Some b)
             (snapshot P Functions.LIMIT db) blocks /\
     length blocks <= 500 /\
     reply (Functions.app P e req db) =
       {| status := 200; sent := Functions.page (listing blocks) |}) /\
  (status (reply (Part000.app P e req db)) = 500 \/
   exists submissions blocks,
     Forall2 (fun d sub => Part000.collect P d = Some sub)
             (snapshot P Part000.LIMIT db) submissions /\
     Forall2 (fun sub b => Part000.renderSubmission sub = Some b) submissions blocks /\
     length blocks <= 50 /\
     reply (Part000.app P e req db) =
       {| status := 200; sent := Part000.page (listing blocks) |}).
Proof.
  intros Hget.
  rewrite (Functions_app_get P e req db Hget), (Part000_app_get P e req db Hget).
  rewrite Functions_handleGet_cases, Part000_handleGet_cases.
  destruct (store_up e); [|split; left; reflexivity]. cbv zeta. split.
  - destruct (mapM _ _) as [blocks|] eqn:Hb; [right|left; reflexivity].
    exists blocks. split; [|split; [|reflexivity]].
    + apply mapM_Forall2 in Hb. clear - Hb.
      remember (map data (snapshot P Functions.LIMIT db)) as subs eqn:Hs.
      revert Hs. generalize (snapshot P Functions.LIMIT db).
      induction Hb; intros [|d docs] Hs; try discriminate; constructor.
      * simpl in Hs. now inversion Hs; subst.
      * apply IHHb. simpl in Hs. now inversion Hs.
    + rewrite (mapM_length _ _ _ Hb), length_map.
      apply (snapshot_length P Functions.LIMIT db).
  - destruct (mapM (Part000.collect P) _) as [subs|] eqn:Hs; [|left; reflexivity].
    cbv zeta.
    destruct (mapM Part000.renderSubmission subs) as [blocks|] eqn:Hb;
      [right|left; reflexivity].
    exists subs, blocks. split; [|split; [|split; [|reflexivity]]].
    + now apply mapM_Forall2.
    + now apply mapM_Forall2.
    + rewrite (mapM_length _ _ _ Hb), (mapM_length _ _ _ Hs).
      apply (snapshot_length P Part000.LIMIT db).
Qed.

Lemma C5_get_cap_witness :
  method get_request = lit "GET" /\
  (status (reply (Part000.app Reference.platform (up_at 0) get_request (guests 60))) = 500 \/
   exists submissions blocks,
     Forall2 (fun d sub => Part000.collect Reference.platform d = Some sub)
             (snapshot Reference.platform Part000.LIMIT (guests 60)) submissions /\
     Forall2 (fun sub b => Part000.renderSubmission sub = Some b) submissions blocks /\
     length blocks <= 50 /\
     reply (Part000.app Reference.platform (up_at 0) get_request (guests 60)) =
       {| status := 200; sent := Part000.page (listing blocks) |}).
Proof.
  split; [reflexivity|].
  apply (C5_get_cap Reference.platform (up_at 0) get_request (guests 60)).
  reflexivity.
Defined.

(** Sixty records in the store of the second copy: the page lists the fifty
    latest. *)
Example fifty_of_sixty :
  length (guests 60) = 60 /\
  map (fun d => get (data d) (lit "timestamp"))
      (snapshot Reference.platform Part000.LIMIT (guests 60)) =
  map (fun k => VTime (Z.of_nat k)) (rev (seq 11 50)).
Proof. split; vm_compute; reflexivity. Qed.

(** The object the second copy collects for a document it can render. *)
Lemma Part000_collect_ok (P : Platform) (d : doc) :
  absent_or_timestamp (get (data d) (lit "timestamp")) = true ->
  Part000.collect P d =
  Some [ (lit "id", VStr (id d));
         (lit "name", js_or (get (data d) (lit "name")) (VStr (lit "N/A")));
         (lit "message", js_or (get (data d) (lit "message")) (VStr (lit "N/A")));
         (lit "timestamp", VStr (shown_time P (get (data d) (lit "timestamp")))) ].
Proof.
  unfold Part000.collect.
  destruct (get (data d) (lit "timestamp")) as [| |b|z|s|ms|l|o]; simpl;
    intros H; try reflexivity; try discriminate.
  - now destruct b.
  - apply negb_true_iff in H. now rewrite H.
  - apply negb_true_iff in H. now rewrite H.
Qed.

(** A truthy timestamp that is not a Timestamp has no [toDate]. *)
Lemma Part000_collect_throws (P : Platform) (d : doc) :
  absent_or_timestamp (get (data d) (lit "timestamp")) = false ->
  Part000.collect P d = None.
Proof.
  unfold Part000.collect.
  destruct (get (data d) (lit "timestamp")) as [| |b|z|s|ms|l|o]; simpl;
    intros H; try reflexivity; try discriminate.
  - now destruct b.
  - apply negb_false_iff in H. now rewrite H.
  - apply negb_false_iff in H. now rewrite H.
Qed.

Lemma Part000_hole (v : value) :
  printable v = true ->
  toString (Part000.escapeHtml (js_or v (VStr (lit "N/A")))) = Some (shown_field v).
Proof.
  intros H. unfold shown_field. apply toString_printable.
  now rewrite Part000_escapeHtml_printable, printable_js_or.
Qed.

Lemma Part000_hole_inv (v : value) (t : jstring) :
  toString (Part000.escapeHtml (js_or v (VStr (lit "N/A")))) = Some t ->
  printable v = true.
Proof.
  intros H. apply toString_some_printable in H.
  now rewrite Part000_escapeHtml_printable, printable_js_or in H.
Qed.

(** The object collected for a document, rendered. *)
Lemma Part000_render_collected (P : Platform) (d : doc) :
  Part000.renderSubmission
    [ (lit "id", VStr (id d));
      (lit "name", js_or (get (data d) (lit "name")) (VStr (lit "N/A")));
      (lit "message", js_or (get (data d) (lit "message")) (VStr (lit "N/A")));
      (lit "timestamp", VStr (shown_time P (get (data d) (lit "timestamp")))) ] =
  (name <- toString (Part000.escapeHtml
                       (js_or (get (data d) (lit "name")) (VStr (lit "N/A")))) ;;
   message <- toString (Part000.escapeHtml
                          (js_or (get (data d) (lit "message")) (VStr (lit "N/A")))) ;;
   ret (Part000.block name []
                      (Part000.escapeText (shown_time P (get (data d) (lit "timestamp"))))
                      message)).
Proof.
  set (sub := [ (lit "id", VStr (id d));
                (lit "name", js_or (get (data d) (lit "name")) (VStr (lit "N/A")));
                (lit "message", js_or (get (data d) (lit "message")) (VStr (lit "N/A")));
                (lit "timestamp", VStr (shown_time P (get (data d) (lit "timestamp")))) ]).
  assert (Hn : get sub (lit "name") =
               js_or (get (data d) (lit "name")) (VStr (lit "N/A"))) by reflexivity.
  assert (Hm : get sub (lit "message") =
               js_or (get (data d) (lit "message")) (VStr (lit "N/A"))) by reflexivity.
  assert (Hr : get sub (lit "rawTimestamp") = VUndefined) by reflexivity.
  assert (Ht : get sub (lit "timestamp") =
               VStr (shown_time P (get (data d) (lit "timestamp")))) by reflexivity.
  unfold Part000.renderSubmission. rewrite Hn, Hm, Hr, Ht.
  destruct (toString (Part000.escapeHtml (js_or (get (data d) (lit "name")) _)));
    reflexivity.
Qed.

Lemma Part000_renders_fields (d : doc) :
  Part000_renders d = true ->
  absent_or_timestamp (get (data d) (lit "timestamp")) = true /\
  printable (get (data d) (lit "name")) = true /\
  printable (get (data d) (lit "message")) = true.
Proof. unfold Part000_renders. rewrite !andb_true_iff. tauto. Qed.

(** A document the second copy renders, and the block it gets. *)
Lemma Part000_render_ok (P : Platform) (d : doc) :
  Part000_renders d = true ->
  (sub <- Part000.collect P d ;; Part000.renderSubmission sub) = Some (shown_block P d).
Proof.
  intros H. apply Part000_renders_fields in H as (Hts & Hn & Hm).
  rewrite (Part000_collect_ok P d Hts). cbn [bind].
  rewrite Part000_render_collected, (Part000_hole _ Hn), (Part000_hole _ Hm).
  reflexivity.
Qed.

(** A document the second copy does not render fails its request. *)
Lemma Part000_render_fails (P : Platform) (d : doc) :
  Part000_renders d = false ->
  (sub <- Part000.collect P d ;; Part000.renderSubmission sub) = None.
Proof.
  intros H.
  destruct (absent_or_timestamp (get (data d) (lit "timestamp"))) eqn:Hts;
    [|now rewrite (Part000_collect_throws P d Hts)].
  rewrite (Part000_collect_ok P d Hts). cbn [bind].
  rewrite Part000_render_collected.
  destruct (toString (Part000.escapeHtml (js_or (get (data d) (lit "name")) _)))
    as [n|] eqn:En; [|reflexivity].
  destruct (toString (Part000.escapeHtml (js_or (get (data d) (lit "message")) _)))
    as [m|] eqn:Em; [|reflexivity].
  apply Part000_hole_inv in En, Em.
  unfold Part000_renders in H. rewrite Hts, En, Em in H. discriminate H.
Qed.

(** Collecting and then rendering the documents, as the handler does in
    two passes, comes to rendering them one by one. *)
Lemma two_passes {A B C} (f : A -> attempt B) (g : B -> attempt C) (l : list A) :
  (bs <- mapM f l ;; mapM g bs) = None <->
  exists a, In a l /\ (b <- f a ;; g b) = None.
Proof.
  induction l as [|a l IH]; simpl.
  - split; [discriminate|intros (a & [] & _)].
  - destruct (f a) as [b|] eqn:Eb; simpl.
    + destruct (mapM f l) as [bs|] eqn:Ebs; simpl in *.
      * destruct (g b) as [c|] eqn:Ec; simpl.
        -- destruct (mapM g bs) as [cs|]; simpl.
           ++ split; [discriminate|].
              intros (x & [<-|Hx] & H).
              ** rewrite Eb in H. simpl in H. congruence.
              ** assert (Hex : exists a0, In a0 l /\ (b0 <- f a0 ;; g b0) = None)
                   by (now exists x).
                 apply IH in Hex. discriminate Hex.
           ++ split; [|reflexivity]. intros _.
              destruct (proj1 IH eq_refl) as (x & Hx & H). exists x. split; [now right|exact H].
        -- split; [|reflexivity]. intros _. exists a. split; [now left|].
           rewrite Eb. exact Ec.
      * split; [|reflexivity]. intros _.
        destruct (proj1 IH eq_refl) as (x & Hx & H). exists x. split; [now right|exact H].
    + split; [|reflexivity]. intros _. exists a. split; [now left|]. now rewrite Eb.
Qed.

(** The page of the second copy when the store answers and it renders
    every document of the snapshot. *)
Lemma Part000_get_ok (P : Platform) (e : env) (db : store) :
  store_up e = true ->
  (forall d, In d (snapshot P Part000.LIMIT db) -> Part000_renders d = true) ->
  Part000.handleGet P e db =
  answer 200
         (Part000.page (listing (map (shown_block P) (snapshot P Part000.LIMIT db))))
         db [(LOG, retrieved (length (snapshot P Part000.LIMIT db)))].
Proof.
  intros Hup Hr. rewrite Part000_handleGet_cases, Hup.
  generalize dependent (snapshot P Part000.LIMIT db). intros docs Hr.
  set (collected := fun d : doc =>
         [ (lit "id", VStr (id d));
           (lit "name", js_or (get (data d) (lit "name")) (VStr (lit "N/A")));
           (lit "message", js_or (get (data d) (lit "message")) (VStr (lit "N/A")));
           (lit "timestamp", VStr (shown_time P (get (data d) (lit "timestamp")))) ]).
  assert (Hm : mapM (Part000.collect P) docs = Some (map collected docs)).
  { apply mapM_total. intros d Hd. apply Part000_collect_ok.
    now destruct (Part000_renders_fields d (Hr d Hd)). }
  assert (Hb : mapM Part000.renderSubmission (map collected docs) =
               Some (map (shown_block P) docs)).
  { clear Hm. induction docs as [|d docs IH]; [reflexivity|].
    destruct (Part000_renders_fields d (Hr d (or_introl eq_refl))) as (Hts & Hn & Hmsg).
    cbn [map mapM]. unfold collected at 1.
    rewrite Part000_render_collected, (Part000_hole _ Hn), (Part000_hole _ Hmsg).
    cbn [bind ret]. rewrite IH by (intros d' Hd'; apply Hr; now right).
    reflexivity. }
  rewrite Hm. cbv zeta. rewrite Hb, length_map. reflexivity.
Qed.

(** The page of the second copy is the text of its templates. *)
Lemma Part000_texts (name time message body : jstring) :
  Part000.block name [] time message = Part000_block_text name time message /\
  Part000.page body = Part000_page_text body.
Proof.
  unfold Part000.block, Part000.page, Part000_block_text, Part000_page_text.
  split; reflexivity.
Qed.

(** C10, as the handler has it: in the second copy, when the store answers
    and every document of the snapshot is rendered (its timestamp is a
    falsy value or a Timestamp, its name and its message convert to text),
    the GET is answered 200 with the page of one block per document, and
    the block of a document that has no [name] field shows [N/A] as its
    name, the block of a document that has no [message] field shows [N/A]
    as its message; whether a document is rendered does not depend on a
    field it does not have. *)
Theorem C10_missing_field_shows_NA (P : Platform) (e : env) (req : request) (db : store) :
  method req = lit "GET" ->
  store_up e = true ->
  (forall d, In d (snapshot P Part000.LIMIT db) -> Part000_renders d = true) ->
  reply (Part000.app P e req db) =
    {| status := 200;
       sent := Part000_page_text
                 (listing (map (shown_block P) (snapshot P Part000.LIMIT db))) |} /\
  forall d,
    (get (data d) (lit "name") = VUndefined ->
     shown_block P d =
     Part000_block_text (lit "N/A")
                        (Part000.escapeText (shown_time P (get (data d) (lit "timestamp"))))
                        (shown_field (get (data d) (lit "message")))) /\
    (get (data d) (lit "message") = VUndefined ->
     shown_block P d =
     Part000_block_text (shown_field (get (data d) (lit "name")))
                        (Part000.escapeText (shown_time P (get (data d) (lit "timestamp"))))
                        (lit "N/A")) /\
    (get (data d) (lit "name") = VUndefined ->
     get (data d) (lit "message") = VUndefined ->
     Part000_renders d = absent_or_timestamp (get (data d) (lit "timestamp"))).
Proof.
  intros Hget Hup Hr.
  rewrite (Part000_app_get P e req db Hget), (Part000_get_ok P e db Hup Hr).
  split.
  - reflexivity.
  - intros d. unfold shown_block, Part000_renders. repeat split.
    + intros ->. reflexivity.
    + intros ->. reflexivity.
    + intros -> ->. simpl. now rewrite !andb_true_r.
Qed.

Lemma C10_missing_field_shows_NA_witness :
  reply (Part000.app Reference.platform (up_at 0) get_request bare_record) =
    {| status := 200;
       sent := Part000_page_text
                 (Part000_block_text (lit "N/A") (lit "N/A") (lit "N/A")) |}.
Proof.
  refine (proj1 (C10_missing_field_shows_NA Reference.platform (up_at 0)
                   get_request bare_record _ _ _)).
  - reflexivity.
  - reflexivity.
  - intros d [<-|[]]. reflexivity.
Defined.

(** C10 as it is worded promises the block whatever else the store holds.
    A record without name and message whose timestamp is a text, and a
    record without name whose message is a map with a field named
    [toString], each fail the whole GET of the second copy with 500: no
    block is rendered, for the missing field or for any other. *)
Lemma C10_missing_field_counterexample :
  get (data (hd {| id := []; data := [] |} nameless_text_timestamp)) (lit "name")
    = VUndefined /\
  reply (Part000.app Reference.platform (up_at 0) get_request nameless_text_timestamp) =
    {| status := 500; sent := msg_get_failed |} /\
  get (data (hd {| id := []; data := [] |} nameless_map_message)) (lit "name")
    = VUndefined /\
  reply (Part000.app Reference.platform (up_at 0) get_request nameless_map_message) =
    {| status := 500; sent := msg_get_failed |}.
Proof. repeat split; vm_compute; reflexivity. Qed.

(** C6, as the handler has it: in the second copy, when the store answers
    and every document of the snapshot is rendered (its timestamp is
    either absent, a falsy value: no field, [null], or a Firestore
    Timestamp, and its name and message convert to text), the GET is
    answered 200 and the block of each document whose timestamp is absent
    shows the fixed text [N/A] as its timestamp. *)
Theorem C6_absent_timestamp_shows_NA (P : Platform) (e : env) (req : request) (db : store) :
  method req = lit "GET" ->
  store_up e = true ->
  (forall d, In d (snapshot P Part000.LIMIT db) -> Part000_renders d = true) ->
  reply (Part000.app P e req db) =
    {| status := 200;
       sent := Part000_page_text
                 (listing (map (shown_block P) (snapshot P Part000.LIMIT db))) |} /\
  forall d,
    truthy (get (data d) (lit "timestamp")) = false ->
    shown_block P d =
    Part000_block_text (shown_field (get (data d) (lit "name"))) (lit "N/A")
                       (shown_field (get (data d) (lit "message"))).
Proof.
  intros Hget Hup Hr.
  rewrite (Part000_app_get P e req db Hget), (Part000_get_ok P e db Hup Hr).
  split.
  - reflexivity.
  - intros d Hfalsy. unfold shown_block.
    destruct (get (data d) (lit "timestamp")); try discriminate; reflexivity.
Qed.

Lemma C6_absent_timestamp_shows_NA_witness :
  reply (Part000.app Reference.platform (up_at 0) get_request bare_record) =
    {| status := 200;
       sent := Part000_page_text
                 (listing (map (shown_block Reference.platform)
                               (snapshot Reference.platform Part000.LIMIT bare_record))) |}.
Proof.
  refine (proj1 (C6_absent_timestamp_shows_NA Reference.platform (up_at 0)
                   get_request bare_record _ _ _)).
  - reflexivity.
  - reflexivity.
  - intros d [<-|[]]. reflexivity.
Defined.

(** C6 as it is worded covers both copies and every invalid timestamp.
    [functions/index.js] has no placeholder: a record whose timestamp is
    [null] fails the whole GET with 500.  In the second copy a timestamp
    that is a text fails the GET with 500 as well: only a falsy timestamp
    gets the placeholder. *)
Lemma C6_placeholder_counterexample :
  reply (Functions.app Reference.platform (up_at 0) get_request bare_record) =
    {| status := 500; sent := msg_get_failed |} /\
  reply (Part000.app Reference.platform (up_at 0) get_request text_timestamp) =
    {| status := 500; sent := msg_get_failed |} /\
  reply (Functions.app Reference.platform (up_at 0) get_request text_timestamp) =
    {| status := 500; sent := msg_get_failed |}.
Proof. repeat split; vm_compute; reflexivity. Qed.

(** The block of [functions/index.js]: the attribute is the ISO rendering
    of the instant, the text its [en-US] rendering. *)
Lemma Functions_render (P : Platform) (sub : object) :
  Functions.renderSubmission P sub =
  match get sub (lit "timestamp") with
  | VTime ms =>
      name <- toString (Functions.escapeHtml (get sub (lit "name"))) ;;
      message <- toString (Functions.escapeHtml (get sub (lit "message"))) ;;
      ret (Functions.block name
                           (Functions.escapeText (toISOString P ms))
                           (Functions.escapeText (toLocaleString P ms))
                           message)
  | _ => None
  end.
Proof.
  unfold Functions.renderSubmission.
  destruct (get sub (lit "timestamp"));
    destruct (toString (Functions.escapeHtml (get sub (lit "name")))); reflexivity.
Qed.

(** The object the second copy collects has no [rawTimestamp], so the
    attribute of its block is empty whatever the document holds. *)
Lemma Part000_attribute_empty (P : Platform) (d : doc) (sub : object) (b : jstring) :
  Part000.collect P d = Some sub ->
  Part000.renderSubmission sub = Some b ->
  get sub (lit "rawTimestamp") = VUndefined /\
  b = Part000.block (shown_field (get (data d) (lit "name"))) []
                    (Part000.escapeText (shown_time P (get (data d) (lit "timestamp"))))
                    (shown_field (get (data d) (lit "message"))).
Proof.
  intros Hc Hb.
  destruct (absent_or_timestamp (get (data d) (lit "timestamp"))) eqn:Hts.
  - rewrite (Part000_collect_ok P d Hts) in Hc. inversion Hc; subst.
    split; [reflexivity|].
    rewrite Part000_render_collected in Hb.
    destruct (toString (Part000.escapeHtml (js_or (get (data d) (lit "name")) _)))
      as [n|] eqn:En; [|discriminate Hb].
    destruct (toString (Part000.escapeHtml (js_or (get (data d) (lit "message")) _)))
      as [m|] eqn:Em; [|discriminate Hb].
    simpl in Hb. injection Hb as <-.
    unfold shown_field. now rewrite (toString_text _ _ En), (toString_text _ _ Em).
  - rewrite (Part000_collect_throws P d Hts) in Hc. discriminate.
Qed.

(** C7: every rendered submission is claimed to carry a machine-readable
    timestamp in its [data-timestamp] attribute next to the readable text.
    For the record a POST at 2023-11-14T22:13:20.123Z leaves,
    [functions/index.js] renders the attribute with that ISO instant; the
    second copy reads a [rawTimestamp] that it never sets and renders the
    attribute empty. *)
Theorem C7_data_timestamp_at_example :
  reply (Functions.app Reference.platform (up_at 0) get_request one_guest) =
    {| status := 200;
       sent := Functions.page
                 (Functions.block (lit "Ada") (lit "2023-11-14T22:13:20.123Z")
                                  (lit "11/14/2023, 10:13:20 PM") (lit "hello there")) |} /\
  reply (Part000.app Reference.platform (up_at 0) get_request one_guest) =
    {| status := 200;
       sent := Part000.page
                 (Part000.block (lit "Ada") []
                                (lit "11/14/2023, 10:13:20 PM") (lit "hello there")) |}.
Proof. split; vm_compute; reflexivity. Qed.

(* ================================================================== *)
(** ** The blocks in the text of the page *)
(* ================================================================== *)

Lemma starts_with_app (pat u r : jstring) :
  starts_with pat u = true -> starts_with pat (u ++ r) = true.
Proof.
  revert u. induction pat as [|p pat IH]; intros [|c u]; simpl; try discriminate; auto.
  rewrite !andb_true_iff. intros [-> H]. auto.
Qed.

Lemma clash_app (pat u r : jstring) :
  clash pat u = true -> starts_with pat (u ++ r) = false.
Proof.
  revert u. induction pat as [|p pat IH]; intros [|c u]; simpl; try discriminate.
  destruct (N.eqb p c); simpl; [|reflexivity]. apply IH.
Qed.

Lemma occurrences_decided (pat c r : jstring) :
  pat <> [] -> decided pat c = true ->
  occurrences pat (c ++ r) = occurrences pat c + occurrences pat r.
Proof.
  intros Hpat. induction c as [|x c IH]; intros Hd.
  - destruct pat; [now elim Hpat|]. reflexivity.
  - cbn [decided] in Hd. apply andb_true_iff in Hd as [Hx Hc].
    change ((x :: c) ++ r) with (x :: c ++ r).
    cbn [occurrences]. rewrite (IH Hc).
    apply orb_true_iff in Hx as [Hs|Hcl].
    + rewrite Hs. change (x :: c ++ r) with ((x :: c) ++ r).
      rewrite (starts_with_app pat (x :: c) r Hs). lia.
    + change (x :: c ++ r) with ((x :: c) ++ r).
      rewrite (clash_app pat (x :: c) r Hcl).
      rewrite <- (app_nil_r (x :: c)) at 1.
      rewrite (clash_app pat (x :: c) [] Hcl). lia.
Qed.

Lemma occurrences_free (p : N) (pat d r : jstring) :
  Forall (fun c => c <> p) d ->
  occurrences (p :: pat) (d ++ r) = occurrences (p :: pat) r.
Proof.
  induction 1 as [|x d Hx _ IH]; [reflexivity|].
  change ((x :: d) ++ r) with (x :: d ++ r). cbn [occurrences starts_with].
  apply N.eqb_neq in Hx. rewrite N.eqb_sym in Hx. now rewrite Hx, IH.
Qed.

Lemma join_nil (l : list jstring) : join [] l = concat l.
Proof.
  induction l as [|x l IH]; [reflexivity|].
  destruct l as [|y l]; [simpl; now rewrite app_nil_r|].
  change (join [] (x :: y :: l)) with (x ++ [] ++ join [] (y :: l)).
  rewrite IH. reflexivity.
Qed.

Lemma markup_free_lt_free (s : jstring) :
  Forall (fun c => markup c = false) s -> lt_free s.
Proof.
  apply Forall_impl. intros c H ->. discriminate.
Qed.

Lemma lit_cons (a : ascii) (s : string) : lit (String a s) = N_of_ascii a :: lit s.
Proof. reflexivity. Qed.

Lemma digits_lt_free (d : Decimal.uint) : lt_free (lit (NilEmpty.string_of_uint d)).
Proof.
  induction d; simpl NilEmpty.string_of_uint;
    [constructor | rewrite lit_cons; constructor; [discriminate|assumption] ..].
Qed.

Lemma decimal_lt_free (z : Z) : lt_free (decimal z).
Proof.
  unfold decimal. destruct (Z.to_int z) as [d|d]; simpl NilEmpty.string_of_int.
  - apply digits_lt_free.
  - rewrite lit_cons. constructor; [discriminate|apply digits_lt_free].
Qed.

Ltac lt_free_literal := unfold lt_free; repeat (constructor; [discriminate|]); constructor.

Lemma Functions_field_lt_free (v : value) :
  plain v = true -> lt_free (text_of (Functions.escapeHtml v)).
Proof.
  unfold text_of.
  destruct v as [| |[|]|n|s|ms|l|o]; intros H; try discriminate H;
    cbn [Functions.escapeHtml toString ret];
    try lt_free_literal.
  - apply decimal_lt_free.
  - apply markup_free_lt_free, Functions_escapeText_safe.
  - destruct (has_key o (lit "toString")); lt_free_literal.
Qed.

Lemma Part000_field_lt_free (v : value) :
  plain v = true -> lt_free (shown_field v).
Proof.
  unfold shown_field, js_or, text_of.
  destruct v as [| |[|]|n|s|ms|l|o]; intros H; try discriminate H;
    cbn [truthy]; try (cbn [Part000.escapeHtml toString ret]; lt_free_literal).
  - destruct (negb (num n =? 0)%Z); cbn [Part000.escapeHtml toString ret].
    + apply decimal_lt_free.
    + apply markup_free_lt_free, Part000_escapeText_safe.
  - destruct (negb (jstr_eqb s [])); cbn [Part000.escapeHtml toString ret];
      apply markup_free_lt_free, Part000_escapeText_safe.
  - cbn [Part000.escapeHtml toString].
    destruct (has_key o (lit "toString")); lt_free_literal.
Qed.

Lemma marker_free (d r : jstring) :
  lt_free d ->
  occurrences submission_marker (d ++ r) = occurrences submission_marker r.
Proof. apply (occurrences_free 60 (tl submission_marker)). Qed.

Lemma marker_decided (c r : jstring) (n : nat) :
  decided submission_marker c = true ->
  occurrences submission_marker c = n ->
  occurrences submission_marker (c ++ r) = n + occurrences submission_marker r.
Proof.
  intros Hd <-. apply occurrences_decided; [discriminate|exact Hd].
Qed.

(** Each block adds one opening tag to the text that follows it. *)
Lemma Functions_block_occurrences (name attr time message r : jstring) :
  lt_free name -> lt_free attr -> lt_free time -> lt_free message ->
  occurrences submission_marker (Functions.block name attr time message ++ r) =
  S (occurrences submission_marker r).
Proof.
  intros Hn Ha Ht Hm. unfold Functions.block. rewrite <- !app_assoc.
  rewrite (marker_decided Functions.F_block_0 _ 1) by (vm_compute; reflexivity).
  rewrite (marker_free name _ Hn).
  rewrite (marker_decided Functions.F_block_1 _ 0) by (vm_compute; reflexivity).
  rewrite (marker_free attr _ Ha).
  rewrite (marker_decided Functions.F_block_2 _ 0) by (vm_compute; reflexivity).
  rewrite (marker_free time _ Ht).
  rewrite (marker_decided Functions.F_block_3 _ 0) by (vm_compute; reflexivity).
  rewrite (marker_free message _ Hm).
  rewrite (marker_decided Functions.F_block_4 _ 0) by (vm_compute; reflexivity).
  reflexivity.
Qed.

Lemma Part000_block_occurrences (name attr time message r : jstring) :
  lt_free name -> lt_free attr -> lt_free time -> lt_free message ->
  occurrences submission_marker (Part000.block name attr time message ++ r) =
  S (occurrences submission_marker r).
Proof.
  intros Hn Ha Ht Hm. unfold Part000.block. rewrite <- !app_assoc.
  rewrite (marker_decided Part000.P_block_0 _ 1) by (vm_compute; reflexivity).
  rewrite (marker_free name _ Hn).
  rewrite (marker_decided Part000.P_block_1 _ 0) by (vm_compute; reflexivity).
  rewrite (marker_free attr _ Ha).
  rewrite (marker_decided Part000.P_block_2 _ 0) by (vm_compute; reflexivity).
  rewrite (marker_free time _ Ht).
  rewrite (marker_decided Part000.P_block_3 _ 0) by (vm_compute; reflexivity).
  rewrite (marker_free message _ Hm).
  rewrite (marker_decided Part000.P_block_4 _ 0) by (vm_compute; reflexivity).
  reflexivity.
Qed.

(** A text made of blocks that each add one opening tag. *)
Lemma blocks_occurrences (blocks : list jstring) (r : jstring) :
  Forall (fun b => forall r', occurrences submission_marker (b ++ r') =
                              S (occurrences submission_marker r')) blocks ->
  occurrences submission_marker (concat blocks ++ r) =
  length blocks + occurrences submission_marker r.
Proof.
  induction 1 as [|b blocks Hb _ IH]; [reflexivity|].
  simpl. rewrite <- app_assoc, Hb, IH. reflexivity.
Qed.

Lemma Functions_page_occurrences (blocks : list jstring) :
  Forall (fun b => forall r', occurrences submission_marker (b ++ r') =
                              S (occurrences submission_marker r')) blocks ->
  occurrences submission_marker (Functions.page (listing blocks)) = length blocks.
Proof.
  intros H. unfold Functions.page.
  rewrite (marker_decided Functions.F_page_0 _ 0) by (vm_compute; reflexivity).
  destruct blocks as [|b blocks]; [vm_compute; reflexivity|].
  unfold listing. rewrite join_nil, (blocks_occurrences _ _ H).
  assert (Hend : occurrences submission_marker Functions.F_page_1 = 0)
    by (vm_compute; reflexivity).
  rewrite Hend. simpl. lia.
Qed.

Lemma Part000_page_occurrences (blocks : list jstring) :
  Forall (fun b => forall r', occurrences submission_marker (b ++ r') =
                              S (occurrences submission_marker r')) blocks ->
  occurrences submission_marker (Part000.page (listing blocks)) = length blocks.
Proof.
  intros H. unfold Part000.page.
  rewrite (marker_decided Part000.P_page_0 _ 0) by (vm_compute; reflexivity).
  destruct blocks as [|b blocks]; [vm_compute; reflexivity|].
  unfold listing. rewrite join_nil, (blocks_occurrences _ _ H).
  assert (Hend : occurrences submission_marker Part000.P_page_1 = 0)
    by (vm_compute; reflexivity).
  rewrite Hend. simpl. lia.
Qed.

Lemma plain_doc_fields (d : doc) :
  plain_doc d = true ->
  plain (get (data d) (lit "name")) = true /\
  plain (get (data d) (lit "message")) = true.
Proof. unfold plain_doc. now rewrite andb_true_iff. Qed.

Lemma Functions_blocks_marked (P : Platform) (docs : list doc) :
  (forall d, In d docs -> plain_doc d = true) ->
  forall blocks,
    mapM (Functions.renderSubmission P) (map data docs) = Some blocks ->
    Forall (fun b => forall r', occurrences submission_marker (b ++ r') =
                                S (occurrences submission_marker r')) blocks.
Proof.
  induction docs as [|d docs IH]; intros Hplain blocks Hm; simpl in Hm.
  - inversion Hm. constructor.
  - destruct (Functions.renderSubmission P (data d)) as [b|] eqn:Hb; [|discriminate].
    simpl in Hm.
    destruct (mapM _ _) as [bs|] eqn:Hbs; [|discriminate].
    simpl in Hm. inversion Hm; subst. constructor.
    + rewrite Functions_render in Hb.
      destruct (get (data d) (lit "timestamp")); try discriminate.
      destruct (toString (Functions.escapeHtml (get (data d) (lit "name"))))
        as [n|] eqn:En; [|discriminate Hb].
      destruct (toString (Functions.escapeHtml (get (data d) (lit "message"))))
        as [m|] eqn:Em; [|discriminate Hb].
      simpl in Hb. injection Hb as <-. intros r'.
      destruct (plain_doc_fields d (Hplain d (or_introl eq_refl))) as [Hn Hmsg].
      apply Functions_block_occurrences.
      * rewrite <- (toString_text _ _ En). now apply Functions_field_lt_free.
      * apply markup_free_lt_free, Functions_escapeText_safe.
      * apply markup_free_lt_free, Functions_escapeText_safe.
      * rewrite <- (toString_text _ _ Em). now apply Functions_field_lt_free.
    + apply IH; [|reflexivity]. intros d' Hd'. apply Hplain. now right.
Qed.

Lemma Part000_blocks_marked (P : Platform) (docs : list doc) :
  (forall d, In d docs -> plain_doc d = true) ->
  forall submissions blocks,
    mapM (Part000.collect P) docs = Some submissions ->
    mapM Part000.renderSubmission submissions = Some blocks ->
    Forall (fun b => forall r', occurrences submission_marker (b ++ r') =
                                S (occurrences submission_marker r')) blocks.
Proof.
  induction docs as [|d docs IH]; intros Hplain subs blocks Hm Hb; simpl in Hm.
  - inversion Hm; subst. inversion Hb. constructor.
  - destruct (Part000.collect P d) as [sub|] eqn:Hsub; [|discriminate].
    simpl in Hm.
    destruct (mapM _ _) as [subs'|] eqn:Hsubs; [|discriminate].
    simpl in Hm. inversion Hm; subst. simpl in Hb.
    destruct (Part000.renderSubmission sub) as [b|] eqn:Hr; [|discriminate].
    simpl in Hb.
    destruct (mapM Part000.renderSubmission subs') as [bs|] eqn:Hbs; [|discriminate].
    simpl in Hb. inversion Hb; subst. constructor.
    + destruct (Part000_attribute_empty P d sub b Hsub Hr) as [_ ->]. intros r'.
      destruct (plain_doc_fields d (Hplain d (or_introl eq_refl))) as [Hn Hmsg].
      apply Part000_block_occurrences.
      * now apply Part000_field_lt_free.
      * constructor.
      * apply markup_free_lt_free, Part000_escapeText_safe.
      * now apply Part000_field_lt_free.
    + apply (IH (fun d' Hd' => Hplain d' (or_intror Hd')) subs' bs eq_refl Hbs).
Qed.

(** The cap in the text of the page: when no name and no message of the
    snapshot is an array, a page that is served holds the opening tag of a
    submission block once per document of the snapshot, nowhere else, and
    so at most as often as the limit of the query. *)
Theorem get_page_block_count (P : Platform) (e : env) (db : store) :
  ((forall d, In d (snapshot P Functions.LIMIT db) -> plain_doc d = true) ->
   (status (reply (Functions.handleGet P e db)) = 200 ->
    occurrences submission_marker (sent (reply (Functions.handleGet P e db))) =
    length (snapshot P Functions.LIMIT db)) /\
   occurrences submission_marker (sent (reply (Functions.handleGet P e db))) <= 500) /\
  ((forall d, In d (snapshot P Part000.LIMIT db) -> plain_doc d = true) ->
   (status (reply (Part000.handleGet P e db)) = 200 ->
    occurrences submission_marker (sent (reply (Part000.handleGet P e db))) =
    length (snapshot P Part000.LIMIT db)) /\
   occurrences submission_marker (sent (reply (Part000.handleGet P e db))) <= 50).
Proof.
  split; intros Hplain.
  - rewrite Functions_handleGet_cases.
    destruct (store_up e); [|split; [discriminate|vm_compute; lia]]. cbv zeta.
    destruct (mapM _ _) as [blocks|] eqn:Hb; [|split; [discriminate|vm_compute; lia]].
    cbn [answer reply sent status].
    rewrite (Functions_page_occurrences blocks
               (Functions_blocks_marked P _ Hplain blocks Hb)).
    rewrite (mapM_length _ _ _ Hb), length_map.
    split; [reflexivity|apply (snapshot_length P Functions.LIMIT db)].
  - rewrite Part000_handleGet_cases.
    destruct (store_up e); [|split; [discriminate|vm_compute; lia]].
    destruct (mapM (Part000.collect P) _) as [subs|] eqn:Hs;
      [|split; [discriminate|vm_compute; lia]].
    cbv zeta.
    destruct (mapM Part000.renderSubmission subs) as [blocks|] eqn:Hb;
      [|split; [discriminate|vm_compute; lia]].
    cbn [answer reply sent status].
    rewrite (Part000_page_occurrences _ (Part000_blocks_marked P _ Hplain subs blocks Hs Hb)).
    rewrite (mapM_length _ _ _ Hb), (mapM_length _ _ _ Hs).
    split; [reflexivity|apply (snapshot_length P Part000.LIMIT db)].
Qed.

(** An array as a name is handed back by [escapeHtml] and joined by the
    template: its text reaches the page as it is. *)
Example array_name_not_escaped :
  toString (Functions.escapeHtml (VArr [VStr (lit "<i>")])) = Some (lit "<i>") /\
  toString (Part000.escapeHtml (VArr [VStr (lit "<i>")])) = Some (lit "<i>").
Proof. split; reflexivity. Qed.

(** Only a POST changes the store. *)
Lemma only_post_writes (P : Platform) (e : env) (req : request) (db : store) :
  method req <> lit "POST" ->
  store_after (Functions.app P e req db) = db /\
  store_after (Part000.app P e req db) = db.
Proof.
  intros Hm. unfold Functions.app, Part000.app, onRequest.
  destruct (is_preflight (method req)); [split; reflexivity|].
  unfold Functions.callback, Part000.callback.
  destruct (jstr_eqb (method req) (lit "POST")) eqn:Hp;
    [now apply jstr_eqb_eq in Hp|].
  destruct (jstr_eqb (method req) (lit "GET")).
  - now rewrite Functions_handleGet_store, Part000_handleGet_store.
  - split; reflexivity.
Qed.

(** A store call that is rejected is answered 500 and changes nothing;
    an empty collection is listed as the placeholder. *)
Example store_down_and_empty_store :
  Functions.app Reference.platform (down_at 0) guest_post one_guest =
    answer 500 msg_post_failed one_guest [(ERROR, lit "Error processing POST request:")] /\
  reply (Part000.app Reference.platform (down_at 0) get_request one_guest) =
    {| status := 500; sent := msg_get_failed |} /\
  reply (Functions.app Reference.platform (up_at 0) get_request []) =
    {| status := 200; sent := Functions.page no_submissions |} /\
  reply (Functions.app Reference.platform (up_at 0)
           {| method := lit "DELETE"; headers := []; body := [] |} one_guest) =
    {| status := 405; sent := msg_method |}.
Proof. repeat split; vm_compute; reflexivity. Qed.

(* ================================================================== *)
(** ** Further properties of escapeHtml *)
(* ================================================================== *)

(** X1: in the second copy, [escapeHtml] of a string is the string with
    every [&], [<], [>], double quote and apostrophe spelled as [&amp;],
    [&lt;], [&gt;], [&quot;] and [&#039;] and every other code unit kept: the
    five chained replacements act as one pass, nothing a replacement
    inserted is replaced again. *)
Theorem X1_Part000_escapeHtml_single_pass (s : jstring) :
  Part000.escapeHtml (VStr s) =
  VStr (flat_map (entity (lit "&amp;") (lit "&lt;") (lit "&gt;") (lit "&quot;")
                         (lit "&#039;")) s).
Proof.
  simpl. f_equal. induction s as [|c s IH]; [reflexivity|].
  rewrite Part000_escapeText_cons, IH. reflexivity.
Qed.

(** X2: in [functions/index.js], [escapeHtml] of a string is the string
    with every [&], [<], [>], double quote and apostrophe spelled as [&amp],
    [&lt], [&gt], [&quot] and [&#039] (no closing semicolon) and every other
    code unit kept, in one pass. *)
Theorem X2_Functions_escapeHtml_single_pass (s : jstring) :
  Functions.escapeHtml (VStr s) =
  VStr (flat_map (entity (lit "&amp") (lit "&lt") (lit "&gt") (lit "&quot")
                         (lit "&#039")) s).
Proof.
  simpl. f_equal. induction s as [|c s IH]; [reflexivity|].
  rewrite Functions_escapeText_cons, IH. reflexivity.
Qed.

Lemma Part000_escapeText_app (a b : jstring) :
  Part000.escapeText (a ++ b) = Part000.escapeText a ++ Part000.escapeText b.
Proof. rewrite !Part000_escapeText_one_pass. apply flat_map_app. Qed.

Lemma Functions_escapeText_app (a b : jstring) :
  Functions.escapeText (a ++ b) = Functions.escapeText a ++ Functions.escapeText b.
Proof. rewrite !Functions_escapeText_one_pass. apply flat_map_app. Qed.

(** X3: escaping commutes with concatenation, in both copies: the escaped
    text of [a ++ b] is the escaped text of [a] followed by that of [b]. *)
Theorem X3_escapeHtml_concatenation (a b : jstring) :
  (exists ta tb,
      toString (Functions.escapeHtml (VStr a)) = Some ta /\
      toString (Functions.escapeHtml (VStr b)) = Some tb /\
      toString (Functions.escapeHtml (VStr (a ++ b))) = Some (ta ++ tb)) /\
  (exists ta tb,
      toString (Part000.escapeHtml (VStr a)) = Some ta /\
      toString (Part000.escapeHtml (VStr b)) = Some tb /\
      toString (Part000.escapeHtml (VStr (a ++ b))) = Some (ta ++ tb)).
Proof.
  split; simpl.
  - exists (Functions.escapeText a), (Functions.escapeText b).
    repeat split. unfold ret. f_equal. apply Functions_escapeText_app.
  - exists (Part000.escapeText a), (Part000.escapeText b).
    repeat split. unfold ret. f_equal. apply Part000_escapeText_app.
Qed.

Lemma entity_length (amp lt gt quot apos : jstring) (n : nat) (c : N) :
  1 <= length amp <= n -> 1 <= length lt <= n -> 1 <= length gt <= n ->
  1 <= length quot <= n -> 1 <= length apos <= n ->
  1 <= length (entity amp lt gt quot apos c) <= n.
Proof.
  intros Ha Hl Hg Hq Hp. unfold entity.
  repeat match goal with |- context [if ?b then _ else _] => destruct b end;
    simpl; lia.
Qed.

Lemma flat_map_length_bounds (f : N -> jstring) (n : nat) (s : jstring) :
  (forall c, 1 <= length (f c) <= n) ->
  length s <= length (flat_map f s) <= n * length s.
Proof.
  intros Hf. induction s as [|c s IH]; simpl; [lia|].
  rewrite length_app. specialize (Hf c). lia.
Qed.

(** X6: escaping never shortens a text and lengthens it at most sixfold
    in the second copy ([&quot;] and [&#039;] have six code units) and at most
    fivefold in [functions/index.js]. *)
Theorem X6_escapeHtml_length (s : jstring) :
  (length s <= length (Functions.escapeText s) <= 5 * length s) /\
  (length s <= length (Part000.escapeText s) <= 6 * length s).
Proof.
  rewrite Functions_escapeText_one_pass, Part000_escapeText_one_pass.
  split; apply flat_map_length_bounds; intros c;
    apply entity_length; simpl; lia.
Qed.

Lemma entity_plain (amp lt gt quot apos : jstring) (c : N) :
  special c = false -> entity amp lt gt quot apos c = [c].
Proof.
  unfold special, entity. intros H.
  repeat match goal with
         | |- context [(c =? ?k)%N] => destruct (c =? k)%N; try discriminate H
         end.
  reflexivity.
Qed.

Lemma entity_special_length (amp lt gt quot apos : jstring) (c : N) :
  special c = true ->
  2 <= length amp -> 2 <= length lt -> 2 <= length gt ->
  2 <= length quot -> 2 <= length apos ->
  2 <= length (entity amp lt gt quot apos c).
Proof.
  unfold special, entity. intros H Ha Hl Hg Hq Hp.
  repeat match goal with
         | |- context [(c =? ?k)%N] => destruct (c =? k)%N; try assumption
         end.
  discriminate H.
Qed.

(** A per-unit map whose images of the special units are two units long at
    least fixes exactly the texts without a special unit. *)
Lemma flat_map_entity_fixed (amp lt gt quot apos : jstring) (s : jstring) :
  1 <= length amp <= 6 -> 1 <= length lt <= 6 -> 1 <= length gt <= 6 ->
  1 <= length quot <= 6 -> 1 <= length apos <= 6 ->
  2 <= length amp -> 2 <= length lt -> 2 <= length gt ->
  2 <= length quot -> 2 <= length apos ->
  flat_map (entity amp lt gt quot apos) s = s <->
  Forall (fun c => special c = false) s.
Proof.
  intros Ba Bl Bg Bq Bp Ha Hl Hg Hq Hp. split.
  - induction s as [|c s IH]; intros H; [constructor|].
    simpl in H. destruct (special c) eqn:Hc.
    + exfalso.
      pose proof (entity_special_length amp lt gt quot apos c Hc Ha Hl Hg Hq Hp) as H2.
      pose proof (flat_map_length_bounds (entity amp lt gt quot apos) 6 s
                    (fun c => entity_length amp lt gt quot apos 6 c Ba Bl Bg Bq Bp))
        as [Hlen _].
      apply (f_equal (@length N)) in H. rewrite length_app in H. simpl in H. lia.
    + rewrite (entity_plain amp lt gt quot apos c Hc) in H.
      simpl in H. inversion H as [H']. rewrite H'.
      constructor; [exact Hc|]. now apply IH.
  - induction 1 as [|c s Hc _ IH]; [reflexivity|].
    simpl. now rewrite (entity_plain amp lt gt quot apos c Hc), IH.
Qed.

(** X4: [escapeHtml] hands a string back unchanged exactly when the string
    holds none of [&], [<], [>], double quote and apostrophe, in both
    copies. *)
Theorem X4_escapeHtml_unchanged_iff_no_special (s : jstring) :
  (Functions.escapeHtml (VStr s) = VStr s <-> Forall (fun c => special c = false) s) /\
  (Part000.escapeHtml (VStr s) = VStr s <-> Forall (fun c => special c = false) s).
Proof.
  split.
  - cbn [Functions.escapeHtml]. rewrite Functions_escapeText_one_pass.
    split.
    + intros H. injection H as H'.
      apply flat_map_entity_fixed in H'; simpl; try lia. exact H'.
    + intros H. f_equal. apply flat_map_entity_fixed; simpl; try lia. exact H.
  - cbn [Part000.escapeHtml]. rewrite Part000_escapeText_one_pass.
    split.
    + intros H. injection H as H'.
      apply flat_map_entity_fixed in H'; simpl; try lia. exact H'.
    + intros H. f_equal. apply flat_map_entity_fixed; simpl; try lia. exact H.
Qed.

(** The entities of both copies start with [&] followed by [a], [l], [g],
    [q] and [#]: the image of a unit is told by its first two units, so the
    images of two units can only agree, one continued by [ra] and the other
    by [rb], when the units are the same. *)
Lemma entity_prefix_code (a' l' g' q' p' : jstring) (x y : N) (ra rb : jstring) :
  entity (38%N :: 97%N :: a') (38%N :: 108%N :: l') (38%N :: 103%N :: g')
         (38%N :: 113%N :: q') (38%N :: 35%N :: p') x ++ ra =
  entity (38%N :: 97%N :: a') (38%N :: 108%N :: l') (38%N :: 103%N :: g')
         (38%N :: 113%N :: q') (38%N :: 35%N :: p') y ++ rb ->
  x = y /\ ra = rb.
Proof.
  unfold entity. intros H.
  destruct (N.eqb_spec x 38) as [->|Hx1];
    [|destruct (N.eqb_spec x 60) as [->|Hx2];
      [|destruct (N.eqb_spec x 62) as [->|Hx3];
        [|destruct (N.eqb_spec x 34) as [->|Hx4];
          [|destruct (N.eqb_spec x 39) as [->|Hx5]]]]];
  (destruct (N.eqb_spec y 38) as [->|Hy1];
    [|destruct (N.eqb_spec y 60) as [->|Hy2];
      [|destruct (N.eqb_spec y 62) as [->|Hy3];
        [|destruct (N.eqb_spec y 34) as [->|Hy4];
          [|destruct (N.eqb_spec y 39) as [->|Hy5]]]]]);
  simpl in H; try discriminate H;
  try (injection H as H; split; [reflexivity|now apply app_inv_head in H]);
  try (injection H as H1 H2; congruence).
  injection H as -> ->. now split.
Qed.

Lemma flat_map_prefix_code (f : N -> jstring) :
  (forall x y ra rb, f x ++ ra = f y ++ rb -> x = y /\ ra = rb) ->
  (forall x, f x <> []) ->
  forall a b, flat_map f a = flat_map f b -> a = b.
Proof.
  intros Hcode Hne. induction a as [|x a IH]; intros [|y b] H; simpl in H.
  - reflexivity.
  - symmetry in H. apply app_eq_nil in H as [H _]. now apply Hne in H.
  - apply app_eq_nil in H as [H _]. now apply Hne in H.
  - apply Hcode in H as [-> H]. f_equal. now apply IH.
Qed.

Lemma entity_nonempty (amp lt gt quot apos : jstring) (c : N) :
  amp <> [] -> lt <> [] -> gt <> [] -> quot <> [] -> apos <> [] ->
  entity amp lt gt quot apos c <> [].
Proof.
  unfold entity. intros.
  repeat match goal with |- context [if ?b then _ else _] => destruct b end;
    try assumption; discriminate.
Qed.

(** X5: escaping loses nothing: two strings have the same escaped text
    only when they are the same string, in both copies. *)
Theorem X5_escapeHtml_injective (a b : jstring) :
  (Functions.escapeHtml (VStr a) = Functions.escapeHtml (VStr b) <-> a = b) /\
  (Part000.escapeHtml (VStr a) = Part000.escapeHtml (VStr b) <-> a = b).
Proof.
  split; (split; [|now intros ->]); intros H; injection H as H.
  - rewrite !Functions_escapeText_one_pass in H.
    revert H. apply flat_map_prefix_code.
    + intros x y ra rb. apply entity_prefix_code.
    + intros x. apply entity_nonempty; discriminate.
  - rewrite !Part000_escapeText_one_pass in H.
    revert H. apply flat_map_prefix_code.
    + intros x y ra rb. apply entity_prefix_code.
    + intros x. apply entity_nonempty; discriminate.
Qed.

(* ================================================================== *)
(** ** Trimming *)
(* ================================================================== *)

Lemma trimStart_length (s : jstring) : length (trimStart s) <= length s.
Proof.
  induction s as [|c s IH]; simpl; [lia|].
  destruct (is_ws c); simpl; lia.
Qed.

Lemma trim_length (s : jstring) : length (trim s) <= length s.
Proof.
  unfold trim, trimEnd. rewrite length_rev.
  pose proof (trimStart_length (rev (trimStart s))) as H1.
  pose proof (trimStart_length s) as H2.
  rewrite length_rev in H1. lia.
Qed.

Lemma trimStart_nil_iff (s : jstring) :
  trimStart s = [] <-> Forall (fun c => is_ws c = true) s.
Proof.
  induction s as [|c s IH]; simpl.
  - split; [constructor|reflexivity].
  - destruct (is_ws c) eqn:Hc.
    + rewrite IH. split; [now constructor|now inversion 1].
    + split; [discriminate|]. inversion 1. congruence.
Qed.

(** A text that starts with a unit that is not blank is its own
    [trimStart], and stays so when blanks are cut from its end. *)
Lemma trimStart_snoc (u : jstring) (c : N) :
  is_ws c = false -> trimStart (u ++ [c]) = trimStart u ++ [c].
Proof.
  intros Hc. induction u as [|x u IH]; simpl.
  - now rewrite Hc.
  - destruct (is_ws x); [exact IH|reflexivity].
Qed.

Lemma trimEnd_cons (c : N) (t : jstring) :
  is_ws c = false -> trimEnd (c :: t) = c :: trimEnd t.
Proof.
  intros Hc. unfold trimEnd. simpl rev.
  rewrite (trimStart_snoc _ c Hc), rev_app_distr. reflexivity.
Qed.

Lemma trimStart_idem (s : jstring) : trimStart (trimStart s) = trimStart s.
Proof.
  induction s as [|c s IH]; [reflexivity|]. simpl.
  destruct (is_ws c) eqn:Hc; [exact IH|]. simpl. now rewrite Hc.
Qed.

Lemma trimEnd_idem (t : jstring) : trimEnd (trimEnd t) = trimEnd t.
Proof. unfold trimEnd. now rewrite rev_involutive, trimStart_idem. Qed.

Lemma trimStart_trimEnd (t : jstring) :
  trimStart t = t -> trimStart (trimEnd t) = trimEnd t.
Proof.
  destruct t as [|c t]; [reflexivity|]. simpl.
  destruct (is_ws c) eqn:Hc.
  - intros H. exfalso.
    pose proof (trimStart_length t) as Hlen.
    apply (f_equal (@length N)) in H. simpl in H. lia.
  - intros _. rewrite (trimEnd_cons c t Hc). simpl. now rewrite Hc.
Qed.

(** Trimming a trimmed text changes nothing. *)
Lemma trim_idem (s : jstring) : trim (trim s) = trim s.
Proof.
  unfold trim.
  rewrite (trimStart_trimEnd (trimStart s) (trimStart_idem s)).
  apply trimEnd_idem.
Qed.

(** The texts that trim to nothing are the texts of blanks. *)
Lemma trim_nil_iff (s : jstring) :
  trim s = [] <-> Forall (fun c => is_ws c = true) s.
Proof.
  rewrite <- trimStart_nil_iff. unfold trim, trimEnd. split.
  - intros H. apply (f_equal (@rev N)) in H. rewrite rev_involutive in H.
    simpl in H. apply trimStart_nil_iff in H.
    apply Forall_rev in H. rewrite rev_involutive in H.
    destruct (trimStart s) as [|c t] eqn:Ht; [reflexivity|]. exfalso.
    assert (Hc : is_ws c = false).
    { clear H. induction s as [|x s IH]; simpl in Ht; [discriminate|].
      destruct (is_ws x) eqn:Hx; [now apply IH|]. inversion Ht; subst. exact Hx. }
    inversion H; subst. congruence.
  - intros ->. reflexivity.
Qed.

Lemma jstr_eqb_nil (s : jstring) : jstr_eqb s [] = true <-> s = [].
Proof. apply jstr_eqb_eq. Qed.

(** The name check fails on exactly the values that are not a string or
    are a string of blanks only (the empty string among them). *)
Lemma missing_or_empty_iff (v : value) :
  missing_or_empty v = true <->
  (forall s, v = VStr s -> Forall (fun c => is_ws c = true) s).
Proof.
  unfold missing_or_empty. split.
  - intros H s ->. simpl in H. rewrite orb_false_r in H.
    apply orb_true_iff in H as [H|H].
    + apply negb_true_iff, negb_false_iff, jstr_eqb_nil in H. subst. constructor.
    + apply jstr_eqb_nil in H. now apply trim_nil_iff.
  - intros H. destruct v as [| |b|z|s|ms|l|o]; simpl; try reflexivity;
      try (now rewrite orb_true_r).
    rewrite orb_false_r. apply orb_true_iff. right.
    apply jstr_eqb_nil, trim_nil_iff, H. reflexivity.
Qed.

(* ================================================================== *)
(** ** Further properties of POST *)
(* ================================================================== *)

Lemma get_in_keys (o : object) (k : jstring) :
  get o k <> VUndefined -> In k (keys o).
Proof.
  induction o as [|[k' v] o IH]; simpl; intros H; [now elim H|].
  destruct (jstr_eqb k' k) eqn:Hk.
  - left. now apply jstr_eqb_eq.
  - right. now apply IH.
Qed.

Lemma exact_fields_inv (o : object) (name message : jstring) :
  unexpected_fields (keys o) = false ->
  get o (lit "name") = VStr name ->
  get o (lit "message") = VStr message ->
  Permutation (keys o) [lit "name"; lit "message"].
Proof.
  intros Hu Hn Hm.
  assert (In1 : In (lit "name") (keys o)) by (apply get_in_keys; congruence).
  assert (In2 : In (lit "message") (keys o)) by (apply get_in_keys; congruence).
  unfold unexpected_fields in Hu. apply orb_false_iff in Hu as [Hlen _].
  apply negb_false_iff, Nat.eqb_eq in Hlen.
  destruct (keys o) as [|k1 [|k2 [|k3 ks]]]; try discriminate Hlen.
  destruct In1 as [->|[->|[]]]; destruct In2 as [E|[E|[]]];
    try (exfalso; vm_compute in E; discriminate E); subst.
  - apply Permutation_refl.
  - apply perm_swap.
Qed.

Lemma present_field_inv (v : value) :
  missing_or_empty v = false -> exists s, v = VStr s /\ 1 <= length (trim s).
Proof.
  unfold missing_or_empty.
  destruct v as [| |b|z|s|ms|l|o]; simpl; intros H;
    try discriminate H; try (rewrite orb_true_r in H; discriminate H).
  exists s. split; [reflexivity|].
  rewrite orb_false_r in H. apply orb_false_iff in H as [_ H].
  destruct (trim s); [discriminate H|simpl; lia].
Qed.

(** What a request that passes every check looks like. *)
Lemma no_failure_valid (req : request) :
  first_failure req = None ->
  exists ct name message,
    header req (lit "content-type") = VStr ct /\
    includes urlencoded ct = true /\
    Permutation (keys (body req)) [lit "name"; lit "message"] /\
    get (body req) (lit "name") = VStr name /\
    get (body req) (lit "message") = VStr message /\
    1 <= length (trim name) /\ length name <= 100 /\
    1 <= length (trim message) /\ length message <= 2000.
Proof.
  intros H.
  assert (Hall : forall c, fails c req = false).
  { intros c. apply (find_none _ _ H c). destruct c; simpl; tauto. }
  pose proof (Hall ContentType) as Hct. pose proof (Hall NamePresent) as Hn.
  pose proof (Hall MessagePresent) as Hm. pose proof (Hall NameLength) as Hnl.
  pose proof (Hall MessageLength) as Hml. pose proof (Hall FieldSet) as Hf.
  cbn [fails] in *.
  apply present_field_inv in Hn as (name & En & Hn).
  apply present_field_inv in Hm as (message & Em & Hm).
  rewrite En in Hnl. rewrite Em in Hml. cbn [text] in *.
  apply Nat.ltb_ge in Hnl, Hml.
  apply orb_false_iff in Hct as [_ Hct]. apply negb_false_iff in Hct.
  destruct (header req (lit "content-type")) as [| |b|z|ct|ms|l|o] eqn:Eh;
    try discriminate Hct.
  exists ct, name, message. repeat split; try assumption.
  now apply (exact_fields_inv (body req) name message).
Qed.

(** The three ways a POST ends. *)
Lemma handlePost_cases (P : Platform) (thanks : jstring) (e : env) (req : request)
      (db : store) :
  (exists c, first_failure req = Some c /\
             handlePost P thanks e req db = answer 400 (error_text c) db [warning c]) \/
  (first_failure req = None /\ store_up e = false /\
   handlePost P thanks e req db =
   answer 500 msg_post_failed db [(ERROR, lit "Error processing POST request:")]) \/
  (first_failure req = None /\ store_up e = true /\
   exists name message,
     get (body req) (lit "name") = VStr name /\
     get (body req) (lit "message") = VStr message /\
     handlePost P thanks e req db =
     answer 200 thanks (db ++ [submission_of P e db name message])
            [(LOG, lit "Submission saved successfully:")]).
Proof.
  rewrite handlePost_first_failure.
  destruct (first_failure req) as [c|] eqn:Hf.
  - left. now exists c.
  - right. unfold add. destruct (store_up e).
    + right. repeat split.
      destruct (no_failure_valid req Hf) as (ct & name & message & _ & _ & _ & En & Em & _).
      exists name, message. rewrite En, Em. repeat split.
    + left. repeat split.
Qed.

Lemma error_text_injective (c c' : check) : error_text c = error_text c' -> c = c'.
Proof.
  destruct c, c'; intros H; try reflexivity; vm_compute in H; discriminate H.
Qed.

Ltac both_posts Hpost :=
  rewrite ?Functions_app_post, ?Part000_app_post by exact Hpost.

(** X7: the reply to a POST tells which check failed first: it is the 400
    with the error text of a check exactly when that check is the first of
    the order that the request fails (the six texts differ from each
    other).  Both copies. *)
Theorem X7_post_error_names_first_failure
        (P : Platform) (e : env) (req : request) (db : store) (c : check) :
  method req = lit "POST" ->
  (reply (Functions.app P e req db) = {| status := 400; sent := error_text c |} <->
   first_failure req = Some c) /\
  (reply (Part000.app P e req db) = {| status := 400; sent := error_text c |} <->
   first_failure req = Some c).
Proof.
  intros Hpost. both_posts Hpost.
  split.
  - destruct (handlePost_cases P Functions.thanks e req db)
      as [(c' & Hf & ->)|[(Hf & _ & ->)|(Hf & _ & n & m & _ & _ & ->)]];
      rewrite Hf; cbn [answer reply]; split; intros H; try discriminate H.
    + injection H as H. now rewrite (error_text_injective c' c H).
    + now injection H as ->.
  - destruct (handlePost_cases P Part000.thanks e req db)
      as [(c' & Hf & ->)|[(Hf & _ & ->)|(Hf & _ & n & m & _ & _ & ->)]];
      rewrite Hf; cbn [answer reply]; split; intros H; try discriminate H.
    + injection H as H. now rewrite (error_text_injective c' c H).
    + now injection H as ->.
Qed.

Lemma X7_post_error_names_first_failure_witness :
  reply (Functions.app Reference.platform (up_at 0) long_name_extra_field []) =
    {| status := 400; sent := error_text NameLength |}.
Proof.
  apply (proj1 (X7_post_error_names_first_failure Reference.platform (up_at 0)
                  long_name_extra_field [] NameLength eq_refl)).
  reflexivity.
Defined.

Lemma handlePost_reply_400 (P : Platform) (thanks : jstring) (e : env) (req : request)
      (db : store) (c : check) :
  reply (handlePost P thanks e req db) = {| status := 400; sent := error_text c |} <->
  first_failure req = Some c.
Proof.
  destruct (handlePost_cases P thanks e req db)
    as [(c' & Hf & ->)|[(Hf & _ & ->)|(Hf & _ & n & m & _ & _ & ->)]];
    rewrite Hf; cbn [answer reply]; split; intros H; try discriminate H.
  - injection H as H. now rewrite (error_text_injective c' c H).
  - now injection H as ->.
Qed.

Lemma first_failure_name (req : request) :
  fails ContentType req = false ->
  (first_failure req = Some NamePresent <-> fails NamePresent req = true).
Proof.
  intros Hct. unfold first_failure, validation_order. cbn [find]. rewrite Hct.
  destruct (fails NamePresent req); [tauto|].
  split; [|discriminate].
  repeat match goal with
         | |- context [if ?b then _ else _] => destruct b
         end; discriminate.
Qed.

Lemma first_failure_message (req : request) :
  fails ContentType req = false ->
  (first_failure req = Some MessagePresent <->
   fails NamePresent req = false /\ fails MessagePresent req = true).
Proof.
  intros Hct. unfold first_failure, validation_order. cbn [find]. rewrite Hct.
  destruct (fails NamePresent req); [split; [discriminate|intros [H _]; discriminate H]|].
  destruct (fails MessagePresent req); [tauto|].
  split; [|intros [_ H]; discriminate H].
  repeat match goal with
         | |- context [if ?b then _ else _] => destruct b
         end; discriminate.
Qed.

Lemma name_required_iff (P : Platform) (thanks : jstring) (e : env) (req : request)
      (db : store) :
  fails ContentType req = false ->
  (reply (handlePost P thanks e req db) = {| status := 400; sent := msg_name_required |}
   <-> forall s, get (body req) (lit "name") = VStr s ->
                 Forall (fun c => is_ws c = true) s).
Proof.
  intros Hct.
  rewrite (handlePost_reply_400 P thanks e req db NamePresent).
  rewrite (first_failure_name req Hct). apply missing_or_empty_iff.
Qed.

Lemma message_required_iff (P : Platform) (thanks : jstring) (e : env) (req : request)
      (db : store) :
  fails ContentType req = false ->
  (reply (handlePost P thanks e req db) = {| status := 400; sent := msg_message_required |}
   <-> ~ (forall s, get (body req) (lit "name") = VStr s ->
                    Forall (fun c => is_ws c = true) s) /\
       (forall s, get (body req) (lit "message") = VStr s ->
                  Forall (fun c => is_ws c = true) s)).
Proof.
  intros Hct.
  rewrite (handlePost_reply_400 P thanks e req db MessagePresent).
  rewrite (first_failure_message req Hct). cbn [fails].
  rewrite <- !missing_or_empty_iff.
  destruct (missing_or_empty (get (body req) (lit "name"))); intuition congruence.
Qed.

(** X8: for a POST with an acceptable content type, the reply is the 400
    naming [name] exactly when the [name] of the body is not a string or is
    a string of blanks only (absent, an array, empty, all whitespace), and
    it is the 400 naming [message] exactly when the name passes that test
    and the [message] does not.  Both copies. *)
Theorem X8_required_field_errors (P : Platform) (e : env) (req : request) (db : store) :
  method req = lit "POST" ->
  fails ContentType req = false ->
  let blank v := forall s, v = VStr s -> Forall (fun c => is_ws c = true) s in
  let name := get (body req) (lit "name") in
  let message := get (body req) (lit "message") in
  (reply (Functions.app P e req db) = {| status := 400; sent := msg_name_required |}
   <-> blank name) /\
  (reply (Part000.app P e req db) = {| status := 400; sent := msg_name_required |}
   <-> blank name) /\
  (reply (Functions.app P e req db) = {| status := 400; sent := msg_message_required |}
   <-> ~ blank name /\ blank message) /\
  (reply (Part000.app P e req db) = {| status := 400; sent := msg_message_required |}
   <-> ~ blank name /\ blank message).
Proof.
  intros Hpost Hct. cbv zeta. both_posts Hpost.
  split; [|split; [|split]].
  - now apply name_required_iff.
  - now apply name_required_iff.
  - now apply message_required_iff.
  - now apply message_required_iff.
Qed.

Lemma X8_required_field_errors_witness :
  reply (Part000.app Reference.platform (up_at 0)
           (post_of (lit "   ") (lit "hello")) one_guest) =
    {| status := 400; sent := msg_name_required |}.
Proof.
  apply (proj2 (proj1 (proj2 (X8_required_field_errors Reference.platform (up_at 0)
                                (post_of (lit "   ") (lit "hello")) one_guest
                                eq_refl eq_refl)))).
  intros s H. injection H as <-. repeat constructor.
Defined.

(** X9: a POST is answered 200 only when it is a valid submission and the
    insert completed: the content type contains
    [application/x-www-form-urlencoded], the fields of the body are exactly
    [name] and [message], both are strings that are not empty after
    trimming and are at most 100 and 2000 units long as received, and the
    store then holds one record more: the trimmed texts and the reading of
    the server clock, never a value of the client for the timestamp.
    Both copies. *)
Theorem X9_accepted_post_is_valid (P : Platform) (e : env) (req : request) (db : store) :
  method req = lit "POST" ->
  status (reply (Functions.app P e req db)) = 200 \/
  status (reply (Part000.app P e req db)) = 200 ->
  exists ct name message,
    header req (lit "content-type") = VStr ct /\
    includes urlencoded ct = true /\
    Permutation (keys (body req)) [lit "name"; lit "message"] /\
    get (body req) (lit "name") = VStr name /\
    get (body req) (lit "message") = VStr message /\
    1 <= length (trim name) /\ length name <= 100 /\
    1 <= length (trim message) /\ length message <= 2000 /\
    store_up e = true /\
    store_after (Functions.app P e req db) = db ++ [submission_of P e db name message] /\
    store_after (Part000.app P e req db) = db ++ [submission_of P e db name message].
Proof.
  intros Hpost H200. both_posts Hpost.
  rewrite (Functions_app_post P e req db Hpost),
          (Part000_app_post P e req db Hpost) in H200.
  assert (Hok : first_failure req = None /\ store_up e = true).
  { destruct H200 as [H|H]; revert H.
    - destruct (handlePost_cases P Functions.thanks e req db)
        as [(c & _ & ->)|[(_ & _ & ->)|(Hf & Hup & _)]];
        cbn [answer reply status]; try discriminate; now split.
    - destruct (handlePost_cases P Part000.thanks e req db)
        as [(c & _ & ->)|[(_ & _ & ->)|(Hf & Hup & _)]];
        cbn [answer reply status]; try discriminate; now split. }
  destruct Hok as [Hf Hup].
  destruct (no_failure_valid req Hf)
    as (ct & name & message & Hh & Hinc & Hperm & En & Em & Hn1 & Hn2 & Hm1 & Hm2).
  exists ct, name, message.
  rewrite !handlePost_first_failure, Hf. unfold add. rewrite Hup, En, Em.
  repeat split; assumption.
Qed.

Lemma X9_accepted_post_is_valid_witness :
  exists ct name message,
    header guest_post (lit "content-type") = VStr ct /\
    includes urlencoded ct = true /\
    Permutation (keys (body guest_post)) [lit "name"; lit "message"] /\
    get (body guest_post) (lit "name") = VStr name /\
    get (body guest_post) (lit "message") = VStr message /\
    1 <= length (trim name) /\ length name <= 100 /\
    1 <= length (trim message) /\ length message <= 2000 /\
    store_up (up_at 7) = true /\
    store_after (Functions.app Reference.platform (up_at 7) guest_post one_guest) =
      one_guest ++ [submission_of Reference.platform (up_at 7) one_guest name message] /\
    store_after (Part000.app Reference.platform (up_at 7) guest_post one_guest) =
      one_guest ++ [submission_of Reference.platform (up_at 7) one_guest name message].
Proof.
  apply (X9_accepted_post_is_valid Reference.platform (up_at 7) guest_post one_guest).
  - reflexivity.
  - left. reflexivity.
Defined.

(** X10: the collection is append-only: whatever the request, the
    documents that were in the store are still there, unchanged and in
    place, and at most one document was added after them; one is added
    exactly when the request is a POST answered 200.  Both copies. *)
Theorem X10_store_append_only (P : Platform) (e : env) (req : request) (db : store) :
  (firstn (length db) (store_after (Functions.app P e req db)) = db /\
   ((length (store_after (Functions.app P e req db)) = length db /\
     ~ (method req = lit "POST" /\ status (reply (Functions.app P e req db)) = 200)) \/
    (length (store_after (Functions.app P e req db)) = S (length db) /\
     method req = lit "POST" /\ status (reply (Functions.app P e req db)) = 200))) /\
  (firstn (length db) (store_after (Part000.app P e req db)) = db /\
   ((length (store_after (Part000.app P e req db)) = length db /\
     ~ (method req = lit "POST" /\ status (reply (Part000.app P e req db)) = 200)) \/
    (length (store_after (Part000.app P e req db)) = S (length db) /\
     method req = lit "POST" /\ status (reply (Part000.app P e req db)) = 200))).
Proof.
  assert (Hsame : forall r : result,
             store_after r = db ->
             (method req = lit "POST" -> status (reply r) <> 200) ->
             firstn (length db) (store_after r) = db /\
             ((length (store_after r) = length db /\
               ~ (method req = lit "POST" /\ status (reply r) = 200)) \/
              (length (store_after r) = S (length db) /\
               method req = lit "POST" /\ status (reply r) = 200))).
  { intros r -> Hr. split; [apply firstn_all|]. left. split; [reflexivity|].
    intros [Hm Hs]. now apply Hr. }
  destruct (jstr_eqb (method req) (lit "POST")) eqn:Hm.
  - apply jstr_eqb_eq in Hm. both_posts Hm. split.
    + destruct (handlePost_cases P Functions.thanks e req db)
        as [(c & _ & ->)|[(_ & _ & ->)|(_ & _ & n & m & _ & _ & ->)]];
        try (apply Hsame; [reflexivity|cbn; discriminate]).
      cbn [answer store_after reply status]. split.
      * rewrite firstn_app, firstn_all, Nat.sub_diag. apply app_nil_r.
      * right. rewrite length_app. simpl. repeat split; try assumption. lia.
    + destruct (handlePost_cases P Part000.thanks e req db)
        as [(c & _ & ->)|[(_ & _ & ->)|(_ & _ & n & m & _ & _ & ->)]];
        try (apply Hsame; [reflexivity|cbn; discriminate]).
      cbn [answer store_after reply status]. split.
      * rewrite firstn_app, firstn_all, Nat.sub_diag. apply app_nil_r.
      * right. rewrite length_app. simpl. repeat split; try assumption. lia.
  - assert (Hne : method req <> lit "POST").
    { intros H. rewrite H, jstr_eqb_refl in Hm. discriminate. }
    destruct (only_post_writes P e req db Hne) as [HF HP].
    split; apply Hsame; try assumption; intros H; now elim Hne.
Qed.

Lemma submission_well_formed (P : Platform) (e : env) (db : store)
      (name message : jstring) :
  1 <= length (trim name) -> length name <= 100 ->
  1 <= length (trim message) -> length message <= 2000 ->
  well_formed (submission_of P e db name message).
Proof.
  intros Hn1 Hn2 Hm1 Hm2. exists (trim name), (trim message), (now e).
  pose proof (trim_length name). pose proof (trim_length message).
  repeat split; try lia; try apply trim_idem.
Qed.

Lemma handlePost_well_formed (P : Platform) (thanks : jstring) (e : env)
      (req : request) (db : store) :
  Forall well_formed db ->
  Forall well_formed (store_after (handlePost P thanks e req db)).
Proof.
  intros Hdb.
  destruct (handlePost_cases P thanks e req db)
    as [(c & _ & ->)|[(_ & _ & ->)|(Hf & _ & n & m & En & Em & ->)]];
    cbn [answer store_after]; try exact Hdb.
  apply Forall_app. split; [exact Hdb|]. constructor; [|constructor].
  destruct (no_failure_valid req Hf)
    as (ct & n' & m' & _ & _ & _ & En' & Em' & Hn1 & Hn2 & Hm1 & Hm2).
  rewrite En in En'. rewrite Em in Em'. injection En' as <-. injection Em' as <-.
  now apply submission_well_formed.
Qed.

Lemma app_well_formed (P : Platform) (e : env) (req : request) (db : store) :
  Forall well_formed db ->
  Forall well_formed (store_after (Functions.app P e req db)) /\
  Forall well_formed (store_after (Part000.app P e req db)).
Proof.
  intros Hdb. destruct (jstr_eqb (method req) (lit "POST")) eqn:Hm.
  - apply jstr_eqb_eq in Hm. both_posts Hm.
    split; now apply handlePost_well_formed.
  - assert (Hne : method req <> lit "POST").
    { intros H. rewrite H, jstr_eqb_refl in Hm. discriminate. }
    destruct (only_post_writes P e req db Hne) as [-> ->]. now split.
Qed.

(** X11: the handler keeps the store well formed: when every record of
    the store has exactly the fields [name], [message] and [timestamp], a
    name of 1 to 100 units and a message of 1 to 2000 units, both without
    blanks at either end, and a Timestamp, the same holds of the store
    after any request.  Both copies. *)
Theorem X11_requests_keep_records_well_formed
        (P : Platform) (e : env) (req : request) (db : store) :
  Forall well_formed db ->
  Forall well_formed (store_after (Functions.app P e req db)) /\
  Forall well_formed (store_after (Part000.app P e req db)).
Proof. apply app_well_formed. Qed.

Lemma one_guest_well_formed : Forall well_formed one_guest.
Proof.
  constructor; [|constructor].
  exists (lit "Ada"), (lit "hello there"), 1700000000123%Z.
  repeat split; simpl; lia.
Qed.

Lemma X11_requests_keep_records_well_formed_witness :
  Forall well_formed
         (store_after (Functions.app Reference.platform (up_at 7) guest_post one_guest)) /\
  Forall well_formed
         (store_after (Part000.app Reference.platform (up_at 7) guest_post one_guest)).
Proof.
  apply (X11_requests_keep_records_well_formed Reference.platform (up_at 7)
           guest_post one_guest).
  exact one_guest_well_formed.
Defined.

Lemma run_well_formed (app : env -> request -> store -> result)
      (steps : list (env * request)) :
  (forall e req db, Forall well_formed db -> Forall well_formed (store_after (app e req db))) ->
  forall db, Forall well_formed db -> Forall well_formed (run app steps db).
Proof.
  intros Happ. unfold run.
  induction steps as [|[e req] steps IH]; intros db Hdb; simpl; [exact Hdb|].
  apply IH. now apply Happ.
Qed.

Lemma snapshot_incl (P : Platform) (limit : nat) (db : store) (d : doc) :
  In d (snapshot P limit db) -> In d (orderByTimestampDesc P db).
Proof.
  unfold snapshot. intros H.
  rewrite <- (firstn_skipn limit (orderByTimestampDesc P db)).
  apply in_or_app. now left.
Qed.

Lemma mapM_Some_each {A B} (f : A -> attempt B) (l : list A) (bs : list B) :
  mapM f l = Some bs -> forall a, In a l -> exists b, f a = Some b.
Proof.
  intros H. apply mapM_Forall2 in H.
  induction H as [|a b l bs Hab _ IH]; intros x; simpl; [tauto|].
  intros [<-|Hx]; [now exists b|now apply IH].
Qed.

Lemma Functions_renders_fields (d : doc) :
  Functions_renders d = true ->
  is_timestamp (get (data d) (lit "timestamp")) = true /\
  printable (get (data d) (lit "name")) = true /\
  printable (get (data d) (lit "message")) = true.
Proof. unfold Functions_renders. rewrite !andb_true_iff. tauto. Qed.

Lemma Functions_hole (v : value) :
  printable v = true ->
  toString (Functions.escapeHtml v) = Some (text_of (Functions.escapeHtml v)).
Proof.
  intros H. apply toString_printable. now rewrite Functions_escapeHtml_printable.
Qed.

(** A document [functions/index.js] renders, and the block it gets. *)
Lemma Functions_render_ok (P : Platform) (d : doc) :
  Functions_renders d = true ->
  Functions.renderSubmission P (data d) = Some (Functions_shown_block P d).
Proof.
  intros H. apply Functions_renders_fields in H as (Hts & Hn & Hm).
  rewrite Functions_render, (Functions_hole _ Hn), (Functions_hole _ Hm).
  unfold Functions_shown_block.
  destruct (get (data d) (lit "timestamp")); try discriminate Hts. reflexivity.
Qed.

(** A document [functions/index.js] does not render fails its request. *)
Lemma Functions_render_fails (P : Platform) (d : doc) :
  Functions_renders d = false ->
  Functions.renderSubmission P (data d) = None.
Proof.
  intros H. rewrite Functions_render.
  destruct (get (data d) (lit "timestamp")) eqn:Hts; try reflexivity.
  destruct (toString (Functions.escapeHtml (get (data d) (lit "name"))))
    as [n|] eqn:En; [|reflexivity].
  destruct (toString (Functions.escapeHtml (get (data d) (lit "message"))))
    as [m|] eqn:Em; [|reflexivity].
  apply toString_some_printable in En, Em.
  rewrite Functions_escapeHtml_printable in En, Em.
  unfold Functions_renders in H. rewrite Hts, En, Em in H. discriminate H.
Qed.

(** The page of [functions/index.js] when the store answers and it
    renders every document of the snapshot. *)
Lemma Functions_get_ok (P : Platform) (e : env) (db : store) :
  store_up e = true ->
  (forall d, In d (snapshot P Functions.LIMIT db) -> Functions_renders d = true) ->
  Functions.handleGet P e db =
  answer 200
         (Functions.page (listing (map (Functions_shown_block P)
                                       (snapshot P Functions.LIMIT db))))
         db [(LOG, retrieved (length (snapshot P Functions.LIMIT db)))].
Proof.
  intros Hup Hr. rewrite Functions_handleGet_cases, Hup. cbv zeta.
  generalize dependent (snapshot P Functions.LIMIT db). intros docs Hr.
  assert (Hm : mapM (Functions.renderSubmission P) (map data docs) =
               Some (map (Functions_shown_block P) docs)).
  { clear Hup. induction docs as [|d docs IH]; [reflexivity|]. simpl.
    rewrite (Functions_render_ok P d (Hr d (or_introl eq_refl))).
    simpl. rewrite IH; [reflexivity|]. intros d' Hd'. apply Hr. now right. }
  now rewrite Hm.
Qed.

(** The other direction: a served GET rendered every document. *)
Lemma Functions_get_200 (P : Platform) (e : env) (db : store) :
  status (reply (Functions.handleGet P e db)) = 200 ->
  store_up e = true /\
  forall d, In d (snapshot P Functions.LIMIT db) -> Functions_renders d = true.
Proof.
  rewrite Functions_handleGet_cases.
  destruct (store_up e); [|discriminate]. cbv zeta.
  destruct (mapM _ _) as [blocks|] eqn:Hm; [|discriminate].
  intros _. split; [reflexivity|]. intros d Hd.
  destruct (mapM_Some_each _ _ _ Hm (data d) (in_map data _ d Hd)) as [b Hb].
  destruct (Functions_renders d) eqn:E; [reflexivity|].
  rewrite (Functions_render_fails P d E) in Hb. discriminate Hb.
Qed.

Lemma Part000_get_200 (P : Platform) (e : env) (db : store) :
  status (reply (Part000.handleGet P e db)) = 200 ->
  store_up e = true /\
  forall d, In d (snapshot P Part000.LIMIT db) -> Part000_renders d = true.
Proof.
  rewrite Part000_handleGet_cases.
  destruct (store_up e); [|discriminate].
  destruct (mapM (Part000.collect P) _) as [subs|] eqn:Hs; [|discriminate].
  cbv zeta.
  destruct (mapM Part000.renderSubmission subs) as [blocks|] eqn:Hb; [|discriminate].
  intros _. split; [reflexivity|]. intros d Hd.
  destruct (Part000_renders d) eqn:E; [reflexivity|]. exfalso.
  assert (Hnone : (bs <- mapM (Part000.collect P) (snapshot P Part000.LIMIT db) ;;
                   mapM Part000.renderSubmission bs) = None).
  { apply two_passes. exists d. split; [exact Hd|]. now apply Part000_render_fails. }
  rewrite Hs in Hnone. simpl in Hnone. congruence.
Qed.

Lemma well_formed_renders (d : doc) :
  well_formed d -> Functions_renders d = true /\ Part000_renders d = true.
Proof.
  intros (n & m & t & Hd & _). unfold Functions_renders, Part000_renders.
  rewrite Hd. split; reflexivity.
Qed.

(** X12: whatever requests were served since the store was empty, a GET
    for which the store answers, and whose query returns documents of the
    store only, is answered 200: the handler writes no record that its own
    listing cannot render.  Both copies. *)
Theorem X12_get_succeeds_after_any_history
        (P : Platform) (steps : list (env * request)) (e : env) (req : request) :
  method req = lit "GET" ->
  store_up e = true ->
  incl (orderByTimestampDesc P (run (Functions.app P) steps []))
       (run (Functions.app P) steps []) ->
  incl (orderByTimestampDesc P (run (Part000.app P) steps []))
       (run (Part000.app P) steps []) ->
  status (reply (Functions.app P e req (run (Functions.app P) steps []))) = 200 /\
  status (reply (Part000.app P e req (run (Part000.app P) steps []))) = 200.
Proof.
  intros Hget Hup HinF HinP.
  rewrite Functions_app_get, Part000_app_get by exact Hget.
  assert (HF : Forall well_formed (run (Functions.app P) steps [])).
  { apply run_well_formed; [|constructor].
    intros e' req' db Hdb. now apply (app_well_formed P e' req' db). }
  assert (HP : Forall well_formed (run (Part000.app P) steps [])).
  { apply run_well_formed; [|constructor].
    intros e' req' db Hdb. now apply (app_well_formed P e' req' db). }
  rewrite Forall_forall in HF, HP. split.
  - rewrite Functions_get_ok; [reflexivity|exact Hup|].
    intros d Hd. apply well_formed_renders, HF, HinF.
    now apply snapshot_incl in Hd.
  - rewrite Part000_get_ok; [reflexivity|exact Hup|].
    intros d Hd. apply well_formed_renders, HP, HinP.
    now apply snapshot_incl in Hd.
Qed.

Lemma insert_desc_In (d x : doc) (l : list doc) :
  In d (Reference.insert_desc x l) -> d = x \/ In d l.
Proof.
  induction l as [|y l IH]; simpl.
  - intros [<-|[]]. now left.
  - destruct (Reference.key_ltb _ _); simpl.
    + intros [<-|H]; [now left|now right].
    + intros [<-|H]; [right; now left|].
      destruct (IH H) as [->|H']; [now left|right; now right].
Qed.

(** The reference store returns documents of the collection only. *)
Lemma order_desc_incl (db : store) : incl (Reference.order_desc db) db.
Proof.
  unfold Reference.order_desc. intros d.
  induction db as [|x db IH]; simpl; [tauto|].
  destruct (Reference.has_timestamp x); simpl.
  - intros H. apply insert_desc_In in H as [->|H]; [now left|right; now apply IH].
  - intros H. right. now apply IH.
Qed.

Lemma X12_get_succeeds_after_any_history_witness :
  status (reply (Functions.app Reference.platform (up_at 10) get_request
                   (run (Functions.app Reference.platform)
                        [ (up_at 7, guest_post); (up_at 8, get_request);
                          (up_at 9, long_name_extra_field);
                          (up_at 9, post_of (lit "Bo") (lit "<hi>")) ] []))) = 200 /\
  status (reply (Part000.app Reference.platform (up_at 10) get_request
                   (run (Part000.app Reference.platform)
                        [ (up_at 7, guest_post); (up_at 8, get_request);
                          (up_at 9, long_name_extra_field);
                          (up_at 9, post_of (lit "Bo") (lit "<hi>")) ] []))) = 200.
Proof.
  apply (X12_get_succeeds_after_any_history Reference.platform
           [ (up_at 7, guest_post); (up_at 8, get_request);
             (up_at 9, long_name_extra_field);
             (up_at 9, post_of (lit "Bo") (lit "<hi>")) ]
           (up_at 10) get_request).
  - reflexivity.
  - reflexivity.
  - apply order_desc_incl.
  - apply order_desc_incl.
Defined.

(** X13: the reply to a POST does not depend on what the store holds, on
    the platform or on the clock: two POSTs with the same request get the
    same reply whenever the store call completes for both or for
    neither.  Both copies. *)
Theorem X13_post_reply_ignores_store
        (P1 P2 : Platform) (e1 e2 : env) (req : request) (db1 db2 : store) :
  method req = lit "POST" ->
  store_up e1 = store_up e2 ->
  reply (Functions.app P1 e1 req db1) = reply (Functions.app P2 e2 req db2) /\
  reply (Part000.app P1 e1 req db1) = reply (Part000.app P2 e2 req db2).
Proof.
  intros Hpost Hup. both_posts Hpost. rewrite !handlePost_first_failure.
  destruct (first_failure req); [split; reflexivity|].
  unfold add. rewrite Hup. destruct (store_up e2); split; reflexivity.
Qed.

Lemma X13_post_reply_ignores_store_witness :
  reply (Functions.app Reference.platform (up_at 1) guest_post []) =
  reply (Functions.app Reference.platform (up_at 2) guest_post one_guest).
Proof.
  apply (X13_post_reply_ignores_store Reference.platform Reference.platform
           (up_at 1) (up_at 2) guest_post [] one_guest); reflexivity.
Defined.

(** X14: a request whose method is neither GET nor POST, and which the
    CORS layer does not take for a preflight (a method that upper-cases to
    OPTIONS), is answered 405 with the fixed text, a warning is logged and
    the store is left as it is, whatever the headers and the body.  Both
    copies. *)
Theorem X14_other_methods_405 (P : Platform) (e : env) (req : request) (db : store) :
  is_preflight (method req) = false ->
  method req <> lit "POST" ->
  method req <> lit "GET" ->
  Functions.app P e req db = answer 405 msg_method db [(WARN, lit "Unsupported method:")] /\
  Part000.app P e req db = answer 405 msg_method db [(WARN, lit "Unsupported method:")].
Proof.
  intros Hpre Hp Hg.
  unfold Functions.app, Part000.app, Functions.callback, Part000.callback, onRequest.
  rewrite Hpre.
  destruct (jstr_eqb (method req) (lit "POST")) eqn:E1;
    [now apply jstr_eqb_eq in E1|].
  destruct (jstr_eqb (method req) (lit "GET")) eqn:E2;
    [now apply jstr_eqb_eq in E2|].
  split; reflexivity.
Qed.

Lemma X14_other_methods_405_witness :
  Functions.app Reference.platform (up_at 0)
                {| method := lit "get"; headers := []; body := [] |} one_guest =
  answer 405 msg_method one_guest [(WARN, lit "Unsupported method:")].
Proof.
  apply (X14_other_methods_405 Reference.platform (up_at 0)
           {| method := lit "get"; headers := []; body := [] |} one_guest);
    [reflexivity|discriminate|discriminate].
Defined.

(** X15: when the store call is rejected no request is answered 200 and
    the store is left as it is: a GET gets the 500 with the fixed text of
    the listing, a POST that passes every check gets the 500 with the fixed
    text of the submission, and an invalid POST still gets its 400.  Both
    copies. *)
Theorem X15_store_failure (P : Platform) (e : env) (req : request) (db : store) :
  store_up e = false ->
  (store_after (Functions.app P e req db) = db /\
   status (reply (Functions.app P e req db)) <> 200 /\
   (method req = lit "GET" ->
    reply (Functions.app P e req db) = {| status := 500; sent := msg_get_failed |}) /\
   (method req = lit "POST" ->
    reply (Functions.app P e req db) =
    match first_failure req with
    | Some c => {| status := 400; sent := error_text c |}
    | None => {| status := 500; sent := msg_post_failed |}
    end)) /\
  (store_after (Part000.app P e req db) = db /\
   status (reply (Part000.app P e req db)) <> 200 /\
   (method req = lit "GET" ->
    reply (Part000.app P e req db) = {| status := 500; sent := msg_get_failed |}) /\
   (method req = lit "POST" ->
    reply (Part000.app P e req db) =
    match first_failure req with
    | Some c => {| status := 400; sent := error_text c |}
    | None => {| status := 500; sent := msg_post_failed |}
    end)).
Proof.
  intros Hdown.
  assert (HgetF : Functions.handleGet P e db =
                  answer 500 msg_get_failed db [(ERROR, lit "Error processing GET request:")])
    by (now rewrite Functions_handleGet_cases, Hdown).
  assert (HgetP : Part000.handleGet P e db =
                  answer 500 msg_get_failed db [(ERROR, lit "Error processing GET request:")])
    by (now rewrite Part000_handleGet_cases, Hdown).
  assert (Hpost : forall thanks,
             handlePost P thanks e req db =
             match first_failure req with
             | Some c => answer 400 (error_text c) db [warning c]
             | None => answer 500 msg_post_failed db
                              [(ERROR, lit "Error processing POST request:")]
             end).
  { intros thanks. rewrite handlePost_first_failure. unfold add. now rewrite Hdown. }
  unfold Functions.app, Part000.app, Functions.callback, Part000.callback, onRequest.
  destruct (is_preflight (method req)) eqn:E0.
  { split; repeat split; try discriminate;
      intros H; rewrite H in E0; discriminate E0. }
  destruct (jstr_eqb (method req) (lit "POST")) eqn:E1.
  - apply jstr_eqb_eq in E1. rewrite !Hpost.
    split; (destruct (first_failure req);
            repeat split; try discriminate; try reflexivity;
            intros H; rewrite H in E1; vm_compute in E1; discriminate E1).
  - destruct (jstr_eqb (method req) (lit "GET")) eqn:E2.
    + rewrite HgetF, HgetP.
      split; repeat split; try discriminate;
        intros H; rewrite H, jstr_eqb_refl in E1; discriminate E1.
    + split; repeat split; try discriminate;
        intros H; rewrite H, jstr_eqb_refl in *; discriminate.
Qed.

Lemma X15_store_failure_witness :
  store_after (Functions.app Reference.platform (down_at 3) guest_post one_guest) = one_guest /\
  reply (Functions.app Reference.platform (down_at 3) guest_post one_guest) =
    {| status := 500; sent := msg_post_failed |}.
Proof.
  pose proof (X15_store_failure Reference.platform (down_at 3) guest_post one_guest
                eq_refl) as [(Hs & _ & _ & Hp) _].
  split; [exact Hs|]. exact (Hp eq_refl).
Defined.

Lemma keys_perm (o o' : object) : Permutation o o' -> Permutation (keys o) (keys o').
Proof. apply Permutation_map. Qed.

(** Reading a property does not depend on the order of the fields of an
    object (an object has each key once). *)
Lemma get_perm (k : jstring) (o o' : object) :
  Permutation o o' -> NoDup (keys o) -> get o k = get o' k.
Proof.
  induction 1 as [|[kx vx] l l' Hp IH|[kx vx] [ky vy] l|l l' l'' H1 IH1 H2 IH2];
    intros Hnd.
  - reflexivity.
  - simpl. inversion Hnd; subst. now rewrite IH.
  - simpl. inversion Hnd as [|? ? Hnotin _]; subst.
    destruct (jstr_eqb kx k) eqn:Ex; destruct (jstr_eqb ky k) eqn:Ey; try reflexivity.
    apply jstr_eqb_eq in Ex, Ey. subst. exfalso. apply Hnotin. now left.
  - rewrite IH1 by exact Hnd. apply IH2.
    apply (Permutation_NoDup (keys_perm l l' H1) Hnd).
Qed.

Lemma forallb_perm {A} (f : A -> bool) (l l' : list A) :
  Permutation l l' -> forallb f l = forallb f l'.
Proof.
  induction 1; simpl; try congruence.
  destruct (f x), (f y); reflexivity.
Qed.

Lemma unexpected_fields_perm (ks ks' : list jstring) :
  Permutation ks ks' -> unexpected_fields ks = unexpected_fields ks'.
Proof.
  intros Hp. unfold unexpected_fields.
  now rewrite (Permutation_length Hp), (forallb_perm _ ks ks' Hp).
Qed.

Lemma handlePost_body_perm (P : Platform) (thanks : jstring) (e : env)
      (m : jstring) (h : list (jstring * jstring)) (b b' : object) (db : store) :
  Permutation b b' -> NoDup (keys b) ->
  handlePost P thanks e {| method := m; headers := h; body := b' |} db =
  handlePost P thanks e {| method := m; headers := h; body := b |} db.
Proof.
  intros Hp Hnd. unfold handlePost. cbn [body].
  rewrite <- (get_perm (lit "name") b b' Hp Hnd).
  rewrite <- (get_perm (lit "message") b b' Hp Hnd).
  rewrite <- (unexpected_fields_perm (keys b) (keys b') (keys_perm b b' Hp)).
  reflexivity.
Qed.

(** X16: the reply and the store do not depend on the order in which the
    parser lists the fields of the body: two requests with the same method
    and headers whose bodies hold the same fields, in any order, get the
    same reply and leave the same store.  (The warning for unexpected
    fields logs the field names in the order of the body; the log is not
    part of the statement.)  Both copies. *)
Theorem X16_field_order_irrelevant
        (P : Platform) (e : env) (req req' : request) (db : store) :
  method req' = method req ->
  headers req' = headers req ->
  Permutation (body req) (body req') ->
  NoDup (keys (body req)) ->
  (reply (Functions.app P e req' db) = reply (Functions.app P e req db) /\
   store_after (Functions.app P e req' db) = store_after (Functions.app P e req db)) /\
  (reply (Part000.app P e req' db) = reply (Part000.app P e req db) /\
   store_after (Part000.app P e req' db) = store_after (Part000.app P e req db)).
Proof.
  destruct req as [m h b], req' as [m' h' b']. cbn [method headers body].
  intros -> -> Hp Hnd.
  unfold Functions.app, Part000.app, Functions.callback, Part000.callback, onRequest.
  cbn [method].
  rewrite !(handlePost_body_perm P _ e m h b b' db Hp Hnd).
  repeat split; reflexivity.
Qed.

Lemma X16_field_order_irrelevant_witness :
  reply (Functions.app Reference.platform (up_at 5)
                       (post_of (lit "  Ada ") (lit " hello there  ")) one_guest) =
  reply (Functions.app Reference.platform (up_at 5) guest_post one_guest).
Proof.
  apply (X16_field_order_irrelevant Reference.platform (up_at 5) guest_post
           (post_of (lit "  Ada ") (lit " hello there  ")) one_guest).
  - reflexivity.
  - reflexivity.
  - apply perm_swap.
  - repeat constructor; simpl; intros H; intuition discriminate.
Defined.

(** X17: the reply to a POST is always one of eight fixed replies (the six
    validation errors, the thanks, the generic server error): no text of
    the request or of the store is ever sent back.  Both copies. *)
Theorem X17_post_replies_are_fixed (P : Platform) (e : env) (req : request) (db : store) :
  method req = lit "POST" ->
  In (reply (Functions.app P e req db)) (post_replies Functions.thanks) /\
  In (reply (Part000.app P e req db)) (post_replies Part000.thanks).
Proof.
  intros Hpost. both_posts Hpost. rewrite !handlePost_first_failure.
  unfold add, post_replies.
  destruct (first_failure req) as [[]|]; [| | | | | |destruct (store_up e)];
    cbn [answer reply error_text In]; split; tauto.
Qed.

Lemma X17_post_replies_are_fixed_witness :
  In (reply (Functions.app Reference.platform (up_at 0) padded_name one_guest))
     (post_replies Functions.thanks).
Proof.
  apply (X17_post_replies_are_fixed Reference.platform (up_at 0) padded_name one_guest).
  reflexivity.
Defined.

Lemma log_discipline_answer (code : nat) (text : jstring) (db : store)
      (l : list entry) :
  (code = 200 /\ exists m, l = [(LOG, m)]) \/
  ((code = 400 \/ code = 405) /\ exists m, l = [(WARN, m)]) \/
  (code = 500 /\ exists l' m, l = l' ++ [(ERROR, m)] /\
                               Forall (fun en => fst en = LOG) l') ->
  log_discipline (answer code text db l) /\ In code [200; 400; 405; 500].
Proof.
  unfold log_discipline. cbn [answer reply status logged].
  intros [[-> H]|[[[-> | ->] H]|[-> H]]];
    (split; [repeat split; intros Hc; try exact H; exfalso; lia|simpl; tauto]).
Qed.

(** What the handler behind the CORS layer does with a request. *)
Lemma callback_discipline (P : Platform) (e : env) (req : request) (db : store) :
  (log_discipline (Functions.callback P e req db) /\
   In (status (reply (Functions.callback P e req db))) [200; 400; 405; 500]) /\
  (log_discipline (Part000.callback P e req db) /\
   In (status (reply (Part000.callback P e req db))) [200; 400; 405; 500]).
Proof.
  assert (Hpost : forall thanks,
             log_discipline (handlePost P thanks e req db) /\
             In (status (reply (handlePost P thanks e req db))) [200; 400; 405; 500]).
  { intros thanks. rewrite handlePost_first_failure.
    destruct (first_failure req) as [c|].
    - apply log_discipline_answer. right. left. split; [now left|].
      unfold warning. eauto.
    - destruct (add P e db _); apply log_discipline_answer.
      + left. split; eauto.
      + right. right. split; [reflexivity|]. exists [], (lit "Error processing POST request:").
        split; [reflexivity|constructor]. }
  unfold Functions.callback, Part000.callback.
  destruct (jstr_eqb (method req) (lit "POST")); [split; apply Hpost|].
  destruct (jstr_eqb (method req) (lit "GET")).
  - rewrite Functions_handleGet_cases, Part000_handleGet_cases.
    destruct (store_up e); cbv zeta.
    + split.
      * destruct (mapM _ _); apply log_discipline_answer.
        -- left. split; eauto.
        -- right. right. split; [reflexivity|]. eexists _, _. split; [reflexivity|].
           repeat constructor.
      * destruct (mapM _ _) as [subs|]; [cbv zeta; destruct (mapM _ _)|];
          apply log_discipline_answer.
        -- left. split; eauto.
        -- right. right. split; [reflexivity|]. eexists _, _. split; [reflexivity|].
           repeat constructor.
        -- right. right. split; [reflexivity|].
           exists [], (lit "Error processing GET request:").
           split; [reflexivity|constructor].
    + split; apply log_discipline_answer; right; right;
        (split; [reflexivity|]);
        exists [], (lit "Error processing GET request:");
        (split; [reflexivity|constructor]).
  - split; apply log_discipline_answer; right; left; (split; [now right|]); eauto.
Qed.

(** X18: every reply has one of the statuses 200, 204, 400, 405 and 500.
    The 204 is the answer of the CORS layer to a preflight (a method that
    upper-cases to OPTIONS) and to nothing else: it has an empty body,
    nothing is logged and the store is left as it is.  For the other
    statuses the log goes with the status: one entry at level LOG for a
    200, one at level WARN for a 400 or a 405, and for a 500 an entry at
    level ERROR last, after LOG entries only.  Both copies. *)
Theorem X18_status_and_log_level (P : Platform) (e : env) (req : request) (db : store) :
  (log_discipline (Functions.app P e req db) /\
   In (status (reply (Functions.app P e req db))) [200; 204; 400; 405; 500] /\
   (status (reply (Functions.app P e req db)) = 204 <->
    is_preflight (method req) = true) /\
   (is_preflight (method req) = true ->
    Functions.app P e req db = answer 204 [] db [])) /\
  (log_discipline (Part000.app P e req db) /\
   In (status (reply (Part000.app P e req db))) [200; 204; 400; 405; 500] /\
   (status (reply (Part000.app P e req db)) = 204 <->
    is_preflight (method req) = true) /\
   (is_preflight (method req) = true ->
    Part000.app P e req db = answer 204 [] db [])).
Proof.
  destruct (callback_discipline P e req db) as [[HF HFs] [HP HPs]].
  unfold Functions.app, Part000.app, onRequest.
  destruct (is_preflight (method req)).
  - split; (split; [|split; [simpl; tauto|split; [tauto|reflexivity]]]);
      (unfold log_discipline; cbn [answer reply status logged];
       repeat split; try reflexivity; intros Hc; exfalso; lia).
  - split; (split; [assumption|split; [|split; [|discriminate]]]).
    + simpl in HFs |- *. tauto.
    + split; [|discriminate]. intros H. rewrite H in HFs. simpl in HFs.
      exfalso. lia.
    + simpl in HPs |- *. tauto.
    + split; [|discriminate]. intros H. rewrite H in HPs. simpl in HPs.
      exfalso. lia.
Qed.

(* ================================================================== *)
(** ** Further properties of GET *)
(* ================================================================== *)

Lemma Functions_render_some (P : Platform) (d : doc) (b : jstring) :
  Functions.renderSubmission P (data d) = Some b ->
  Functions_renders d = true /\ b = Functions_shown_block P d.
Proof.
  intros H. destruct (Functions_renders d) eqn:E.
  - split; [reflexivity|]. rewrite (Functions_render_ok P d E) in H. congruence.
  - rewrite (Functions_render_fails P d E) in H. discriminate H.
Qed.

(** X19: a GET of [functions/index.js] is answered 200 exactly when the
    store answers and, in every document of the snapshot, the [timestamp]
    is a Firestore Timestamp and the name and the message convert to text
    (neither is a map with a field named toString, nor an array holding
    one); otherwise (a missing, [null] or text timestamp or such a map in
    a single document, or a store failure) the whole request gets the 500
    with the fixed text. *)
Theorem X19_Functions_get_succeeds_iff (P : Platform) (e : env) (req : request) (db : store) :
  method req = lit "GET" ->
  (status (reply (Functions.app P e req db)) = 200 <->
   store_up e = true /\
   forall d, In d (snapshot P Functions.LIMIT db) -> Functions_renders d = true) /\
  (status (reply (Functions.app P e req db)) = 200 \/
   reply (Functions.app P e req db) = {| status := 500; sent := msg_get_failed |}).
Proof.
  intros Hget. rewrite (Functions_app_get P e req db Hget). split.
  - split.
    + apply Functions_get_200.
    + intros [Hup Hr]. now rewrite (Functions_get_ok P e db Hup Hr).
  - rewrite Functions_handleGet_cases.
    destruct (store_up e); [|now right]. cbv zeta.
    destruct (mapM _ _); [now left|now right].
Qed.

Lemma X19_Functions_get_succeeds_iff_witness :
  status (reply (Functions.app Reference.platform (up_at 0) get_request one_guest)) = 200.
Proof.
  apply (proj1 (X19_Functions_get_succeeds_iff Reference.platform (up_at 0)
                  get_request one_guest eq_refl)).
  split; [reflexivity|]. intros d [<-|[]]. reflexivity.
Defined.

(** X20: a GET of the second copy is answered 200 exactly when the store
    answers and, in every document of the snapshot, the [timestamp] is a
    falsy value or a Firestore Timestamp and the name and the message
    convert to text (neither is a map with a field named toString, nor an
    array holding one); otherwise the whole request gets the 500 with the
    fixed text. *)
Theorem X20_Part000_get_succeeds_iff (P : Platform) (e : env) (req : request) (db : store) :
  method req = lit "GET" ->
  (status (reply (Part000.app P e req db)) = 200 <->
   store_up e = true /\
   forall d, In d (snapshot P Part000.LIMIT db) -> Part000_renders d = true) /\
  (status (reply (Part000.app P e req db)) = 200 \/
   reply (Part000.app P e req db) = {| status := 500; sent := msg_get_failed |}).
Proof.
  intros Hget. rewrite (Part000_app_get P e req db Hget). split.
  - split.
    + apply Part000_get_200.
    + intros [Hup Hr]. now rewrite (Part000_get_ok P e db Hup Hr).
  - rewrite Part000_handleGet_cases.
    destruct (store_up e); [|now right].
    destruct (mapM _ _) as [subs|]; [|now right]. cbv zeta.
    destruct (mapM _ _); [now left|now right].
Qed.

Lemma X20_Part000_get_succeeds_iff_witness :
  status (reply (Part000.app Reference.platform (up_at 0) get_request bare_record)) = 200.
Proof.
  apply (proj1 (X20_Part000_get_succeeds_iff Reference.platform (up_at 0)
                  get_request bare_record eq_refl)).
  split; [reflexivity|]. intros d [<-|[]]. reflexivity.
Defined.

(** X21: the page a GET of [functions/index.js] serves with status 200 is
    the fixed shell around one block per document of the snapshot, in the
    order of the snapshot: the escaped name, the escaped ISO instant in
    the [data-timestamp] attribute, the escaped [en-US] date as the text of
    the [time] element and the escaped message; the count of documents is
    logged. *)
Theorem X21_Functions_page_contents (P : Platform) (e : env) (req : request) (db : store) :
  method req = lit "GET" ->
  status (reply (Functions.app P e req db)) = 200 ->
  sent (reply (Functions.app P e req db)) =
    Functions.page (listing (map (Functions_shown_block P)
                                 (snapshot P Functions.LIMIT db))) /\
  logged (Functions.app P e req db) =
    [(LOG, retrieved (length (snapshot P Functions.LIMIT db)))].
Proof.
  intros Hget H200. rewrite (Functions_app_get P e req db Hget) in *.
  destruct (Functions_get_200 P e db H200) as [Hup Hr].
  rewrite (Functions_get_ok P e db Hup Hr). split; reflexivity.
Qed.

Lemma X21_Functions_page_contents_witness :
  sent (reply (Functions.app Reference.platform (up_at 0) get_request one_guest)) =
    Functions.page
      (listing (map (Functions_shown_block Reference.platform)
                    (snapshot Reference.platform Functions.LIMIT one_guest))) /\
  logged (Functions.app Reference.platform (up_at 0) get_request one_guest) =
    [(LOG, retrieved (length (snapshot Reference.platform Functions.LIMIT one_guest)))].
Proof.
  apply (X21_Functions_page_contents Reference.platform (up_at 0) get_request one_guest);
    reflexivity.
Defined.

(** X22: the page a GET of the second copy serves with status 200 is the
    fixed shell around one block per document of the snapshot: the escaped
    name or [N/A], an empty [data-timestamp] attribute in every block, the
    escaped [en-US] date or [N/A], and the escaped message or [N/A]; the
    count of documents is logged. *)
Theorem X22_Part000_page_contents (P : Platform) (e : env) (req : request) (db : store) :
  method req = lit "GET" ->
  status (reply (Part000.app P e req db)) = 200 ->
  sent (reply (Part000.app P e req db)) =
    Part000.page (listing (map (shown_block P) (snapshot P Part000.LIMIT db))) /\
  logged (Part000.app P e req db) =
    [(LOG, retrieved (length (snapshot P Part000.LIMIT db)))].
Proof.
  intros Hget H200. rewrite (Part000_app_get P e req db Hget) in *.
  destruct (Part000_get_200 P e db H200) as [Hup Hr].
  rewrite (Part000_get_ok P e db Hup Hr). split; reflexivity.
Qed.

Lemma X22_Part000_page_contents_witness :
  sent (reply (Part000.app Reference.platform (up_at 0) get_request one_guest)) =
    Part000.page
      (listing (map (shown_block Reference.platform)
                    (snapshot Reference.platform Part000.LIMIT one_guest))) /\
  logged (Part000.app Reference.platform (up_at 0) get_request one_guest) =
    [(LOG, retrieved (length (snapshot Reference.platform Part000.LIMIT one_guest)))].
Proof.
  apply (X22_Part000_page_contents Reference.platform (up_at 0) get_request one_guest);
    reflexivity.
Defined.

(** X23: when the store answers and the query returns no document, a GET
    is answered 200 with the shell around the fixed text
    [<p>No submissions yet.</p>], no block, and a count of 0 is logged.
    Both copies. *)
Theorem X23_empty_listing (P : Platform) (e : env) (req : request) (db : store) :
  method req = lit "GET" ->
  store_up e = true ->
  orderByTimestampDesc P db = [] ->
  Functions.app P e req db =
    answer 200 (Functions.page no_submissions) db
           [(LOG, lit "Retrieved 0 submissions.")] /\
  Part000.app P e req db =
    answer 200 (Part000.page no_submissions) db
           [(LOG, lit "Retrieved 0 submissions.")].
Proof.
  intros Hget Hup Hempty.
  rewrite (Functions_app_get P e req db Hget), (Part000_app_get P e req db Hget).
  rewrite Functions_handleGet_cases, Part000_handleGet_cases, Hup.
  unfold snapshot. rewrite Hempty, !firstn_nil. split; reflexivity.
Qed.

Lemma X23_empty_listing_witness :
  Functions.app Reference.platform (up_at 0) get_request [] =
    answer 200 (Functions.page no_submissions) []
           [(LOG, lit "Retrieved 0 submissions.")] /\
  Part000.app Reference.platform (up_at 0) get_request [] =
    answer 200 (Part000.page no_submissions) []
           [(LOG, lit "Retrieved 0 submissions.")].
Proof.
  apply (X23_empty_listing Reference.platform (up_at 0) get_request []); reflexivity.
Defined.

(** X24: when no name and no message of the snapshot is an array, the text
    of the reply to a GET holds the opening tag of a submission block at
    most 500 times in [functions/index.js] and at most 50 times in the
    second copy, and a page served with status 200 holds it exactly once
    per document of the snapshot: nothing a submission contains is read as
    a block of its own. *)
Theorem X24_blocks_in_page_text (P : Platform) (e : env) (req : request) (db : store) :
  method req = lit "GET" ->
  forallb plain_doc (snapshot P Functions.LIMIT db) = true ->
  forallb plain_doc (snapshot P Part000.LIMIT db) = true ->
  (occurrences submission_marker (sent (reply (Functions.app P e req db))) <= 500 /\
   (status (reply (Functions.app P e req db)) = 200 ->
    occurrences submission_marker (sent (reply (Functions.app P e req db))) =
    length (snapshot P Functions.LIMIT db))) /\
  (occurrences submission_marker (sent (reply (Part000.app P e req db))) <= 50 /\
   (status (reply (Part000.app P e req db)) = 200 ->
    occurrences submission_marker (sent (reply (Part000.app P e req db))) =
    length (snapshot P Part000.LIMIT db))).
Proof.
  intros Hget HF HP.
  rewrite (Functions_app_get P e req db Hget), (Part000_app_get P e req db Hget).
  rewrite forallb_forall in HF, HP.
  destruct (get_page_block_count P e db) as [HcF HcP].
  destruct (HcF HF) as [HF1 HF2]. destruct (HcP HP) as [HP1 HP2].
  repeat split; assumption.
Qed.

Lemma X24_blocks_in_page_text_witness :
  occurrences submission_marker
    (sent (reply (Part000.app Reference.platform (up_at 0) get_request (guests 60)))) <= 50.
Proof.
  apply (X24_blocks_in_page_text Reference.platform (up_at 0) get_request (guests 60));
    vm_compute; reflexivity.
Defined.

(** X25: [escapeHtml] escapes strings only and hands every other value
    back as it is; a stored name that is an array of one text therefore
    reaches the page as that text, markup included, in both copies (the
    template joins the array), when the document has a Timestamp and a
    message that converts to text (not a map with a field named toString,
    nor an array holding one). *)
Theorem X25_array_name_is_not_escaped (P : Platform) (d : doc) (s : jstring) :
  get (data d) (lit "name") = VArr [VStr s] ->
  is_timestamp (get (data d) (lit "timestamp")) = true ->
  printable (get (data d) (lit "message")) = true ->
  Functions.renderSubmission P (data d) =
    Some (Functions.block
            s
            (Functions.escapeText (toISOString P (time_of (get (data d) (lit "timestamp")))))
            (Functions.escapeText (toLocaleString P (time_of (get (data d) (lit "timestamp")))))
            (text_of (Functions.escapeHtml (get (data d) (lit "message"))))) /\
  (sub <- Part000.collect P d ;; Part000.renderSubmission sub) =
    Some (Part000.block
            s []
            (Part000.escapeText (toLocaleString P (time_of (get (data d) (lit "timestamp")))))
            (shown_field (get (data d) (lit "message")))).
Proof.
  intros Hname Hts Hm. split.
  - rewrite Functions_render, Hname, (Functions_hole _ Hm).
    destruct (get (data d) (lit "timestamp")); try discriminate Hts.
    reflexivity.
  - assert (Ha : absent_or_timestamp (get (data d) (lit "timestamp")) = true)
      by (destruct (get (data d) (lit "timestamp")); try discriminate Hts; reflexivity).
    rewrite (Part000_collect_ok P d Ha). cbn [bind].
    rewrite Part000_render_collected, Hname, (Part000_hole _ Hm).
    destruct (get (data d) (lit "timestamp")); try discriminate Hts.
    reflexivity.
Qed.

Lemma X25_array_name_is_not_escaped_witness :
  Functions.renderSubmission Reference.platform
    [ (lit "name", VArr [VStr (lit "<script>x</script>")]);
      (lit "message", VStr (lit "hello"));
      (lit "timestamp", VTime 0) ] =
  Some (Functions.block (lit "<script>x</script>") (lit "1970-01-01T00:00:00.000Z")
                        (lit "1/1/1970, 12:00:00 AM") (lit "hello")).
Proof.
  apply (proj1 (X25_array_name_is_not_escaped Reference.platform
                  {| id := lit "doc0";
                     data := [ (lit "name", VArr [VStr (lit "<script>x</script>")]);
                               (lit "message", VStr (lit "hello"));
                               (lit "timestamp", VTime 0) ] |}
                  (lit "<script>x</script>") eq_refl eq_refl eq_refl)).
Defined.

Lemma trim_nonempty_text (s : jstring) :
  1 <= length (trim s) -> negb (jstr_eqb (trim s) []) = true.
Proof. intros H. now rewrite (trim_nil_length s H). Qed.

(** X26: a submission comes back escaped: after a valid POST into the
    empty store, a GET (the store answering, the query returning the one
    document) serves the page with exactly one block, holding the escaped
    trimmed name, the escaped trimmed message and the renderings of the
    clock reading of the POST; in [functions/index.js] the attribute holds
    the ISO instant, in the second copy it is empty. *)
Theorem X26_post_then_get (P : Platform) (e e' : env) (name message : jstring) :
  1 <= length (trim name) -> length name <= 100 ->
  1 <= length (trim message) -> length message <= 2000 ->
  store_up e = true -> store_up e' = true ->
  orderByTimestampDesc P [submission_of P e [] name message] =
    [submission_of P e [] name message] ->
  reply (Functions.app P e' get_request
           (store_after (Functions.app P e (post_of name message) []))) =
    {| status := 200;
       sent := Functions.page
                 (Functions.block (Functions.escapeText (trim name))
                                  (Functions.escapeText (toISOString P (now e)))
                                  (Functions.escapeText (toLocaleString P (now e)))
                                  (Functions.escapeText (trim message))) |} /\
  reply (Part000.app P e' get_request
           (store_after (Part000.app P e (post_of name message) []))) =
    {| status := 200;
       sent := Part000.page
                 (Part000.block (Part000.escapeText (trim name)) []
                                (Part000.escapeText (toLocaleString P (now e)))
                                (Part000.escapeText (trim message))) |}.
Proof.
  intros Hn1 Hn2 Hm1 Hm2 Hup Hup' Horder.
  assert (Hpost : forall thanks,
             store_after (handlePost P thanks e (post_of name message) []) =
             [submission_of P e [] name message]).
  { intros thanks. rewrite handlePost_first_failure.
    rewrite (valid_no_failure (post_of name message) urlencoded name message);
      try assumption; try reflexivity.
    unfold add. now rewrite Hup. }
  rewrite (Functions_app_post P e (post_of name message) [] eq_refl).
  rewrite (Part000_app_post P e (post_of name message) [] eq_refl).
  rewrite !Hpost.
  rewrite (Functions_app_get P e' get_request _ eq_refl).
  rewrite (Part000_app_get P e' get_request _ eq_refl).
  assert (HsF : snapshot P Functions.LIMIT [submission_of P e [] name message] =
                [submission_of P e [] name message])
    by (unfold snapshot; now rewrite Horder).
  assert (HsP : snapshot P Part000.LIMIT [submission_of P e [] name message] =
                [submission_of P e [] name message])
    by (unfold snapshot; now rewrite Horder).
  split.
  - rewrite (Functions_get_ok P e' _ Hup');
      [|rewrite HsF; intros d [<-|[]]; reflexivity].
    rewrite HsF. cbn [answer reply map listing join].
    unfold Functions_shown_block. reflexivity.
  - rewrite (Part000_get_ok P e' _ Hup');
      [|rewrite HsP; intros d [<-|[]]; reflexivity].
    rewrite HsP. cbn [answer reply map listing join].
    unfold shown_block, shown_field, js_or.
    cbn [submission_of data get jstr_eqb lit map list_ascii_of_string N_of_ascii
         N.eqb Pos.eqb andb N_of_digits N.add N.mul Pos.add Pos.mul Pos.succ].
    pose proof (trim_nonempty_text name Hn1) as Tn.
    pose proof (trim_nonempty_text message Hm1) as Tm.
    cbn [truthy]. rewrite Tn, Tm. reflexivity.
Qed.

Lemma X26_post_then_get_witness :
  reply (Functions.app Reference.platform (up_at 99) get_request
           (store_after (Functions.app Reference.platform (up_at 1700000000123)
                           (post_of (lit "  Ada ") (lit "<b>hi</b> ")) []))) =
    {| status := 200;
       sent := Functions.page
                 (Functions.block (lit "Ada") (lit "2023-11-14T22:13:20.123Z")
                                  (lit "11/14/2023, 10:13:20 PM")
                                  (lit "&ltb&gthi&lt/b&gt")) |} /\
  reply (Part000.app Reference.platform (up_at 99) get_request
           (store_after (Part000.app Reference.platform (up_at 1700000000123)
                           (post_of (lit "  Ada ") (lit "<b>hi</b> ")) []))) =
    {| status := 200;
       sent := Part000.page
                 (Part000.block (lit "Ada") [] (lit "11/14/2023, 10:13:20 PM")
                                (lit "&lt;b&gt;hi&lt;/b&gt;")) |}.
Proof.
  apply (X26_post_then_get Reference.platform (up_at 1700000000123) (up_at 99)
           (lit "  Ada ") (lit "<b>hi</b> ")); try reflexivity; simpl; lia.
Defined.

(* ================================================================== *)
(** ** The content type, and the markup of the page *)
(* ================================================================== *)

Lemma starts_with_iff (pat s : jstring) :
  starts_with pat s = true <-> exists post, s = pat ++ post.
Proof.
  revert s. induction pat as [|p pat IH]; intros s; simpl.
  - split; [intros _; now exists s|reflexivity].
  - destruct s as [|c s].
    + split; [discriminate|intros [post H]; discriminate H].
    + rewrite andb_true_iff, N.eqb_eq, IH. split.
      * intros [-> [post ->]]. now exists post.
      * intros [post H]. injection H as -> ->. split; [reflexivity|now exists post].
Qed.

(** [includes] is the search for a contiguous part. *)
Lemma includes_iff (pat s : jstring) :
  includes pat s = true <-> exists pre post, s = pre ++ pat ++ post.
Proof.
  split.
  - induction s as [|c s IH]; simpl; rewrite orb_true_iff; intros [H|H];
      try discriminate H.
    + apply starts_with_iff in H as [post ->]. now exists [], post.
    + apply starts_with_iff in H as [post H]. exists [], post. exact H.
    + destruct (IH H) as (pre & post & ->). now exists (c :: pre), post.
  - intros (pre & post & ->). induction pre as [|c pre IH].
    + assert (H : starts_with pat (pat ++ post) = true)
        by (apply starts_with_iff; now exists post).
      simpl app. destruct (pat ++ post); simpl in *; now rewrite H.
    + simpl. rewrite IH. apply orb_true_r.
Qed.

Lemma content_type_accepted_iff (req : request) :
  fails ContentType req = false <->
  exists pre post, header req (lit "content-type") = VStr (pre ++ urlencoded ++ post).
Proof.
  cbn [fails]. rewrite orb_false_iff, !negb_false_iff. split.
  - intros [_ H]. destruct (header req (lit "content-type")); try discriminate H.
    simpl in H. apply includes_iff in H as (pre & post & ->). now exists pre, post.
  - intros (pre & post & ->).
    assert (Hinc : includes urlencoded (pre ++ urlencoded ++ post) = true)
      by (apply includes_iff; now exists pre, post).
    split; [|exact Hinc]. cbn [truthy].
    destruct (pre ++ urlencoded ++ post) eqn:E; [|reflexivity].
    apply app_eq_nil in E as [_ E]. apply app_eq_nil in E as [E _]. discriminate E.
Qed.

(** X27: a POST gets the 400 of the content type exactly when its
    [content-type] header is absent or does not contain
    [application/x-www-form-urlencoded] as a contiguous part: parameters
    before or after the media type (a charset) are accepted, another
    spelling is not.  Both copies. *)
Theorem X27_content_type_is_substring_match
        (P : Platform) (e : env) (req : request) (db : store) :
  method req = lit "POST" ->
  (reply (Functions.app P e req db) = {| status := 400; sent := msg_content_type |} <->
   ~ exists pre post, header req (lit "content-type") = VStr (pre ++ urlencoded ++ post)) /\
  (reply (Part000.app P e req db) = {| status := 400; sent := msg_content_type |} <->
   ~ exists pre post, header req (lit "content-type") = VStr (pre ++ urlencoded ++ post)).
Proof.
  intros Hpost. both_posts Hpost.
  assert (H : forall thanks,
             reply (handlePost P thanks e req db) =
               {| status := 400; sent := msg_content_type |} <->
             ~ exists pre post,
                 header req (lit "content-type") = VStr (pre ++ urlencoded ++ post)).
  { intros thanks. rewrite (handlePost_reply_400 P thanks e req db ContentType).
    rewrite <- content_type_accepted_iff.
    unfold first_failure, validation_order. cbn [find].
    destruct (fails ContentType req); [split; [discriminate|reflexivity]|].
    split; [|congruence]. 
    repeat match goal with
           | |- context [if ?b then _ else _] => destruct b
           end; discriminate. }
  split; apply H.
Qed.

Lemma X27_content_type_is_substring_match_witness :
  reply (Functions.app Reference.platform (up_at 0)
           {| method := lit "POST";
              headers := [(lit "content-type", lit "application/json")];
              body := [] |} one_guest) =
    {| status := 400; sent := msg_content_type |}.
Proof.
  apply (proj1 (X27_content_type_is_substring_match Reference.platform (up_at 0)
                  {| method := lit "POST";
                     headers := [(lit "content-type", lit "application/json")];
                     body := [] |} one_guest eq_refl)).
  intros H. apply content_type_accepted_iff in H. vm_compute in H. discriminate H.
Defined.

Lemma count_lt_app (a b : jstring) : count_lt (a ++ b) = count_lt a + count_lt b.
Proof. apply count_occ_app. Qed.

Lemma count_lt_free (s : jstring) : lt_free s -> count_lt s = 0.
Proof.
  intros H. apply count_occ_not_In. intros Hin.
  unfold lt_free in H. rewrite Forall_forall in H. now apply (H 60%N Hin).
Qed.

Lemma count_lt_concat (blocks : list jstring) (k : nat) :
  Forall (fun b => count_lt b = k) blocks ->
  count_lt (concat blocks) = length blocks * k.
Proof.
  induction 1 as [|b blocks Hb _ IH]; [reflexivity|].
  simpl. rewrite count_lt_app, Hb, IH. reflexivity.
Qed.

Lemma Functions_block_count_lt (name attr time message : jstring) :
  lt_free name -> lt_free attr -> lt_free time -> lt_free message ->
  count_lt (Functions.block name attr time message) =
  count_lt (Functions.block [] [] [] []).
Proof.
  intros Hn Ha Ht Hm. unfold Functions.block.
  rewrite !count_lt_app.
  rewrite (count_lt_free name Hn), (count_lt_free attr Ha),
          (count_lt_free time Ht), (count_lt_free message Hm).
  change (count_lt []) with 0. lia.
Qed.

Lemma Part000_block_count_lt (name attr time message : jstring) :
  lt_free name -> lt_free attr -> lt_free time -> lt_free message ->
  count_lt (Part000.block name attr time message) =
  count_lt (Part000.block [] [] [] []).
Proof.
  intros Hn Ha Ht Hm. unfold Part000.block.
  rewrite !count_lt_app.
  rewrite (count_lt_free name Hn), (count_lt_free attr Ha),
          (count_lt_free time Ht), (count_lt_free message Hm).
  change (count_lt []) with 0. lia.
Qed.

Lemma listing_count_lt (blocks : list jstring) (k : nat) :
  Forall (fun b => count_lt b = k) blocks ->
  count_lt (listing blocks) =
  match blocks with
  | [] => count_lt no_submissions
  | _ => length blocks * k
  end.
Proof.
  intros H. destruct blocks as [|b blocks]; [reflexivity|].
  unfold listing. rewrite join_nil. now apply count_lt_concat.
Qed.

(** X28: submissions add no [<] to the page: when no name and no message
    of the snapshot is an array, a page served with status 200 holds
    exactly the [<] of its templates, those of the shell and, per document,
    those of the block template (or those of the placeholder when there is
    no document), whatever the names, the messages and the date renderings
    are.  Both copies. *)
Theorem X28_submissions_add_no_markup (P : Platform) (e : env) (req : request) (db : store) :
  method req = lit "GET" ->
  forallb plain_doc (snapshot P Functions.LIMIT db) = true ->
  forallb plain_doc (snapshot P Part000.LIMIT db) = true ->
  (status (reply (Functions.app P e req db)) = 200 ->
   count_lt (sent (reply (Functions.app P e req db))) =
   count_lt (Functions.page []) +
   match snapshot P Functions.LIMIT db with
   | [] => count_lt no_submissions
   | docs => length docs * count_lt (Functions.block [] [] [] [])
   end) /\
  (status (reply (Part000.app P e req db)) = 200 ->
   count_lt (sent (reply (Part000.app P e req db))) =
   count_lt (Part000.page []) +
   match snapshot P Part000.LIMIT db with
   | [] => count_lt no_submissions
   | docs => length docs * count_lt (Part000.block [] [] [] [])
   end).
Proof.
  intros Hget HF HP. rewrite forallb_forall in HF, HP.
  rewrite (Functions_app_get P e req db Hget), (Part000_app_get P e req db Hget).
  split; intros H200.
  - destruct (Functions_get_200 P e db H200) as [Hup Hr].
    rewrite (Functions_get_ok P e db Hup Hr). cbn [answer reply sent].
    unfold Functions.page. rewrite !count_lt_app.
    rewrite (listing_count_lt _ (count_lt (Functions.block [] [] [] []))).
    + rewrite length_map. change (count_lt []) with 0.
      destruct (snapshot P Functions.LIMIT db); simpl map; cbv iota; lia.
    + apply Forall_forall. intros b Hb. apply in_map_iff in Hb as (d & <- & Hd).
      destruct (plain_doc_fields d (HF d Hd)) as [Hn Hm].
      unfold Functions_shown_block. apply Functions_block_count_lt.
      * now apply Functions_field_lt_free.
      * apply markup_free_lt_free, Functions_escapeText_safe.
      * apply markup_free_lt_free, Functions_escapeText_safe.
      * now apply Functions_field_lt_free.
  - destruct (Part000_get_200 P e db H200) as [Hup Hr].
    rewrite (Part000_get_ok P e db Hup Hr). cbn [answer reply sent].
    unfold Part000.page. rewrite !count_lt_app.
    rewrite (listing_count_lt _ (count_lt (Part000.block [] [] [] []))).
    + rewrite length_map. change (count_lt []) with 0.
      destruct (snapshot P Part000.LIMIT db); simpl map; cbv iota; lia.
    + apply Forall_forall. intros b Hb. apply in_map_iff in Hb as (d & <- & Hd).
      destruct (plain_doc_fields d (HP d Hd)) as [Hn Hm].
      unfold shown_block. apply Part000_block_count_lt.
      * now apply Part000_field_lt_free.
      * constructor.
      * apply markup_free_lt_free, Part000_escapeText_safe.
      * now apply Part000_field_lt_free.
Qed.

Lemma X28_submissions_add_no_markup_witness :
  count_lt (sent (reply (Functions.app Reference.platform (up_at 9) get_request
                           tagged_guest))) =
  count_lt (Functions.page []) +
  match snapshot Reference.platform Functions.LIMIT tagged_guest with
  | [] => count_lt no_submissions
  | docs => length docs * count_lt (Functions.block [] [] [] [])
  end.
Proof.
  assert (HF : forallb plain_doc (snapshot Reference.platform Functions.LIMIT tagged_guest)
               = true) by (vm_compute; reflexivity).
  assert (HP : forallb plain_doc (snapshot Reference.platform Part000.LIMIT tagged_guest)
               = true) by (vm_compute; reflexivity).
  assert (H200 : status (reply (Functions.app Reference.platform (up_at 9) get_request
                                  tagged_guest)) = 200) by (vm_compute; reflexivity).
  exact (proj1 (X28_submissions_add_no_markup Reference.platform (up_at 9) get_request
                  tagged_guest eq_refl HF HP) H200).
Defined.

(** X29: [functions/index.js] has no fallback for a missing field: when
    the store answers and it renders every document of the snapshot (the
    timestamp is a Timestamp, the name and the message convert to text),
    the GET is answered 200 and the block of a document without a [name]
    shows the text [undefined] as its name, the block of a document
    without a [message] shows [undefined] as its message; a missing name
    or message never keeps a document from being rendered. *)
Theorem X29_Functions_missing_field_shows_undefined
        (P : Platform) (e : env) (req : request) (db : store) :
  method req = lit "GET" ->
  store_up e = true ->
  (forall d, In d (snapshot P Functions.LIMIT db) -> Functions_renders d = true) ->
  reply (Functions.app P e req db) =
    {| status := 200;
       sent := Functions.page (listing (map (Functions_shown_block P)
                                            (snapshot P Functions.LIMIT db))) |} /\
  forall d,
    (get (data d) (lit "name") = VUndefined ->
     Functions_shown_block P d =
     Functions.block
       (lit "undefined")
       (Functions.escapeText (toISOString P (time_of (get (data d) (lit "timestamp")))))
       (Functions.escapeText (toLocaleString P (time_of (get (data d) (lit "timestamp")))))
       (text_of (Functions.escapeHtml (get (data d) (lit "message"))))) /\
    (get (data d) (lit "message") = VUndefined ->
     Functions_shown_block P d =
     Functions.block
       (text_of (Functions.escapeHtml (get (data d) (lit "name"))))
       (Functions.escapeText (toISOString P (time_of (get (data d) (lit "timestamp")))))
       (Functions.escapeText (toLocaleString P (time_of (get (data d) (lit "timestamp")))))
       (lit "undefined")) /\
    (get (data d) (lit "name") = VUndefined ->
     get (data d) (lit "message") = VUndefined ->
     Functions_renders d = is_timestamp (get (data d) (lit "timestamp"))).
Proof.
  intros Hget Hup Hr.
  rewrite (Functions_app_get P e req db Hget), (Functions_get_ok P e db Hup Hr).
  split; [reflexivity|].
  intros d. unfold Functions_shown_block, Functions_renders. split; [|split].
  - intros ->. reflexivity.
  - intros ->. reflexivity.
  - intros -> ->. cbn [printable]. now rewrite !andb_true_r.
Qed.

Lemma X29_Functions_missing_field_shows_undefined_witness :
  reply (Functions.app Reference.platform (up_at 0) get_request
           [ {| id := lit "doc0"; data := [ (lit "timestamp", VTime 0) ] |} ]) =
    {| status := 200;
       sent := Functions.page
                 (Functions.block (lit "undefined") (lit "1970-01-01T00:00:00.000Z")
                                  (lit "1/1/1970, 12:00:00 AM") (lit "undefined")) |}.
Proof.
  refine (proj1 (X29_Functions_missing_field_shows_undefined Reference.platform (up_at 0)
                   get_request
                   [ {| id := lit "doc0"; data := [ (lit "timestamp", VTime 0) ] |} ]
                   eq_refl eq_refl _)).
  intros d [<-|[]]. reflexivity.
Defined.
